(** * Time blocking engine of the Faith Forward planner

    A shallow embedding of [planner/time_blocker.py] (class [TimeBlocker])
    together with the parts of [planner/event_manager.py] it reads, and the
    properties of the slot finder, the slot scorer, the suggester and the
    conflict predicate.

    Conventions of the embedding.
    - A naive [datetime] is the number of microseconds elapsed since
      0001-01-01T00:00:00, a [timedelta] a number of microseconds, a [date]
      the number of days elapsed since 0001-01-01 (Python's
      [toordinal() - 1]).  0001-01-01 is a Monday, so [weekday] is the day
      number modulo 7.
    - Python bounds dates to the years 1..9999 and a [timedelta] to less
      than a thousand million days, and raises [OverflowError] beyond.  The
      suggester is given twice: without the bounds ([suggest_time_blocks])
      and with the error written out ([suggest_time_blocks_checked], where
      [None] is [OverflowError]); whenever the second returns a list, it is
      the list of the first.
    - A score is read as an exact rational ([Q]); every score is a short
      sum of small constants and of quotients of integers below 61.  The
      minutes of a buffer, [int(td.total_seconds() / 60)], are computed in
      IEEE 754 binary64 as Python computes them.
    - An optional attribute ([None] or a value) is an [option]. *)

From Stdlib Require Import ZArith QArith Qminmax Lia Lqa Permutation Sorted Ascii.
From stdpp Require Import gmap strings list pretty.

Local Open Scope Z_scope.

(** ** Dates and times *)

Abbreviation datetime := Z (only parsing).
Abbreviation timedelta := Z (only parsing).
Abbreviation date := Z (only parsing).

Definition MICROSECOND : timedelta := 1.
Definition SECOND : timedelta := 1000000.
Definition MINUTE : timedelta := 60 * SECOND.
Definition HOUR : timedelta := 60 * MINUTE.
Definition DAY : timedelta := 24 * HOUR.

(** [timedelta(minutes=m)], [timedelta(hours=h)], [timedelta(days=d)]. *)
Definition timedelta_minutes (m : Z) : timedelta := m * MINUTE.
Definition timedelta_hours (h : Z) : timedelta := h * HOUR.
Definition timedelta_days (d : Z) : timedelta := d * DAY.

(** [datetime.time(hour, minute)]; seconds and microseconds are always 0 in
    this program. *)
Record time := mk_time { time_hour : Z; time_minute : Z }.

(** [dt.date()], [dt.hour], [dt.minute], [dt.weekday()]. *)
Definition date_of (dt : datetime) : date := dt / DAY.
Definition hour_of (dt : datetime) : Z := (dt mod DAY) / HOUR.
Definition minute_of (dt : datetime) : Z := (dt mod HOUR) / MINUTE.
Definition date_weekday (d : date) : Z := d mod 7.
Definition weekday (dt : datetime) : Z := date_weekday (date_of dt).

(** [datetime.combine(d, t)]. *)
Definition combine (d : date) (t : time) : datetime :=
  d * DAY + time_hour t * HOUR + time_minute t * MINUTE.

(** [datetime.min.time()] is midnight. *)
Definition min_time : time := mk_time 0 0.

(** A readable constructor for examples: day number, hour, minute. *)
Definition at_time (d : date) (h m : Z) : datetime := combine d (mk_time h m).

(** ** Events and the event store ([event_manager.py]) *)

Module Event.
Record t := mk {
  id : string;
  title : string;
  start_time : option datetime;
  end_time : option datetime
}.
End Event.

Abbreviation Event := Event.t.

(** The [events] table, in row order. *)
Record EventManager := mk_EventManager { rows : list Event }.

(** A comparison against SQL [NULL] is not true. *)
Definition sql_ge (x : option datetime) (y : datetime) : bool :=
  match x with Some v => y <=? v | None => false end.
Definition sql_le (x : option datetime) (y : datetime) : bool :=
  match x with Some v => v <=? y | None => false end.

(** [ORDER BY start_time]: ascending, [NULL] first. *)
Definition start_leb (a b : Event) : bool :=
  match Event.start_time a, Event.start_time b with
  | None, _ => true
  | Some _, None => false
  | Some x, Some y => x <=? y
  end.

(** ** A stable sort

    [sorted(l, key=k)] and [l.sort(key=k, reverse=True)] are both stable:
    elements that compare equal keep their relative order.  [leb x y] says
    that [x] may stand before [y]. *)
Section StableSort.
Context {A : Type} (leb : A -> A -> bool).

Fixpoint insert_sorted (x : A) (l : list A) : list A :=
  match l with
  | [] => [x]
  | y :: l' => if leb x y then x :: l else y :: insert_sorted x l'
  end.

Fixpoint stable_sort (l : list A) : list A :=
  match l with
  | [] => []
  | x :: l' => insert_sorted x (stable_sort l')
  end.

End StableSort.

(** [EventManager.get_events(start_date, end_date)] with both bounds given,
    the only form the time blocker uses. *)
Definition get_events (em : EventManager) (start_date end_date : datetime)
  : list Event :=
  stable_sort start_leb
    (List.filter (fun e =>
       (sql_ge (Event.start_time e) start_date
          && sql_le (Event.start_time e) end_date)
       || (sql_ge (Event.end_time e) start_date
          && sql_le (Event.end_time e) end_date)
       || (sql_le (Event.start_time e) start_date
          && sql_ge (Event.end_time e) end_date))
       (rows em)).

(** ** Time blocks and the blocker's configuration ([time_blocker.py]) *)

Module TimeBlock.
Record t := mk {
  start_time : datetime;
  end_time : datetime;
  score : Q;
  reason : string
}.
End TimeBlock.

Abbreviation TimeBlock := TimeBlock.t.

(** One entry of [event_type_preferences]; anchors are (hour, minute). *)
Record Profile := mk_Profile {
  preferred_times : list (Z * Z);
  avoid_times : list (Z * Z);
  min_duration : Z;
  max_duration : Z
}.

Record TimeBlocker := mk_TimeBlocker {
  event_manager : EventManager;
  work_start : time;
  work_end : time;
  event_type_preferences : gmap string Profile
}.

(** [TimeBlocker.__init__]. *)
Definition TimeBlocker_init (event_manager : EventManager) : TimeBlocker :=
  {| event_manager := event_manager;
     work_start := mk_time 9 0;
     work_end := mk_time 17 0;
     event_type_preferences :=
       <["meeting" := mk_Profile [(10, 0); (14, 0); (15, 0)]
                                 [(12, 0); (17, 0)] 30 120]>
       (<["call" := mk_Profile [(10, 0); (14, 0); (15, 30)]
                               [(12, 0); (17, 0)] 15 60]>
       (<["focus" := mk_Profile [(9, 0); (10, 0); (14, 0)]
                                [(12, 0); (16, 0)] 60 240]>
       (<["lunch" := mk_Profile [(12, 0); (12, 30); (13, 0)]
                                [(9, 0); (16, 0)] 30 90]>
       (<["break" := mk_Profile [(10, 30); (15, 0); (15, 30)]
                                [(12, 0); (17, 0)] 15 30]> ∅)))) |}.

(** *** The free-slot finder *)

(** The interval of an event that has both a start and an end. *)
Definition span (e : Event) : option (datetime * datetime) :=
  match Event.start_time e, Event.end_time e with
  | Some s, Some t => Some (s, t)
  | _, _ => None
  end.

(** [[e for e in day_events if e.start_time and e.end_time]], each event
    kept as its interval: the finder reads nothing else of an event. *)
Definition spans (day_events : list Event) : list (datetime * datetime) :=
  omap span day_events.

Definition span_start_leb (a b : datetime * datetime) : bool :=
  fst a <=? fst b.

(** The loop [for i in range(len(sorted_events) - 1)] over consecutive
    events. *)
Fixpoint slots_between (sorted_events : list (datetime * datetime))
  (duration : timedelta) : list (datetime * datetime) :=
  match sorted_events with
  | current_event :: ((next_event :: _) as rest) =>
      let gap_start := snd current_event in
      let gap_end := fst next_event in
      (if duration <=? gap_end - gap_start then
         let slot_start := gap_start in
         let slot_end := slot_start + duration in
         if slot_end <=? gap_end then [(slot_start, slot_end)] else []
       else [])
      ++ slots_between rest duration
  | _ => []
  end.

(** [TimeBlocker._find_free_slots]. *)
Definition _find_free_slots (work_start work_end : datetime)
  (day_events : list Event) (duration : timedelta)
  : list (datetime * datetime) :=
  let sorted_events := stable_sort span_start_leb (spans day_events) in
  (* slot before the first event *)
  let before :=
    match sorted_events with
    | [] =>
        if duration <=? work_end - work_start
        then [(work_start, work_start + duration)] else []
    | first :: _ =>
        if work_start <? fst first then
          if duration <=? fst first - work_start
          then [(work_start, work_start + duration)] else []
        else []
    end in
  (* slots between events *)
  let between := slots_between sorted_events duration in
  (* slot after the last event *)
  let after :=
    match last sorted_events with
    | Some last_event =>
        if duration <=? work_end - snd last_event then
          let slot_start := snd last_event in
          let slot_end := slot_start + duration in
          if slot_end <=? work_end then [(slot_start, slot_end)] else []
        else []
    | None =>
        if duration <=? work_end - work_start
        then [(work_start, work_start + duration)] else []
    end in
  before ++ between ++ after.

(** *** Python helpers used by the scorer *)

(** [max(a, b)] and [min(a, b)] on numbers: the first argument wins ties. *)
Definition py_max (a b : Q) : Q := if Qle_bool b a then a else b.
Definition py_min (a b : Q) : Q := if Qle_bool a b then a else b.

(** [max(l, key=k)] and [min(l, key=k)] on a non-empty list [x :: l]: the
    first extremal element is returned. *)
Fixpoint py_max_by {A : Type} (key : A -> Z) (x : A) (l : list A) : A :=
  match l with
  | [] => x
  | y :: l' => py_max_by key (if key x <? key y then y else x) l'
  end.

Fixpoint py_min_by {A : Type} (key : A -> Z) (x : A) (l : list A) : A :=
  match l with
  | [] => x
  | y :: l' => py_min_by key (if key y <? key x then y else x) l'
  end.

(** [str.lower()] as it acts on ASCII text: the letters A to Z are lowered
    and every other character is unchanged.  (Python also lowers letters
    outside ASCII: the embedding of a title is faithful for ASCII
    titles.) *)
Definition lower_ascii (c : ascii) : ascii :=
  let n := nat_of_ascii c in
  if ((65 <=? n) && (n <=? 90))%nat then ascii_of_nat (n + 32) else c.

Fixpoint lower (s : string) : string :=
  match s with
  | EmptyString => EmptyString
  | String c s' => String (lower_ascii c) (lower s')
  end.

(** [keyword in s]: substring test. *)
Fixpoint contains (keyword s : string) : bool :=
  String.prefix keyword s ||
  match s with
  | EmptyString => false
  | String _ s' => contains keyword s'
  end.

(** *** Floating-point quotients

    [td.total_seconds() / 60] is computed in IEEE 754 binary64: a quotient
    is the value [m / 2 ^ s] with [m] the quotient rounded to the nearest
    integer (a tie goes to the even one) at the scale where
    [2 ^ 52 <= m <= 2 ^ 53].  Quotients here are at least [10 ^ -6] when
    they are not 0 and stay far below [2 ^ 1024], so neither subnormal
    numbers nor overflow arise. *)

(** [a / b] rounded to the nearest integer, a tie to the even one. *)
Definition rne_div (a b : Z) : Z :=
  let q := a / b in
  let r := a mod b in
  if 2 * r <? b then q
  else if b <? 2 * r then q + 1
  else if Z.even q then q else q + 1.

(** Whether [d * 2 ^ e <= n]. *)
Definition scaled_le (d e n : Z) : bool :=
  if 0 <=? e then d * 2 ^ e <=? n else d <=? n * 2 ^ (- e).

(** The binary64 value of [n / d], for [0 <= n] and [0 < d], as a mantissa
    [m] and a shift [s]: the value is [m / 2 ^ s]. *)
Definition float_quotient (n d : Z) : Z * Z :=
  if n =? 0 then (0, 0)
  else
    let e0 := Z.log2 n - Z.log2 d in
    let e := if scaled_le d e0 n then e0 else e0 - 1 in
    let s := 52 - e in
    let m :=
      if 0 <=? s then rne_div (n * 2 ^ s) d else rne_div n (d * 2 ^ (- s)) in
    (m, s).

(** [int(td.total_seconds() / 60)] for a timedelta of [us >= 0]
    microseconds: [total_seconds()] is the binary64 value of [us / 10 ** 6],
    the quotient by 60 is rounded again, and [int] truncates. *)
Definition float_minutes (us : timedelta) : Z :=
  let '(m1, s1) := float_quotient us 1000000 in
  let '(m2, s2) :=
    if 0 <=? s1 then float_quotient m1 (60 * 2 ^ s1)
    else float_quotient (m1 * 2 ^ (- s1)) 60 in
  if 0 <=? s2 then m2 / 2 ^ s2 else m2 * 2 ^ (- s2).

(** *** Buffers and clustering *)

(** [TimeBlocker._get_buffer_time]; the difference taken is never negative,
    by the choice of the relevant events. *)
Definition _get_buffer_time (target_time : datetime) (day_events : list Event)
  (before : bool) : Z :=
  let relevant_events :=
    List.filter (fun e : datetime * datetime =>
                   if before then snd e <=? target_time
                   else target_time <=? fst e)
                (spans day_events) in
  match relevant_events with
  | [] => 60
  | e :: rest =>
      if before then
        let closest_event := py_max_by snd e rest in
        float_minutes (target_time - snd closest_event)
      else
        let closest_event := py_min_by fst e rest in
        float_minutes (fst closest_event - target_time)
  end.

(** The table local to [_are_event_types_similar]. *)
Definition type_keywords : gmap string (list string) :=
  <["meeting" := (["meeting"; "standup"; "sync"; "review"; "discussion"])]>
  (<["call" := (["call"; "phone"; "interview"; "chat"])]>
  (<["focus" := (["focus"; "work"; "coding"; "development"; "analysis"])]>
  (<["lunch" := (["lunch"; "meal"; "eat"; "food"])]>
  (<["break" := (["break"; "rest"; "coffee"; "tea"])]> ∅)))).

(** [TimeBlocker._are_event_types_similar]. *)
Definition _are_event_types_similar (type1 event_title : string) : bool :=
  let title_lower := lower event_title in
  let keywords := default [] (type_keywords !! type1) in
  existsb (fun keyword => contains keyword title_lower) keywords.

(** [TimeBlocker._count_similar_events_nearby]. *)
Definition _count_similar_events_nearby (start_time end_time : datetime)
  (event_type : string) (day_events : list Event) : Z :=
  let window_start := start_time - timedelta_hours 2 in
  let window_end := end_time + timedelta_hours 2 in
  fold_left
    (fun count event =>
       match Event.start_time event with
       | None => count
       | Some s =>
           if (window_start <=? s) && (s <=? window_end) then
             if _are_event_types_similar event_type (Event.title event)
             then count + 1 else count
           else count
       end)
    day_events 0.

(** *** The slot scorer *)

Definition minute_offset (hour minute : Z) : Z := hour * 60 + minute.

(** The loop over [preferred_times]. *)
Definition add_preferred (hour minute : Z) (preferred_times : list (Z * Z))
  (score : Q) : Q :=
  fold_left
    (fun score '(pref_hour, pref_minute) =>
       let time_diff :=
         Z.abs (minute_offset hour minute
                - minute_offset pref_hour pref_minute) in
       if time_diff <=? 30
       then (score + (20 - (inject_Z time_diff / 30 * 20)))%Q
       else score)
    preferred_times score.

(** The loop over [avoid_times]. *)
Definition sub_avoided (hour minute : Z) (avoid_times : list (Z * Z))
  (score : Q) : Q :=
  fold_left
    (fun score '(avoid_hour, avoid_minute) =>
       let time_diff :=
         Z.abs (minute_offset hour minute
                - minute_offset avoid_hour avoid_minute) in
       if time_diff <=? 60
       then (score - (15 - (inject_Z time_diff / 60 * 15)))%Q
       else score)
    avoid_times score.

Definition is_in (x : string) (l : list string) : bool :=
  existsb (String.eqb x) l.

(** The body of [TimeBlocker._score_time_slot] up to the final clamp. *)
Definition score_before_clamp (self : TimeBlocker)
  (start_time end_time : datetime) (event_type : string)
  (day_events : list Event) : Q :=
  let score := 50%Q in
  let prefs := event_type_preferences self !! event_type in
  let hour := hour_of start_time in
  let minute := minute_of start_time in
  let preferred_times :=
    match prefs with Some p => preferred_times p | None => [] end in
  let avoid_times :=
    match prefs with Some p => avoid_times p | None => [] end in
  let score := add_preferred hour minute preferred_times score in
  let score := sub_avoided hour minute avoid_times score in
  let buffer_before := _get_buffer_time start_time day_events true in
  let buffer_after := _get_buffer_time end_time day_events false in
  let score := if 15 <=? buffer_before then (score + 10)%Q else score in
  let score := if 15 <=? buffer_after then (score + 10)%Q else score in
  let weekday := weekday start_time in
  let score :=
    if weekday =? 0 then (score + 5)%Q
    else if weekday =? 4 then (score - 5)%Q
    else if 5 <=? weekday then (score - 20)%Q
    else score in
  let score :=
    if (9 <=? hour) && (hour <=? 11) then
      if is_in event_type ["focus"; "meeting"] then (score + 15)%Q else score
    else if (14 <=? hour) && (hour <=? 16) then
      if is_in event_type ["meeting"; "call"] then (score + 10)%Q else score
    else if 17 <=? hour then (score - 20)%Q
    else score in
  let score :=
    if (12 <=? hour) && (hour <=? 13) && negb (String.eqb event_type "lunch")
    then (score - 25)%Q else score in
  let similar_events_nearby :=
    _count_similar_events_nearby start_time end_time event_type day_events in
  let score :=
    if 0 <? similar_events_nearby
    then (score + inject_Z (5 * similar_events_nearby))%Q else score in
  score.

(** [TimeBlocker._score_time_slot]. *)
Definition _score_time_slot (self : TimeBlocker)
  (start_time end_time : datetime) (event_type : string)
  (day_events : list Event) : Q :=
  py_max 0 (py_min 100
    (score_before_clamp self start_time end_time event_type day_events)).

(** *** Reasons *)

Definition weekday_names : list string :=
  ["Monday"; "Tuesday"; "Wednesday"; "Thursday"; "Friday"; "Saturday";
   "Sunday"].

(** [TimeBlocker._generate_reason]. *)
Definition _generate_reason (start_time end_time : datetime)
  (event_type : string) (day_events : list Event) : string :=
  let reasons : list string := [] in
  let hour := hour_of start_time in
  let reasons :=
    if (9 <=? hour) && (hour <=? 11)
    then reasons ++ ["optimal morning focus time"]
    else if (14 <=? hour) && (hour <=? 16)
    then reasons ++ ["productive afternoon slot"]
    else if hour =? 12 then reasons ++ ["lunch time"]
    else if 17 <=? hour then reasons ++ ["after-hours slot"]
    else reasons in
  let buffer_before := _get_buffer_time start_time day_events true in
  let buffer_after := _get_buffer_time end_time day_events false in
  let reasons :=
    if (30 <=? buffer_before) && (30 <=? buffer_after)
    then reasons ++ ["well-spaced with buffer time"]
    else if (15 <=? buffer_before) || (15 <=? buffer_after)
    then reasons ++ ["has buffer time"]
    else reasons in
  let similar_count :=
    _count_similar_events_nearby start_time end_time event_type day_events in
  let reasons :=
    if 0 <? similar_count
    then reasons ++ ["groups with " +:+ pretty similar_count
                     +:+ " similar events"]
    else reasons in
  let weekday_name :=
    default "" (weekday_names !! Z.to_nat (weekday start_time)) in
  let reasons :=
    if weekday start_time =? 0 then reasons ++ ["fresh start of week"]
    else if weekday start_time =? 4 then reasons ++ ["end of week wrap-up"]
    else reasons in
  let reasons :=
    match reasons with [] => ["available time slot"] | _ => reasons end in
  weekday_name +:+ " - " +:+ String.concat ", " reasons.

(** *** The suggester *)

(** [TimeBlocker._is_workday]. *)
Definition _is_workday (date_obj : date) : bool := date_weekday date_obj <? 5.

(** The events of one day, as [_analyze_day] selects them:
    [[e for e in existing_events
      if e.start_time and day_start <= e.start_time < day_end]]. *)
Definition events_on (date_obj : date) (existing_events : list Event)
  : list Event :=
  let day_start := combine date_obj min_time in
  let day_end := day_start + timedelta_days 1 in
  List.filter (fun e =>
                 match Event.start_time e with
                 | Some s => (day_start <=? s) && (s <? day_end)
                 | None => false
                 end)
              existing_events.

(** [TimeBlocker._analyze_day]. *)
Definition _analyze_day (self : TimeBlocker) (date_obj : date)
  (duration : timedelta) (event_type : string) (existing_events : list Event)
  : list TimeBlock :=
  let day_events := events_on date_obj existing_events in
  let work_start := combine date_obj (work_start self) in
  let work_end := combine date_obj (work_end self) in
  let free_slots := _find_free_slots work_start work_end day_events duration in
  map (fun '(start_time, end_time) =>
         let score :=
           _score_time_slot self start_time end_time event_type day_events in
         let reason :=
           _generate_reason start_time end_time event_type day_events in
         TimeBlock.mk start_time end_time score reason)
      free_slots.

(** The loop [while current_date <= end_date_only] of [suggest_time_blocks];
    [fuel] bounds the number of iterations. *)
Fixpoint while_days (fuel : nat) (self : TimeBlocker) (duration : timedelta)
  (event_type : string) (existing_events : list Event) (end_date_only : date)
  (current_date : date) (suggestions : list TimeBlock) : list TimeBlock :=
  match fuel with
  | O => suggestions
  | S fuel' =>
      if current_date <=? end_date_only then
        let suggestions :=
          if _is_workday current_date
          then suggestions
               ++ _analyze_day self current_date duration event_type
                    existing_events
          else suggestions in
        while_days fuel' self duration event_type existing_events
          end_date_only (current_date + 1) suggestions
      else suggestions
  end.

(** [key=lambda x: x.score, reverse=True]: [a] may stand before [b]. *)
Definition score_geb (a b : TimeBlock) : bool :=
  Qle_bool (TimeBlock.score b) (TimeBlock.score a).

(** The slice [l[:n]]: a negative [n] counts from the end. *)
Definition slice_to {A : Type} (n : Z) (l : list A) : list A :=
  if 0 <=? n then take (Z.to_nat n) l
  else take (length l - Z.to_nat (- n)) l.

(** [TimeBlocker.suggest_time_blocks]; [now] is what [datetime.now()] reads
    when [start_date] is omitted.  The loop needs one iteration per date
    from the first to the last, which is the fuel it gets. *)
Definition suggest_time_blocks (self : TimeBlocker) (now : datetime)
  (duration_minutes : Z) (event_type : string)
  (start_date end_date : option datetime) (max_suggestions : Z)
  : list TimeBlock :=
  let start_date := default now start_date in
  let end_date := default (start_date + timedelta_days 7) end_date in
  let duration := timedelta_minutes duration_minutes in
  let existing_events := get_events (event_manager self) start_date end_date in
  let current_date := date_of start_date in
  let end_date_only := date_of end_date in
  let suggestions :=
    while_days (Z.to_nat (end_date_only - current_date + 1)) self duration
      event_type existing_events end_date_only current_date [] in
  let suggestions := stable_sort score_geb suggestions in
  slice_to max_suggestions suggestions.

(** [TimeBlocker.suggest_optimal_meeting_times]; it reads the clock twice,
    [now1] then [now2], and leaves [max_suggestions] at its default. *)
Definition suggest_optimal_meeting_times (self : TimeBlocker)
  (now1 now2 : datetime) (participants : list string) (duration_minutes : Z)
  (date_range_days : Z) : list TimeBlock :=
  suggest_time_blocks self now1 duration_minutes "meeting"
    (Some now1) (Some (now2 + timedelta_days date_range_days)) 5.

(** *** Conflicts *)

(** [TimeBlocker._events_overlap]. *)
Definition _events_overlap (event1 event2 : Event) : bool :=
  match Event.start_time event1, Event.end_time event1,
        Event.start_time event2, Event.end_time event2 with
  | Some start1, Some end1, Some start2, Some end2 =>
      (start1 <? end2) && (start2 <? end1)
  | _, _, _, _ => false
  end.

Record Conflict := mk_Conflict {
  event1 : string;
  event2 : string;
  overlap_start : option datetime;
  overlap_end : option datetime
}.

(** [max(a, b)] and [min(a, b)] of two attributes that are both set. *)
Definition omax (a b : option datetime) : option datetime :=
  match a, b with Some x, Some y => Some (Z.max x y) | _, _ => None end.
Definition omin (a b : option datetime) : option datetime :=
  match a, b with Some x, Some y => Some (Z.min x y) | _, _ => None end.

(** The conflict scan of [TimeBlocker.analyze_schedule_conflicts]: each
    event against the events after it in the list. *)
Fixpoint find_conflicts (events : list Event) : list Conflict :=
  match events with
  | [] => []
  | event1 :: rest =>
      flat_map (fun event2 =>
                  if _events_overlap event1 event2 then
                    [mk_Conflict (Event.title event1) (Event.title event2)
                       (omax (Event.start_time event1)
                             (Event.start_time event2))
                       (omin (Event.end_time event1) (Event.end_time event2))]
                  else [])
               rest
      ++ find_conflicts rest
  end.

(** The suggestions of [suggest_time_blocks] in generation order, before
    they are sorted and cut. *)
Definition all_suggestions (self : TimeBlocker) (now : datetime)
  (duration_minutes : Z) (event_type : string)
  (start_date end_date : option datetime) : list TimeBlock :=
  let start_date := default now start_date in
  let end_date := default (start_date + timedelta_days 7) end_date in
  let existing_events := get_events (event_manager self) start_date end_date in
  while_days (Z.to_nat (date_of end_date - date_of start_date + 1)) self
    (timedelta_minutes duration_minutes) event_type existing_events
    (date_of end_date) (date_of start_date) [].

(** *** The suggester with the errors of date arithmetic

    Python's [datetime] covers the years 1 to 9999 and [timedelta] less than
    a thousand million days either way; an operation whose result leaves the
    range raises [OverflowError].  The definitions below repeat the
    suggester with that error written out: [None] is [OverflowError].  A
    difference of two datetimes is always in the range of [timedelta]. *)

(** [date.max], 9999-12-31. *)
Definition MAX_DATE : date := 3652058.

Definition valid_datetime (dt : datetime) : bool :=
  (0 <=? dt) && (dt <? (MAX_DATE + 1) * DAY).

Definition valid_timedelta (td : timedelta) : bool :=
  (- 999999999 * DAY <=? td) && (td <? 1000000000 * DAY).

(** [dt + td] and [dt - td] on a [datetime]. *)
Definition datetime_add (dt : datetime) (td : timedelta) : option datetime :=
  if valid_datetime (dt + td) then Some (dt + td) else None.
Definition datetime_sub (dt : datetime) (td : timedelta) : option datetime :=
  if valid_datetime (dt - td) then Some (dt - td) else None.

(** [d + timedelta(days=1)] on a [date]. *)
Definition date_add_day (d : date) : option date :=
  if (0 <=? d + 1) && (d + 1 <=? MAX_DATE) then Some (d + 1) else None.

(** [timedelta(minutes=m)]. *)
Definition timedelta_minutes_checked (m : Z) : option timedelta :=
  if valid_timedelta (timedelta_minutes m) then Some (timedelta_minutes m)
  else None.

Fixpoint slots_between_checked (sorted_events : list (datetime * datetime))
  (duration : timedelta) : option (list (datetime * datetime)) :=
  match sorted_events with
  | current_event :: ((next_event :: _) as rest) =>
      let gap_start := snd current_event in
      let gap_end := fst next_event in
      found ←
        (if duration <=? gap_end - gap_start then
           let slot_start := gap_start in
           slot_end ← datetime_add slot_start duration;
           if slot_end <=? gap_end then Some [(slot_start, slot_end)]
           else Some []
         else Some []);
      others ← slots_between_checked rest duration;
      Some (found ++ others)
  | _ => Some []
  end.

Definition _find_free_slots_checked (work_start work_end : datetime)
  (day_events : list Event) (duration : timedelta)
  : option (list (datetime * datetime)) :=
  let sorted_events := stable_sort span_start_leb (spans day_events) in
  before ←
    match sorted_events with
    | [] =>
        if duration <=? work_end - work_start
        then slot_end ← datetime_add work_start duration;
             Some [(work_start, slot_end)]
        else Some []
    | first :: _ =>
        if work_start <? fst first then
          if duration <=? fst first - work_start
          then slot_end ← datetime_add work_start duration;
               Some [(work_start, slot_end)]
          else Some []
        else Some []
    end;
  between ← slots_between_checked sorted_events duration;
  after ←
    match last sorted_events with
    | Some last_event =>
        if duration <=? work_end - snd last_event then
          let slot_start := snd last_event in
          slot_end ← datetime_add slot_start duration;
          if slot_end <=? work_end then Some [(slot_start, slot_end)]
          else Some []
        else Some []
    | None =>
        if duration <=? work_end - work_start
        then slot_end ← datetime_add work_start duration;
             Some [(work_start, slot_end)]
        else Some []
    end;
  Some (before ++ between ++ after).

Definition _count_similar_events_nearby_checked
  (start_time end_time : datetime) (event_type : string)
  (day_events : list Event) : option Z :=
  window_start ← datetime_sub start_time (timedelta_hours 2);
  window_end ← datetime_add end_time (timedelta_hours 2);
  Some (fold_left
          (fun count event =>
             match Event.start_time event with
             | None => count
             | Some s =>
                 if (window_start <=? s) && (s <=? window_end) then
                   if _are_event_types_similar event_type (Event.title event)
                   then count + 1 else count
                 else count
             end)
          day_events 0).

(** The scorer and the reason raise where their call of
    [_count_similar_events_nearby] raises, and nowhere else. *)
Definition _score_time_slot_checked (self : TimeBlocker)
  (start_time end_time : datetime) (event_type : string)
  (day_events : list Event) : option Q :=
  _ ← _count_similar_events_nearby_checked start_time end_time event_type
        day_events;
  Some (_score_time_slot self start_time end_time event_type day_events).

Definition _generate_reason_checked (start_time end_time : datetime)
  (event_type : string) (day_events : list Event) : option string :=
  _ ← _count_similar_events_nearby_checked start_time end_time event_type
        day_events;
  Some (_generate_reason start_time end_time event_type day_events).

Definition _analyze_day_checked (self : TimeBlocker) (date_obj : date)
  (duration : timedelta) (event_type : string) (existing_events : list Event)
  : option (list TimeBlock) :=
  let day_start := combine date_obj min_time in
  day_end ← datetime_add day_start (timedelta_days 1);
  let day_events :=
    List.filter (fun e =>
                   match Event.start_time e with
                   | Some s => (day_start <=? s) && (s <? day_end)
                   | None => false
                   end)
                existing_events in
  let work_start := combine date_obj (work_start self) in
  let work_end := combine date_obj (work_end self) in
  free_slots ←
    _find_free_slots_checked work_start work_end day_events duration;
  mapM (fun '(start_time, end_time) =>
          score ← _score_time_slot_checked self start_time end_time
                    event_type day_events;
          reason ← _generate_reason_checked start_time end_time event_type
                     day_events;
          Some (TimeBlock.mk start_time end_time score reason))
       free_slots.

Fixpoint while_days_checked (fuel : nat) (self : TimeBlocker)
  (duration : timedelta) (event_type : string) (existing_events : list Event)
  (end_date_only : date) (current_date : date) (suggestions : list TimeBlock)
  : option (list TimeBlock) :=
  match fuel with
  | O => Some suggestions
  | S fuel' =>
      if current_date <=? end_date_only then
        suggestions ←
          (if _is_workday current_date
           then day_suggestions ←
                  _analyze_day_checked self current_date duration event_type
                    existing_events;
                Some (suggestions ++ day_suggestions)
           else Some suggestions);
        current_date ← date_add_day current_date;
        while_days_checked fuel' self duration event_type existing_events
          end_date_only current_date suggestions
      else Some suggestions
  end.

Definition suggest_time_blocks_checked (self : TimeBlocker) (now : datetime)
  (duration_minutes : Z) (event_type : string)
  (start_date end_date : option datetime) (max_suggestions : Z)
  : option (list TimeBlock) :=
  let start_date := default now start_date in
  end_date ←
    match end_date with
    | Some end_date => Some end_date
    | None => datetime_add start_date (timedelta_days 7)
    end;
  duration ← timedelta_minutes_checked duration_minutes;
  let existing_events := get_events (event_manager self) start_date end_date in
  let current_date := date_of start_date in
  let end_date_only := date_of end_date in
  suggestions ←
    while_days_checked (Z.to_nat (end_date_only - current_date + 1)) self
      duration event_type existing_events end_date_only current_date [];
  let suggestions := stable_sort score_geb suggestions in
  Some (slice_to max_suggestions suggestions).

(** *** The rest of the schedule analysis *)

(** [TimeBlock.duration]. *)
Definition TimeBlock_duration (self : TimeBlock) : timedelta :=
  TimeBlock.end_time self - TimeBlock.start_time self.

Module Gap.
Record t := mk {
  after_event : string;
  before_event : string;
  gap_duration_hours : Q;
  start_time : datetime;
  end_time : datetime
}.
End Gap.

Abbreviation Gap := Gap.t.

Module Overload.
Record t := mk { date : date; event_count : Z }.
End Overload.

Abbreviation Overload := Overload.t.

Module Analysis.
Record t := mk {
  total_events : nat;
  conflicts : list Conflict;
  gaps : list Gap;
  overloaded_days : list Overload;
  optimization_suggestions : list string
}.
End Analysis.

Abbreviation Analysis := Analysis.t.

Definition has_both_times (e : Event) : bool :=
  match Event.start_time e, Event.end_time e with
  | Some _, Some _ => true
  | _, _ => false
  end.

(** The gap scan of [analyze_schedule_conflicts]: the loop over consecutive
    events of [sorted_events]; every event of that list has both times.
    [td.total_seconds() / 3600] is the number of microseconds over
    3600000000. *)
Fixpoint find_gaps (sorted_events : list Event) : list Gap :=
  match sorted_events with
  | current_event :: ((next_event :: _) as rest) =>
      match Event.end_time current_event, Event.start_time next_event with
      | Some current_end, Some next_start =>
          if date_of current_end =? date_of next_start then
            let gap_duration := next_start - current_end in
            if timedelta_hours 2 <? gap_duration then
              [Gap.mk (Event.title current_event) (Event.title next_event)
                 (inject_Z gap_duration / inject_Z HOUR)%Q
                 current_end next_start]
            else []
          else []
      | _, _ => []
      end
      ++ find_gaps rest
  | _ => []
  end.

(** [daily_event_counts[day] = daily_event_counts.get(day, 0) + 1] on a
    dictionary kept in insertion order, which is the order [items()]
    yields. *)
Fixpoint bump (day : date) (daily_event_counts : list (date * Z))
  : list (date * Z) :=
  match daily_event_counts with
  | [] => [(day, 0 + 1)]
  | (d, count) :: rest =>
      if d =? day then (d, count + 1) :: rest else (d, count) :: bump day rest
  end.

Definition count_daily_events (events : list Event) : list (date * Z) :=
  fold_left
    (fun daily_event_counts event =>
       match Event.start_time event with
       | Some s => bump (date_of s) daily_event_counts
       | None => daily_event_counts
       end)
    events [].

Definition find_overloaded_days (events : list Event) : list Overload :=
  omap (fun '(day, count) =>
          if 8 <=? count then Some (Overload.mk day count) else None)
       (count_daily_events events).

Definition nonempty {A : Type} (l : list A) : bool :=
  match l with [] => false | _ :: _ => true end.

(** [TimeBlocker.analyze_schedule_conflicts]; [now] is what
    [datetime.now()] reads when [start_date] is omitted. *)
Definition analyze_schedule_conflicts (self : TimeBlocker) (now : datetime)
  (start_date end_date : option datetime) : Analysis :=
  let start_date := default now start_date in
  let end_date := default (start_date + timedelta_days 7) end_date in
  let events := get_events (event_manager self) start_date end_date in
  let conflicts := find_conflicts events in
  let sorted_events :=
    stable_sort start_leb (List.filter has_both_times events) in
  let gaps := find_gaps sorted_events in
  let overloaded_days := find_overloaded_days events in
  let optimization_suggestions : list string := [] in
  let optimization_suggestions :=
    if nonempty conflicts
    then optimization_suggestions
         ++ ["Consider rescheduling conflicting events for better time management"]
    else optimization_suggestions in
  let optimization_suggestions :=
    if nonempty gaps
    then optimization_suggestions
         ++ ["Large gaps in schedule could be used for focused work or meetings"]
    else optimization_suggestions in
  let optimization_suggestions :=
    if nonempty overloaded_days
    then optimization_suggestions
         ++ ["Some days are overloaded - consider redistributing events"]
    else optimization_suggestions in
  Analysis.mk (length events) conflicts gaps overloaded_days
    optimization_suggestions.

(** *** The event store, by date *)

(** [EventManager.get_events_for_date]:
    [date_obj.replace(hour=0, minute=0, second=0, microsecond=0)] is
    midnight of the same date. *)
Definition get_events_for_date (em : EventManager) (date_obj : datetime)
  : list Event :=
  let start_of_day := combine (date_of date_obj) min_time in
  let end_of_day := start_of_day + timedelta_days 1 in
  get_events em start_of_day end_of_day.

(** *** The event store as a database ([event_manager.py])

    The two tables, in row order.  A stored datetime is the ISO text of a
    naive datetime, which orders and reads back as the datetime itself.  An
    operation that raises ([sqlite3.IntegrityError] on a primary key that
    is already taken) returns [None]; the transaction is rolled back, so the
    database is unchanged. *)

(** A row of [events]: an event with all its attributes; [Event] keeps the
    ones the time blocker reads. *)
Module Stored.
Record t := mk {
  event : Event;
  description : string;
  all_day : bool;
  location : string;
  recurrence : option string;
  reminder_minutes : option Z;
  created_at : datetime;
  updated_at : datetime
}.
End Stored.

Abbreviation Stored := Stored.t.

(** A row of [reminders]. *)
Module Reminder.
Record t := mk {
  id : string;
  event_id : string;
  reminder_time : datetime;
  sent : bool
}.
End Reminder.

Abbreviation Reminder := Reminder.t.

Record Database := mk_Database {
  events_table : list Stored;
  reminders_table : list Reminder
}.

(** The store as the time blocker sees it. *)
Definition manager_of (db : Database) : EventManager :=
  mk_EventManager (map Stored.event (events_table db)).

Definition stored_id (r : Stored) : string := Event.id (Stored.event r).

(** What [create_event] reads from outside: the two [uuid.uuid4()] values
    and the two clock readings of [Event.__init__]. *)
Record Fresh := mk_Fresh {
  event_uuid : string;
  reminder_uuid : string;
  created_now : datetime;
  updated_now : datetime
}.

(** [EventManager.get_event]: the first row with the id. *)
Definition get_event (db : Database) (event_id : string) : option Stored :=
  List.find (fun r => String.eqb (stored_id r) event_id) (events_table db).

(** [EventManager._create_reminder], with the primary key check of the
    insertion. *)
Definition _create_reminder (reminders : list Reminder) (reminder_id : string)
  (event_id : string) (reminder_time : datetime) : option (list Reminder) :=
  if existsb (fun r => String.eqb (Reminder.id r) reminder_id) reminders
  then None
  else Some (reminders ++ [Reminder.mk reminder_id event_id reminder_time false]).

(** [EventManager.create_event]; [recurrence] is the text
    [json.dumps(recurrence) if recurrence else None]. *)
Definition create_event (db : Database) (fresh : Fresh) (title : string)
  (description : string) (start_time end_time : option datetime)
  (all_day : bool) (location : string) (recurrence : option string)
  (reminder_minutes : option Z) : option (Database * string) :=
  let event :=
    Stored.mk (Event.mk (event_uuid fresh) title start_time end_time)
      description all_day location recurrence reminder_minutes
      (created_now fresh) (updated_now fresh) in
  if existsb (fun r => String.eqb (stored_id r) (stored_id event))
       (events_table db)
  then None
  else
    let events := events_table db ++ [event] in
    match reminder_minutes, start_time with
    | Some minutes, Some start =>
        if minutes =? 0 then
          Some (mk_Database events (reminders_table db), stored_id event)
        else
          match _create_reminder (reminders_table db) (reminder_uuid fresh)
                  (stored_id event) (start - timedelta_minutes minutes) with
          | Some reminders =>
              Some (mk_Database events reminders, stored_id event)
          | None => None
          end
    | _, _ => Some (mk_Database events (reminders_table db), stored_id event)
    end.

(** The keyword arguments of [update_event] that the [UPDATE] statement
    writes; [None] for an argument that is not given. *)
Record Updates := mk_Updates {
  set_title : option string;
  set_description : option string;
  set_start_time : option (option datetime);
  set_end_time : option (option datetime);
  set_all_day : option bool;
  set_location : option string;
  set_recurrence : option (option string);
  set_reminder_minutes : option (option Z)
}.

Definition no_updates : Updates :=
  mk_Updates None None None None None None None None.

(** The [setattr] loop of [update_event] followed by
    [event.updated_at = datetime.now()]. *)
Definition apply_updates (kwargs : Updates) (now : datetime) (r : Stored)
  : Stored :=
  let e := Stored.event r in
  Stored.mk
    (Event.mk (Event.id e)
       (default (Event.title e) (set_title kwargs))
       (default (Event.start_time e) (set_start_time kwargs))
       (default (Event.end_time e) (set_end_time kwargs)))
    (default (Stored.description r) (set_description kwargs))
    (default (Stored.all_day r) (set_all_day kwargs))
    (default (Stored.location r) (set_location kwargs))
    (default (Stored.recurrence r) (set_recurrence kwargs))
    (default (Stored.reminder_minutes r) (set_reminder_minutes kwargs))
    (Stored.created_at r)
    now.

(** [EventManager.update_event]: the [UPDATE ... WHERE id=?] writes the
    attributes of the updated event into every row with the id. *)
Definition update_event (db : Database) (now : datetime) (event_id : string)
  (kwargs : Updates) : Database * bool :=
  match get_event db event_id with
  | None => (db, false)
  | Some event =>
      let event := apply_updates kwargs now event in
      (mk_Database
         (map (fun r =>
                 if String.eqb (stored_id r) event_id
                 then Stored.mk
                        (Event.mk (stored_id r)
                           (Event.title (Stored.event event))
                           (Event.start_time (Stored.event event))
                           (Event.end_time (Stored.event event)))
                        (Stored.description event) (Stored.all_day event)
                        (Stored.location event) (Stored.recurrence event)
                        (Stored.reminder_minutes event)
                        (Stored.created_at r) (Stored.updated_at event)
                 else r)
            (events_table db))
         (reminders_table db),
       true)
  end.

(** [EventManager.delete_event]; the result is [cursor.rowcount > 0] of the
    deletion from [events]. *)
Definition delete_event (db : Database) (event_id : string)
  : Database * bool :=
  (mk_Database
     (List.filter (fun r => negb (String.eqb (stored_id r) event_id))
        (events_table db))
     (List.filter (fun r => negb (String.eqb (Reminder.event_id r) event_id))
        (reminders_table db)),
   existsb (fun r => String.eqb (stored_id r) event_id) (events_table db)).

(** [EventManager.reschedule_event]. *)
Definition reschedule_event (db : Database) (now : datetime)
  (event_id : string) (new_start : datetime) (new_end : option datetime)
  : Database * bool :=
  match get_event db event_id with
  | None => (db, false)
  | Some event =>
      let new_end :=
        match new_end, Event.start_time (Stored.event event),
              Event.end_time (Stored.event event) with
        | None, Some start, Some end_ =>
            let duration := end_ - start in
            Some (new_start + duration)
        | _, _, _ => new_end
        end in
      update_event db now event_id
        (mk_Updates None None (Some (Some new_start)) (Some new_end) None
           None None None)
  end.

(** A row of the result of [get_pending_reminders]. *)
Record Pending := mk_Pending {
  pending_id : string;
  pending_event_id : string;
  pending_time : datetime;
  pending_title : string;
  pending_description : string
}.

Definition reminder_time_leb (a b : Reminder) : bool :=
  Reminder.reminder_time a <=? Reminder.reminder_time b.

(** [EventManager.get_pending_reminders]; [now] is the clock reading.  The
    join pairs a reminder with every event row that has its event id. *)
Definition get_pending_reminders (db : Database) (now : datetime)
  : list Pending :=
  flat_map
    (fun r =>
       map (fun e =>
              mk_Pending (Reminder.id r) (Reminder.event_id r)
                (Reminder.reminder_time r) (Event.title (Stored.event e))
                (Stored.description e))
         (List.filter
            (fun e => String.eqb (Reminder.event_id r) (stored_id e))
            (events_table db)))
    (stable_sort reminder_time_leb
       (List.filter
          (fun r => negb (Reminder.sent r)
                    && (Reminder.reminder_time r <=? now))
          (reminders_table db))).

(** [EventManager.mark_reminder_sent]. *)
Definition mark_reminder_sent (db : Database) (reminder_id : string)
  : Database :=
  mk_Database (events_table db)
    (map (fun r =>
            if String.eqb (Reminder.id r) reminder_id
            then Reminder.mk (Reminder.id r) (Reminder.event_id r)
                   (Reminder.reminder_time r) true
            else r)
       (reminders_table db)).

(** * Notions used to state the properties *)

(** ** The day loop *)

(** What one iteration of the loop adds. *)
Definition day_suggestions (self : TimeBlocker) (duration : timedelta)
  (event_type : string) (existing_events : list Event) (d : date)
  : list TimeBlock :=
  if _is_workday d
  then _analyze_day self d duration event_type existing_events else [].

(** ** The scoring rules, as the specification lists them

    Each definition follows the wording of one step of the scoring
    algorithm. *)

(** The sum of a list of numbers. *)
Definition sumQ (l : list Q) : Q := fold_right Qplus 0%Q l.

(** The distance in minutes between the slot's start-of-day minute offset
    and an anchor. *)
Definition minutes_off (slot_offset : Z) (anchor : Z * Z) : Z :=
  Z.abs (slot_offset - minute_offset (fst anchor) (snd anchor)).

(** Step 2: each preferred anchor within 30 minutes adds
    [20 * (1 - minutesOff / 30)]. *)
Definition preferred_bonus (slot_offset : Z) (anchors : list (Z * Z)) : Q :=
  sumQ (map (fun a => 20 * (1 - inject_Z (minutes_off slot_offset a) / 30))%Q
          (List.filter (fun a => minutes_off slot_offset a <=? 30) anchors)).

(** Step 3: each avoided anchor within 60 minutes subtracts
    [15 * (1 - minutesOff / 60)]. *)
Definition avoided_penalty (slot_offset : Z) (anchors : list (Z * Z)) : Q :=
  sumQ (map (fun a => 15 * (1 - inject_Z (minutes_off slot_offset a) / 60))%Q
          (List.filter (fun a => minutes_off slot_offset a <=? 60) anchors)).

(** Step 4: 10 for a buffer of 15 minutes before, 10 for one after. *)
Definition buffer_bonus (start_time end_time : datetime)
  (day_events : list Event) : Q :=
  ((if 15 <=? _get_buffer_time start_time day_events true then 10 else 0)
   + (if 15 <=? _get_buffer_time end_time day_events false then 10 else 0))%Q.

(** Step 5: Monday +5, Friday -5, Saturday and Sunday -20. *)
Definition weekday_adjustment (start_time : datetime) : Q :=
  if weekday start_time =? 0 then 5%Q
  else if weekday start_time =? 4 then (-5)%Q
  else if 5 <=? weekday start_time then (-20)%Q
  else 0%Q.

(** Step 6: the time-of-day rule. *)
Definition time_of_day_adjustment (start_time : datetime)
  (event_type : string) : Q :=
  let hour := hour_of start_time in
  if (9 <=? hour) && (hour <=? 11) then
    if is_in event_type ["focus"; "meeting"] then 15%Q else 0%Q
  else if (14 <=? hour) && (hour <=? 16) then
    if is_in event_type ["meeting"; "call"] then 10%Q else 0%Q
  else if 17 <=? hour then (-20)%Q
  else 0%Q.

(** Step 7: the lunch penalty. *)
Definition lunch_penalty (start_time : datetime) (event_type : string) : Q :=
  let hour := hour_of start_time in
  if (12 <=? hour) && (hour <=? 13) && negb (String.eqb event_type "lunch")
  then 25%Q else 0%Q.

(** Step 8: 5 per similar event nearby. *)
Definition clustering_bonus (start_time end_time : datetime)
  (event_type : string) (day_events : list Event) : Q :=
  let n :=
    _count_similar_events_nearby start_time end_time event_type day_events in
  if 0 <? n then inject_Z (5 * n) else 0%Q.

(** The profile of a category, empty when the table has none. *)
Definition preferred_of (self : TimeBlocker) (event_type : string)
  : list (Z * Z) :=
  match event_type_preferences self !! event_type with
  | Some p => preferred_times p
  | None => []
  end.

Definition avoided_of (self : TimeBlocker) (event_type : string)
  : list (Z * Z) :=
  match event_type_preferences self !! event_type with
  | Some p => avoid_times p
  | None => []
  end.

(** The slot's start-of-day minute offset. *)
Definition slot_offset (start_time : datetime) : Z :=
  minute_offset (hour_of start_time) (minute_of start_time).

(** ** Ranking and conflicts *)


(** The record the scan appends for a conflicting pair. *)
Definition conflict_of (event1 event2 : Event) : Conflict :=
  mk_Conflict (Event.title event1) (Event.title event2)
    (omax (Event.start_time event1) (Event.start_time event2))
    (omin (Event.end_time event1) (Event.end_time event2)).

(** ** Gaps

    The gaps of a day in the specification's words: (a) from the start of
    the window to the first event's start (the whole window when the day has
    no event), (b) between each consecutive pair of events, (c) from the
    last event's end to the end of the window. *)

Fixpoint gaps_between (sorted_events : list (datetime * datetime))
  : list (datetime * datetime) :=
  match sorted_events with
  | current_event :: ((next_event :: _) as rest) =>
      (snd current_event, fst next_event) :: gaps_between rest
  | _ => []
  end.

Definition gaps (work_start work_end : datetime) (day_events : list Event)
  : list (datetime * datetime) :=
  let sorted_events := stable_sort span_start_leb (spans day_events) in
  match sorted_events with
  | [] => [(work_start, work_end)]
  | first :: _ =>
      (work_start, fst first)
      :: gaps_between sorted_events
      ++ match last sorted_events with
         | Some last_event => [(snd last_event, work_end)]
         | None => []
         end
  end.

(** A slot is cut from gap [g]: it starts where the gap starts, it lasts
    [duration], and the gap is at least as long. *)
Definition cut_from (duration : timedelta) (g slot : datetime * datetime)
  : Prop :=
  duration <= snd g - fst g /\ slot = (fst g, fst g + duration).

(** ** Slots against events and windows *)

(** A slot and an event's [[start, end)] have a moment in common. *)
Definition overlaps_event (slot : datetime * datetime) (e : Event) : bool :=
  match span e with
  | Some (s, t) => (fst slot <? t) && (s <? snd slot)
  | None => false
  end.

(** The slot lies within [[work_start, work_end]]. *)
Definition within_window (work_start work_end : datetime)
  (slot : datetime * datetime) : bool :=
  (work_start <=? fst slot) && (snd slot <=? work_end).

(** Two events ordered by start and by end alike. *)
Definition span_before (p q : datetime * datetime) : Prop :=
  fst p <= fst q /\ snd p <= snd q.

(** The slot ends before the event starts, or starts after it ends. *)
Definition clear_of (slot p : datetime * datetime) : Prop :=
  snd slot <= fst p \/ snd p <= fst slot.


(** ** Events used in the examples

    Day 738885 is Monday 2024-01-01. *)

Definition standup : Event :=
  Event.mk "e1" "Standup" (Some (at_time 738885 9 0))
    (Some (at_time 738885 10 0)).

Definition review : Event :=
  Event.mk "e2" "Review" (Some (at_time 738885 10 0))
    (Some (at_time 738885 11 0)).

Definition workshop : Event :=
  Event.mk "w1" "Workshop" (Some (at_time 738885 9 0))
    (Some (at_time 738885 15 0)).

Definition sync : Event :=
  Event.mk "w2" "Sync" (Some (at_time 738885 10 0))
    (Some (at_time 738885 11 0)).

Definition early_call : Event :=
  Event.mk "w3" "Early call" (Some (at_time 738885 7 0))
    (Some (at_time 738885 8 0)).

(** ** Buffers and neighbours *)



(** An event counted by [_count_similar_events_nearby]. *)
Definition near_and_similar (start_time end_time : datetime)
  (event_type : string) (e : Event) : bool :=
  match Event.start_time e with
  | Some s =>
      (start_time - timedelta_hours 2 <=? s)
      && (s <=? end_time + timedelta_hours 2)
      && _are_event_types_similar event_type (Event.title e)
  | None => false
  end.

(** The number of events that start on a date. *)
Definition starts_on (d : date) (e : Event) : bool :=
  match Event.start_time e with
  | Some s => date_of s =? d
  | None => false
  end.

Definition events_starting_on (d : date) (events : list Event) : Z :=
  Z.of_nat (length (List.filter (starts_on d) events)).

(** An event that has both times starts before it ends. *)
Definition starts_before_end (e : Event) : Prop :=
  forall s t, Event.start_time e = Some s -> Event.end_time e = Some t ->
              s < t.

(** ** Counts, and more events and databases for the examples *)

(** The count recorded for a date, 0 when the date has no entry. *)
Fixpoint count_for (d : date) (daily_event_counts : list (date * Z)) : Z :=
  match daily_event_counts with
  | [] => 0
  | (d', n) :: rest => if d' =? d then n else count_for d rest
  end.

(** An event at 00:00 of Tuesday 2024-01-02. *)
Definition midnight_event : Event :=
  Event.mk "m1" "Release" (Some (at_time 738886 0 0))
    (Some (at_time 738886 1 0)).

Definition empty_database : Database := mk_Database [] [].

(** Identifiers and clock readings for two creations. *)
Definition fresh1 : Fresh := mk_Fresh "id-1" "rem-1" 100 101.

Definition fresh2 : Fresh := mk_Fresh "id-2" "rem-2" 200 201.

(** The stand-up as a row of [events]. *)
Definition stored_standup : Stored :=
  Stored.mk standup "daily" false "room 1" None (Some 10) 100 101.

(** ** The suggester with its errors *)

(** Slots whose ends are computed one by one, each addition checked. *)
Definition all_valid (slots : list (datetime * datetime))
  : option (list (datetime * datetime)) :=
  if forallb (fun slot => valid_datetime (snd slot)) slots then Some slots
  else None.

(** The block that [_analyze_day] makes of a free slot. *)
Definition block_of (self : TimeBlocker) (event_type : string)
  (day_events : list Event) (slot : datetime * datetime) : TimeBlock :=
  let '(start_time, end_time) := slot in
  TimeBlock.mk start_time end_time
    (_score_time_slot self start_time end_time event_type day_events)
    (_generate_reason start_time end_time event_type day_events).

(** ** Titles and reasons *)

(** A title made of ASCII characters only; on such a title [str.lower()]
    lowers the letters A to Z and nothing else. *)
Fixpoint ascii_only (s : string) : bool :=
  match s with
  | EmptyString => true
  | String c rest => (nat_of_ascii c <? 128)%nat && ascii_only rest
  end.

(** The phrases of a reason, by the signal each one reports. *)
Definition time_phrases (hour : Z) : list string :=
  if (9 <=? hour) && (hour <=? 11) then ["optimal morning focus time"]
  else if (14 <=? hour) && (hour <=? 16) then ["productive afternoon slot"]
  else if hour =? 12 then ["lunch time"]
  else if 17 <=? hour then ["after-hours slot"]
  else [].

Definition buffer_phrases (buffer_before buffer_after : Z) : list string :=
  if (30 <=? buffer_before) && (30 <=? buffer_after)
  then ["well-spaced with buffer time"]
  else if (15 <=? buffer_before) || (15 <=? buffer_after)
  then ["has buffer time"]
  else [].

Definition cluster_phrases (similar_count : Z) : list string :=
  if 0 <? similar_count
  then ["groups with " +:+ pretty similar_count +:+ " similar events"]
  else [].

Definition weekday_phrases (weekday : Z) : list string :=
  if weekday =? 0 then ["fresh start of week"]
  else if weekday =? 4 then ["end of week wrap-up"]
  else [].

(** * Properties *)

(** ** The stable sort *)

Section StableSortFacts.
Context {A : Type} (leb : A -> A -> bool).

Lemma insert_sorted_Permutation (x : A) (l : list A) :
  Permutation (insert_sorted leb x l) (x :: l).
Proof.
  induction l as [|y l IH]; simpl; [reflexivity|].
  destruct (leb x y); [reflexivity|].
  rewrite IH. apply perm_swap.
Qed.

Lemma stable_sort_Permutation (l : list A) :
  Permutation (stable_sort leb l) l.
Proof.
  induction l as [|x l IH]; simpl; [reflexivity|].
  rewrite insert_sorted_Permutation. now constructor.
Qed.

Lemma stable_sort_In (x : A) (l : list A) :
  In x (stable_sort leb l) <-> In x l.
Proof.
  split; apply Permutation_in;
    [| symmetry]; apply stable_sort_Permutation.
Qed.

Lemma stable_sort_Forall (P : A -> Prop) (l : list A) :
  Forall P l -> Forall P (stable_sort leb l).
Proof.
  intros H. eapply Permutation_Forall; [|exact H].
  symmetry. apply stable_sort_Permutation.
Qed.

Lemma stable_sort_nil_inv (l : list A) : stable_sort leb l = [] -> l = [].
Proof.
  intros H. apply Permutation_nil.
  rewrite <- H. apply stable_sort_Permutation.
Qed.



Hypothesis leb_total : forall a b, leb a b = false -> leb b a = true.
Hypothesis leb_trans :
  forall a b c, leb a b = true -> leb b c = true -> leb a c = true.

Lemma insert_sorted_StronglySorted (x : A) (l : list A) :
  StronglySorted (fun a b => leb a b = true) l ->
  StronglySorted (fun a b => leb a b = true) (insert_sorted leb x l).
Proof.
  induction 1 as [|y l Hs IH Hy]; simpl.
  - repeat constructor.
  - destruct (leb x y) eqn:Hxy.
    + constructor; [now constructor|].
      constructor; [exact Hxy|].
      eapply Forall_impl; [exact Hy|]. intros z. apply leb_trans, Hxy.
    + constructor; [exact IH|].
      eapply Permutation_Forall.
      * symmetry. apply insert_sorted_Permutation.
      * constructor; [now apply leb_total | exact Hy].
Qed.

Lemma stable_sort_StronglySorted (l : list A) :
  StronglySorted (fun a b => leb a b = true) (stable_sort leb l).
Proof.
  induction l as [|x l IH]; simpl; [constructor|].
  now apply insert_sorted_StronglySorted.
Qed.

End StableSortFacts.

(** ** Slices *)



Lemma slice_to_Forall {A : Type} (P : A -> Prop) (n : Z) (l : list A) :
  Forall P l -> Forall P (slice_to n l).
Proof. unfold slice_to. destruct (0 <=? n); apply Forall_take. Qed.



(** ** The day loop *)

(** With at least one unit of fuel per date from [current_date] to
    [end_date_only], the loop ends on its own condition, having visited
    exactly these dates in order. *)
Lemma while_days_spec (self : TimeBlocker) (duration : timedelta)
  (event_type : string) (existing_events : list Event) (end_date_only : date)
  (fuel : nat) :
  forall (current_date : date) (suggestions : list TimeBlock),
    (Z.to_nat (end_date_only - current_date + 1) <= fuel)%nat ->
    while_days fuel self duration event_type existing_events end_date_only
      current_date suggestions
    = suggestions
      ++ flat_map (day_suggestions self duration event_type existing_events)
           (seqZ current_date (end_date_only - current_date + 1)).
Proof.
  induction fuel as [|fuel IH]; intros cur acc Hfuel; simpl.
  - rewrite seqZ_nil by lia. simpl. now rewrite app_nil_r.
  - destruct (Z.leb_spec cur end_date_only) as [Hle|Hgt].
    + rewrite IH by lia.
      rewrite (seqZ_cons cur) by lia. simpl.
      replace (Z.pred (end_date_only - cur + 1))
        with (end_date_only - (cur + 1) + 1) by lia.
      unfold day_suggestions at 2, Z.succ.
      destruct (_is_workday cur); simpl.
      * now rewrite <- app_assoc.
      * reflexivity.
    + rewrite seqZ_nil by lia. simpl. now rewrite app_nil_r.
Qed.

Lemma all_suggestions_spec (self : TimeBlocker) (now : datetime)
  (duration_minutes : Z) (event_type : string)
  (start_date end_date : option datetime) :
  let s := default now start_date in
  let e := default (s + timedelta_days 7) end_date in
  all_suggestions self now duration_minutes event_type start_date end_date
  = flat_map (day_suggestions self (timedelta_minutes duration_minutes)
                event_type (get_events (event_manager self) s e))
      (seqZ (date_of s) (date_of e - date_of s + 1)).
Proof.
  intros s e. unfold all_suggestions. fold s. fold e.
  now rewrite while_days_spec by lia.
Qed.

Lemma suggest_time_blocks_unfold (self : TimeBlocker) (now : datetime)
  (duration_minutes : Z) (event_type : string)
  (start_date end_date : option datetime) (max_suggestions : Z) :
  suggest_time_blocks self now duration_minutes event_type start_date end_date
    max_suggestions
  = slice_to max_suggestions
      (stable_sort score_geb
         (all_suggestions self now duration_minutes event_type start_date
            end_date)).
Proof. reflexivity. Qed.

(** A property of every block of every analysed workday holds of every
    suggestion returned. *)
Lemma suggest_time_blocks_Forall (P : TimeBlock -> Prop) (self : TimeBlocker)
  (now : datetime) (duration_minutes : Z) (event_type : string)
  (start_date end_date : option datetime) (max_suggestions : Z) :
  let s := default now start_date in
  let e := default (s + timedelta_days 7) end_date in
  (forall d, date_of s <= d <= date_of e -> _is_workday d = true ->
     Forall P (_analyze_day self d (timedelta_minutes duration_minutes)
                 event_type (get_events (event_manager self) s e))) ->
  Forall P (suggest_time_blocks self now duration_minutes event_type
              start_date end_date max_suggestions).
Proof.
  intros s e H. rewrite suggest_time_blocks_unfold.
  apply slice_to_Forall, stable_sort_Forall.
  rewrite all_suggestions_spec. fold s. fold e.
  apply Forall_flat_map, Forall_forall. intros d Hd.
  apply elem_of_seqZ in Hd. unfold day_suggestions.
  destruct (_is_workday d) eqn:Hw; [|constructor].
  apply H; [lia | exact Hw].
Qed.

(** ** The clamp *)

Lemma py_min_le_l (a b : Q) : (py_min a b <= a)%Q.
Proof.
  unfold py_min. destruct (Qle_bool a b) eqn:H.
  - apply Qle_refl.
  - apply Qlt_le_weak, Qnot_le_lt. intros Hle.
    apply Qle_bool_iff in Hle. congruence.
Qed.

Lemma py_max_ge_l (a b : Q) : (a <= py_max a b)%Q.
Proof.
  unfold py_max. destruct (Qle_bool b a) eqn:H.
  - apply Qle_refl.
  - apply Qlt_le_weak, Qnot_le_lt. intros Hle.
    apply Qle_bool_iff in Hle. congruence.
Qed.

Lemma py_max_le (a b c : Q) : (a <= c -> b <= c -> py_max a b <= c)%Q.
Proof. unfold py_max. now destruct (Qle_bool b a). Qed.

Lemma clamp_bounds (score : Q) :
  (0 <= py_max 0 (py_min 100 score) /\ py_max 0 (py_min 100 score) <= 100)%Q.
Proof.
  split.
  - apply py_max_ge_l.
  - apply py_max_le; [discriminate | apply py_min_le_l].
Qed.

Lemma py_min_compat (a x y : Q) : (x == y -> py_min a x == py_min a y)%Q.
Proof.
  intros H. unfold py_min.
  destruct (Qle_bool a x) eqn:Hx, (Qle_bool a y) eqn:Hy;
    try reflexivity; try exact H.
  - apply Qle_bool_iff in Hx. rewrite H in Hx.
    apply Qle_bool_iff in Hx. congruence.
  - apply Qle_bool_iff in Hy. rewrite <- H in Hy.
    apply Qle_bool_iff in Hy. congruence.
Qed.

Lemma py_max_compat (a x y : Q) : (x == y -> py_max a x == py_max a y)%Q.
Proof.
  intros H. unfold py_max.
  destruct (Qle_bool x a) eqn:Hx, (Qle_bool y a) eqn:Hy;
    try reflexivity; try exact H.
  - apply Qle_bool_iff in Hx. rewrite H in Hx.
    apply Qle_bool_iff in Hx. congruence.
  - apply Qle_bool_iff in Hy. rewrite <- H in Hy.
    apply Qle_bool_iff in Hy. congruence.
Qed.

Lemma _analyze_day_scores (self : TimeBlocker) (date_obj : date)
  (duration : timedelta) (event_type : string) (existing_events : list Event) :
  Forall (fun b =>
            TimeBlock.score b
            = _score_time_slot self (TimeBlock.start_time b)
                (TimeBlock.end_time b) event_type
                (events_on date_obj existing_events))
         (_analyze_day self date_obj duration event_type existing_events).
Proof.
  unfold _analyze_day. apply Forall_map, Forall_forall.
  intros [s e] _. reflexivity.
Qed.

(** C6.  Score bounds: the Slot Scorer always returns a score between 0 and
    100, and so the score of every TimeBlock that [suggest_time_blocks]
    returns lies between 0 and 100. *)
Theorem score_bounds (self : TimeBlocker) (now : datetime)
  (start_time end_time : datetime) (event_type : string)
  (day_events : list Event) (duration_minutes : Z)
  (start_date end_date : option datetime) (max_suggestions : Z) :
  (0 <= _score_time_slot self start_time end_time event_type day_events
   /\ _score_time_slot self start_time end_time event_type day_events <= 100)%Q
  /\ Forall (fun b => (0 <= TimeBlock.score b /\ TimeBlock.score b <= 100)%Q)
       (suggest_time_blocks self now duration_minutes event_type start_date
          end_date max_suggestions).
Proof.
  split; [apply clamp_bounds|].
  apply suggest_time_blocks_Forall. intros d _ _.
  eapply Forall_impl; [apply _analyze_day_scores|].
  intros b ->. apply clamp_bounds.
Qed.

(** ** The scoring rules

    The scorer computes the base score plus the sum of the rules of the
    specification. *)

Lemma preferred_bonus_cons (off : Z) (a : Z * Z) (l : list (Z * Z)) :
  (preferred_bonus off (a :: l)
   == (if minutes_off off a <=? 30
       then 20 * (1 - inject_Z (minutes_off off a) / 30) else 0)
      + preferred_bonus off l)%Q.
Proof.
  unfold preferred_bonus. simpl.
  destruct (minutes_off off a <=? 30); simpl; ring.
Qed.

Lemma avoided_penalty_cons (off : Z) (a : Z * Z) (l : list (Z * Z)) :
  (avoided_penalty off (a :: l)
   == (if minutes_off off a <=? 60
       then 15 * (1 - inject_Z (minutes_off off a) / 60) else 0)
      + avoided_penalty off l)%Q.
Proof.
  unfold avoided_penalty. simpl.
  destruct (minutes_off off a <=? 60); simpl; ring.
Qed.

Lemma add_preferred_spec (hour minute : Z) (anchors : list (Z * Z)) :
  forall score : Q,
    (add_preferred hour minute anchors score
     == score + preferred_bonus (minute_offset hour minute) anchors)%Q.
Proof.
  unfold add_preferred.
  induction anchors as [|[h m] anchors IH]; intros score; simpl.
  - unfold preferred_bonus. simpl. ring.
  - rewrite IH, preferred_bonus_cons. unfold minutes_off. simpl.
    destruct (Z.abs _ <=? 30); field.
Qed.

Lemma sub_avoided_spec (hour minute : Z) (anchors : list (Z * Z)) :
  forall score : Q,
    (sub_avoided hour minute anchors score
     == score - avoided_penalty (minute_offset hour minute) anchors)%Q.
Proof.
  unfold sub_avoided.
  induction anchors as [|[h m] anchors IH]; intros score; simpl.
  - unfold avoided_penalty. simpl. ring.
  - rewrite IH, avoided_penalty_cons. unfold minutes_off. simpl.
    destruct (Z.abs _ <=? 60); field.
Qed.

(** The scorer computes the base score plus the sum of the rules. *)
Lemma score_before_clamp_spec (self : TimeBlocker)
  (start_time end_time : datetime) (event_type : string)
  (day_events : list Event) :
  (score_before_clamp self start_time end_time event_type day_events
   == 50
      + preferred_bonus (slot_offset start_time) (preferred_of self event_type)
      - avoided_penalty (slot_offset start_time) (avoided_of self event_type)
      + buffer_bonus start_time end_time day_events
      + weekday_adjustment start_time
      + time_of_day_adjustment start_time event_type
      - lunch_penalty start_time event_type
      + clustering_bonus start_time end_time event_type day_events)%Q.
Proof.
  unfold score_before_clamp, buffer_bonus, weekday_adjustment,
    time_of_day_adjustment, lunch_penalty, clustering_bonus, slot_offset.
  fold (preferred_of self event_type). fold (avoided_of self event_type).
  cbv zeta.
  set (s := sub_avoided _ _ _ _).
  assert (Hs : (s == 50
                + preferred_bonus
                    (minute_offset (hour_of start_time) (minute_of start_time))
                    (preferred_of self event_type)
                - avoided_penalty
                    (minute_offset (hour_of start_time) (minute_of start_time))
                    (avoided_of self event_type))%Q).
  { subst s. rewrite sub_avoided_spec, add_preferred_spec. ring. }
  clearbody s.
  repeat match goal with
         | |- context [if ?c then _ else _] => destruct c
         end;
    rewrite Hs; ring.
Qed.

Lemma preferred_bonus_app (off : Z) (l1 l2 : list (Z * Z)) :
  (preferred_bonus off (l1 ++ l2)
   == preferred_bonus off l1 + preferred_bonus off l2)%Q.
Proof.
  induction l1 as [|a l1 IH]; simpl.
  - unfold preferred_bonus at 2. simpl. ring.
  - rewrite !preferred_bonus_cons, IH. ring.
Qed.

Lemma minutes_off_exact (start_time : datetime) :
  minutes_off (slot_offset start_time)
    (hour_of start_time, minute_of start_time) = 0.
Proof. unfold minutes_off, slot_offset. simpl. lia. Qed.

(** C5.  Preferred anchors: before the clamp, the score is the base 50,
    plus [20 * (1 - minutesOff / 30)] for each preferred anchor of the
    category within 30 minutes of the slot's start-of-day minute offset
    (all such anchors contribute), plus the other adjustments; the scorer
    returns the clamp of that sum; and a slot that starts exactly at an
    anchor earns 20 from that anchor. *)
Theorem preferred_anchor_contribution (self : TimeBlocker)
  (start_time end_time : datetime) (event_type : string)
  (day_events : list Event) :
  (score_before_clamp self start_time end_time event_type day_events
   == 50
      + sumQ (map (fun a =>
                     20 * (1 - inject_Z (minutes_off (slot_offset start_time) a)
                                / 30))
                (List.filter
                   (fun a => minutes_off (slot_offset start_time) a <=? 30)
                   (preferred_of self event_type)))
      + (- avoided_penalty (slot_offset start_time)
             (avoided_of self event_type)
         + buffer_bonus start_time end_time day_events
         + weekday_adjustment start_time
         + time_of_day_adjustment start_time event_type
         - lunch_penalty start_time event_type
         + clustering_bonus start_time end_time event_type day_events))%Q
  /\ _score_time_slot self start_time end_time event_type day_events
     = py_max 0 (py_min 100
         (score_before_clamp self start_time end_time event_type day_events))
  /\ (forall before after : list (Z * Z),
        preferred_of self event_type
        = before ++ (hour_of start_time, minute_of start_time) :: after ->
        (preferred_bonus (slot_offset start_time)
           (preferred_of self event_type)
         == 20 + preferred_bonus (slot_offset start_time) (before ++ after))%Q).
Proof.
  split; [|split].
  - rewrite score_before_clamp_spec. unfold preferred_bonus. ring.
  - reflexivity.
  - intros l1 l2 ->.
    rewrite !preferred_bonus_app, preferred_bonus_cons, minutes_off_exact.
    simpl. field.
Qed.

(** The "meeting" profile has the anchor (10, 0): a slot at 10:00 earns 20
    from it. *)
Lemma preferred_anchor_contribution_witness :
  (preferred_bonus (slot_offset (at_time 738886 10 0))
     (preferred_of (TimeBlocker_init (mk_EventManager [])) "meeting")
   == 20 + preferred_bonus (slot_offset (at_time 738886 10 0))
             ([] ++ [(14, 0); (15, 0)]%Z))%Q.
Proof.
  apply (proj2 (proj2 (preferred_anchor_contribution
                         (TimeBlocker_init (mk_EventManager []))
                         (at_time 738886 10 0) (at_time 738886 11 0)
                         "meeting" []))).
  reflexivity.
Defined.

(** Scenario: a one-hour "meeting" slot at 10:00 on a Tuesday without
    events scores 50 + 20 (anchor) + 10 + 10 (buffers) + 15 (morning),
    clamped to 100. *)
Example score_meeting_at_ten :
  (score_before_clamp (TimeBlocker_init (mk_EventManager []))
     (at_time 738886 10 0) (at_time 738886 11 0) "meeting" [] == 105)%Q
  /\ (_score_time_slot (TimeBlocker_init (mk_EventManager []))
        (at_time 738886 10 0) (at_time 738886 11 0) "meeting" [] == 100)%Q.
Proof. split; reflexivity. Qed.

(** ** Unknown categories *)

Lemma unknown_category_keywords (em : EventManager) (event_type : string) :
  event_type_preferences (TimeBlocker_init em) !! event_type = None ->
  type_keywords !! event_type = None
  /\ is_in event_type ["focus"; "meeting"; "call"; "lunch"; "break"] = false.
Proof.
  unfold TimeBlocker_init. simpl. intros H.
  repeat (apply lookup_insert_None in H; destruct H as [H ?]).
  split.
  - unfold type_keywords. rewrite !lookup_insert_ne by assumption.
    apply lookup_empty.
  - unfold is_in. simpl.
    repeat match goal with
           | Hne : ?k <> event_type |- _ =>
               apply not_eq_sym, String.eqb_neq in Hne; rewrite Hne; clear Hne
           end.
    reflexivity.
Qed.

Lemma _are_event_types_similar_unknown (event_type event_title : string) :
  type_keywords !! event_type = None ->
  _are_event_types_similar event_type event_title = false.
Proof. intros H. unfold _are_event_types_similar. now rewrite H. Qed.

Lemma _count_similar_unknown (start_time end_time : datetime)
  (event_type : string) (day_events : list Event) :
  type_keywords !! event_type = None ->
  _count_similar_events_nearby start_time end_time event_type day_events = 0.
Proof.
  intros H. unfold _count_similar_events_nearby.
  match goal with |- fold_left ?f _ _ = _ => set (step := f) end.
  enough (Hg : forall count, fold_left step day_events count = count)
    by apply Hg.
  induction day_events as [|e l IH]; intros count; simpl; [reflexivity|].
  replace (step count e) with count; [apply IH|].
  unfold step. rewrite _are_event_types_similar_unknown by exact H.
  destruct (Event.start_time e); [|reflexivity].
  now destruct (_ && _).
Qed.

(** C9.  Unknown category: for a category label absent from the profile
    table the scorer falls back to empty preferred and avoided lists, and
    the score is the clamp of the base 50 plus the buffer, weekday,
    time-of-day and lunch rules only. *)
Theorem unknown_category_fallback (em : EventManager) (event_type : string)
  (start_time end_time : datetime) (day_events : list Event) :
  event_type_preferences (TimeBlocker_init em) !! event_type = None ->
  preferred_of (TimeBlocker_init em) event_type = []
  /\ avoided_of (TimeBlocker_init em) event_type = []
  /\ clustering_bonus start_time end_time event_type day_events = 0%Q
  /\ (score_before_clamp (TimeBlocker_init em) start_time end_time event_type
        day_events
      == 50 + buffer_bonus start_time end_time day_events
         + weekday_adjustment start_time
         + (if 17 <=? hour_of start_time then -20 else 0)
         - (if (12 <=? hour_of start_time) && (hour_of start_time <=? 13)
            then 25 else 0))%Q
  /\ (_score_time_slot (TimeBlocker_init em) start_time end_time event_type
        day_events
      == py_max 0 (py_min 100
           (50 + buffer_bonus start_time end_time day_events
            + weekday_adjustment start_time
            + (if 17 <=? hour_of start_time then -20 else 0)
            - (if (12 <=? hour_of start_time) && (hour_of start_time <=? 13)
               then 25 else 0))))%Q.
Proof.
  intros Hnone.
  destruct (unknown_category_keywords em event_type Hnone) as [Hkw Hin].
  assert (Hp : preferred_of (TimeBlocker_init em) event_type = [])
    by (unfold preferred_of; now rewrite Hnone).
  assert (Ha : avoided_of (TimeBlocker_init em) event_type = [])
    by (unfold avoided_of; now rewrite Hnone).
  assert (Hc : clustering_bonus start_time end_time event_type day_events
               = 0%Q).
  { unfold clustering_bonus. now rewrite _count_similar_unknown. }
  assert (Hs : (score_before_clamp (TimeBlocker_init em) start_time end_time
                  event_type day_events
                == 50 + buffer_bonus start_time end_time day_events
                   + weekday_adjustment start_time
                   + (if 17 <=? hour_of start_time then -20 else 0)
                   - (if (12 <=? hour_of start_time)
                           && (hour_of start_time <=? 13)
                      then 25 else 0))%Q).
  { rewrite score_before_clamp_spec, Hp, Ha, Hc.
    unfold time_of_day_adjustment, lunch_penalty, is_in in *.
    simpl in Hin. cbv zeta.
    repeat (apply orb_false_elim in Hin; destruct Hin as [? Hin]).
    simpl.
    repeat match goal with
           | Heq : (event_type =? _)%string = false |- _ =>
               rewrite Heq; clear Heq
           end.
    simpl. rewrite andb_true_r.
    unfold preferred_bonus, avoided_penalty. simpl.
    destruct (Z.leb_spec 9 (hour_of start_time)),
      (Z.leb_spec (hour_of start_time) 11),
      (Z.leb_spec 14 (hour_of start_time)),
      (Z.leb_spec (hour_of start_time) 16),
      (Z.leb_spec 17 (hour_of start_time)),
      (Z.leb_spec 12 (hour_of start_time)),
      (Z.leb_spec (hour_of start_time) 13);
      simpl; try lia; ring. }
  repeat split; try assumption.
  unfold _score_time_slot. now apply py_max_compat, py_min_compat.
Qed.

(** The label "gym" is in no table: at 12:00 on a Tuesday without events
    it scores 50 + 10 + 10 - 25. *)
Lemma unknown_category_fallback_witness :
  event_type_preferences (TimeBlocker_init (mk_EventManager [])) !! "gym"
  = None
  /\ (_score_time_slot (TimeBlocker_init (mk_EventManager []))
        (at_time 738886 12 0) (at_time 738886 13 0) "gym" [] == 45)%Q.
Proof.
  split; [reflexivity|].
  destruct (unknown_category_fallback (mk_EventManager []) "gym"
              (at_time 738886 12 0) (at_time 738886 13 0) [] eq_refl)
    as (_ & _ & _ & _ & Hs).
  rewrite Hs. reflexivity.
Defined.

(** ** Meeting times *)

(** C10.  [suggest_optimal_meeting_times] ignores its participants: with
    the same store, duration, range and clock readings any two participant
    lists give the same result, and when both clock readings are [now] the
    result is that of [suggest_time_blocks] for category "meeting" over the
    window [now .. now + date_range_days]. *)
Theorem meeting_times_ignore_participants (self : TimeBlocker)
  (now1 now2 now : datetime) (participants1 participants2 : list string)
  (duration_minutes date_range_days : Z) :
  suggest_optimal_meeting_times self now1 now2 participants1 duration_minutes
    date_range_days
  = suggest_optimal_meeting_times self now1 now2 participants2
      duration_minutes date_range_days
  /\ suggest_optimal_meeting_times self now now participants1
       duration_minutes date_range_days
     = suggest_time_blocks self now duration_minutes "meeting" (Some now)
         (Some (now + timedelta_days date_range_days)) 5.
Proof. split; reflexivity. Qed.

(** ** Conflicts *)

(** The predicate is the strict overlap test on events whose four times are
    set, and false otherwise. *)
Lemma _events_overlap_spec (event1 event2 : Event) :
  _events_overlap event1 event2
  = match span event1, span event2 with
    | Some (start1, end1), Some (start2, end2) =>
        (start1 <? end2) && (start2 <? end1)
    | _, _ => false
    end.
Proof.
  unfold _events_overlap, span.
  destruct (Event.start_time event1), (Event.end_time event1),
    (Event.start_time event2), (Event.end_time event2); reflexivity.
Qed.

(** The scan reports exactly the overlapping pairs at positions [i < j]. *)
Lemma find_conflicts_spec (events : list Event) (c : Conflict) :
  In c (find_conflicts events)
  <-> exists (i j : nat) (event1 event2 : Event),
        (i < j)%nat
        /\ events !! i = Some event1
        /\ events !! j = Some event2
        /\ _events_overlap event1 event2 = true
        /\ c = conflict_of event1 event2.
Proof.
  induction events as [|e l IH]; simpl.
  - split; [tauto|]. intros (i & j & e1 & e2 & _ & H & _). discriminate.
  - rewrite in_app_iff, in_flat_map, IH. split.
    + intros [(e2 & Hin & Hc)|(i & j & e1 & e2 & Hij & Hi & Hj & Ho & ->)].
      * apply list_elem_of_In, list_elem_of_lookup in Hin.
        destruct Hin as [j Hj].
        destruct (_events_overlap e e2) eqn:Ho; [|contradiction].
        destruct Hc as [<-|[]].
        exists 0%nat, (S j), e, e2. repeat split; auto. lia.
      * exists (S i), (S j), e1, e2. repeat split; auto. lia.
    + intros (i & j & e1 & e2 & Hij & Hi & Hj & Ho & ->).
      destruct j as [|j]; [lia|]. simpl in Hj.
      destruct i as [|i]; simpl in Hi.
      * left. injection Hi as ->. exists e2. split.
        -- apply list_elem_of_In, list_elem_of_lookup. eauto.
        -- rewrite Ho. now left.
      * right. exists i, j, e1, e2. repeat split; auto. lia.
Qed.

(** An event that lasts an hour overlaps itself according to the
    predicate. *)
Lemma events_overlap_self_counterexample :
  _events_overlap standup standup = true.
Proof. reflexivity. Qed.

(** C4 (amended).  The conflict predicate is the strict overlap test
    [start1 < end2 and start2 < end1] on events whose start and end are all
    set, and false when one is missing; it is symmetric; events that touch
    at an endpoint do not conflict; applied to an event and itself it holds
    exactly when the event's start is before its end; and the analyzer
    tests only pairs at distinct positions [i < j] of the event list. *)
Theorem conflict_predicate (event1 event2 : Event) :
  _events_overlap event1 event2 = _events_overlap event2 event1
  /\ _events_overlap event1 event2
     = match span event1, span event2 with
       | Some (start1, end1), Some (start2, end2) =>
           (start1 <? end2) && (start2 <? end1)
       | _, _ => false
       end
  /\ (forall t, Event.end_time event1 = Some t ->
                Event.start_time event2 = Some t ->
                _events_overlap event1 event2 = false)
  /\ _events_overlap event1 event1
     = match span event1 with
       | Some (start1, end1) => start1 <? end1
       | None => false
       end
  /\ (forall events c,
        In c (find_conflicts events)
        <-> exists (i j : nat) (e1 e2 : Event),
              (i < j)%nat /\ events !! i = Some e1 /\ events !! j = Some e2
              /\ _events_overlap e1 e2 = true /\ c = conflict_of e1 e2).
Proof.
  split; [|split; [|split; [|split]]].
  - rewrite !_events_overlap_spec.
    destruct (span event1) as [[s1 t1]|], (span event2) as [[s2 t2]|];
      try reflexivity.
    apply andb_comm.
  - apply _events_overlap_spec.
  - intros t H1 H2. unfold _events_overlap. rewrite H1, H2.
    destruct (Event.start_time event1), (Event.end_time event2);
      try reflexivity.
    rewrite Z.ltb_irrefl. apply andb_false_r.
  - rewrite _events_overlap_spec.
    destruct (span event1) as [[s1 t1]|]; [|reflexivity].
    apply andb_diag.
  - intros events c. apply find_conflicts_spec.
Qed.

(** Two events that touch at 10:00 do not conflict, in either order, and
    the scan of the two reports nothing. *)
Lemma conflict_predicate_witness :
  _events_overlap standup review = false
  /\ _events_overlap review standup = false
  /\ find_conflicts [standup; review] = [].
Proof.
  pose proof (conflict_predicate standup review) as (Hsym & _ & Htouch & _).
  assert (H : _events_overlap standup review = false)
    by (apply (Htouch (at_time 738885 10 0)); reflexivity).
  split; [exact H | split; [rewrite <- Hsym; exact H | reflexivity]].
Defined.

(** ** Ranking *)

Lemma score_geb_total (a b : TimeBlock) :
  score_geb a b = false -> score_geb b a = true.
Proof.
  unfold score_geb. intros H. apply Qle_bool_iff.
  apply Qlt_le_weak, Qnot_le_lt. intros Hle.
  apply Qle_bool_iff in Hle. congruence.
Qed.

Lemma score_geb_trans (a b c : TimeBlock) :
  score_geb a b = true -> score_geb b c = true -> score_geb a c = true.
Proof.
  unfold score_geb. rewrite !Qle_bool_iff. intros H1 H2.
  eapply Qle_trans; eassumption.
Qed.






(** ** Gaps *)

Lemma slots_between_cut (duration : timedelta) (slot : datetime * datetime)
  (sorted_events : list (datetime * datetime)) :
  In slot (slots_between sorted_events duration) ->
  exists g, In g (gaps_between sorted_events) /\ cut_from duration g slot.
Proof.
  induction sorted_events as [|cur l IH]; simpl; [tauto|].
  destruct l as [|next l]; [simpl; tauto|].
  rewrite in_app_iff. intros [H|H].
  - exists (snd cur, fst next). split; [now left|].
    destruct (Z.leb_spec duration (fst next - snd cur)); [|destruct H].
    destruct (snd cur + duration <=? fst next); [|destruct H].
    destruct H as [<-|[]]. now split.
  - destruct (IH H) as (g & Hg & Hcut). exists g. split; [now right|exact Hcut].
Qed.

Lemma last_cons_In {A : Type} (l : list A) :
  forall x : A, exists y, last (x :: l) = Some y /\ In y (x :: l).
Proof.
  induction l as [|z l IH]; intros x.
  - exists x. split; [reflexivity | now left].
  - destruct (IH z) as (y & Hy & Hin). exists y. split; [exact Hy|now right].
Qed.

(** Every slot of the finder is cut from a gap of the day. *)
Lemma _find_free_slots_cut (work_start work_end : datetime)
  (day_events : list Event) (duration : timedelta)
  (slot : datetime * datetime) :
  In slot (_find_free_slots work_start work_end day_events duration) ->
  exists g, In g (gaps work_start work_end day_events)
            /\ cut_from duration g slot.
Proof.
  unfold _find_free_slots, gaps.
  destruct (stable_sort span_start_leb (spans day_events)) as [|first l].
  - simpl. intros H. exists (work_start, work_end). split; [now left|].
    destruct (Z.leb_spec duration (work_end - work_start));
      simpl in H; [|destruct H].
    unfold cut_from. simpl. intuition congruence.
  - destruct (last_cons_In l first) as (last_event & -> & _).
    rewrite !in_app_iff. intros [H|[H|H]].
    + exists (work_start, fst first). split; [now left|].
      destruct (work_start <? fst first); [|destruct H].
      destruct (Z.leb_spec duration (fst first - work_start)); [|destruct H].
      destruct H as [<-|[]]. now split.
    + destruct (slots_between_cut _ _ _ H) as (g & Hg & Hcut).
      exists g. split; [|exact Hcut]. right. apply in_app_iff. now left.
    + exists (snd last_event, work_end). split.
      * right. apply in_app_iff. right. now left.
      * destruct (Z.leb_spec duration (work_end - snd last_event));
          [|destruct H].
        destruct (snd last_event + duration <=? work_end); [|destruct H].
        destruct H as [<-|[]]. now split.
Qed.

(** ** Durations that fit no gap, and durations that are not positive *)

Lemma _find_free_slots_no_fit (work_start work_end : datetime)
  (day_events : list Event) (duration : timedelta) :
  Forall (fun g => snd g - fst g < duration)
    (gaps work_start work_end day_events) ->
  _find_free_slots work_start work_end day_events duration = [].
Proof.
  intros Hgaps.
  destruct (_find_free_slots work_start work_end day_events duration)
    as [|slot l] eqn:Hf; [reflexivity|].
  destruct (_find_free_slots_cut work_start work_end day_events duration slot)
    as (g & Hg & Hfit & _).
  - rewrite Hf. now left.
  - rewrite Forall_forall in Hgaps. apply list_elem_of_In, Hgaps in Hg. lia.
Qed.

Lemma _find_free_slots_no_event (work_start work_end : datetime)
  (day_events : list Event) (duration : timedelta) :
  spans day_events = [] ->
  duration <= work_end - work_start ->
  _find_free_slots work_start work_end day_events duration
  = [(work_start, work_start + duration); (work_start, work_start + duration)].
Proof.
  intros Hs Hfit. unfold _find_free_slots. rewrite Hs. simpl.
  destruct (Z.leb_spec duration (work_end - work_start)); [reflexivity|lia].
Qed.

Lemma slice_to_nil {A : Type} (n : Z) : slice_to n (@nil A) = [].
Proof. unfold slice_to. destruct (0 <=? n); apply take_nil. Qed.

Lemma flat_map_nil {A B : Type} (f : A -> list B) (l : list A) :
  (forall x, In x l -> f x = []) -> flat_map f l = [].
Proof.
  induction l as [|x l IH]; intros H; simpl; [reflexivity|].
  rewrite (H x) by now left. apply IH. intros y Hy. apply H. now right.
Qed.

Lemma suggest_time_blocks_nonempty (self : TimeBlocker) (now : datetime)
  (duration_minutes : Z) (event_type : string)
  (start_date end_date : option datetime) (max_suggestions : Z) :
  all_suggestions self now duration_minutes event_type start_date end_date
  <> [] ->
  0 < max_suggestions ->
  suggest_time_blocks self now duration_minutes event_type start_date end_date
    max_suggestions <> [].
Proof.
  intros Hall Hmax. rewrite suggest_time_blocks_unfold.
  destruct (stable_sort score_geb _) as [|b l] eqn:Hs.
  - now apply stable_sort_nil_inv in Hs.
  - unfold slice_to. destruct (Z.leb_spec 0 max_suggestions); [|lia].
    destruct (Z.to_nat max_suggestions) eqn:Hn; [lia|]. discriminate.
Qed.

Lemma suggest_time_blocks_fitting (self : TimeBlocker) (now : datetime)
  (duration_minutes : Z) (event_type : string)
  (start_date end_date : option datetime) (max_suggestions : Z) (d : date) :
  let s := default now start_date in
  let e := default (s + timedelta_days 7) end_date in
  let existing_events := get_events (event_manager self) s e in
  date_of s <= d <= date_of e -> _is_workday d = true ->
  spans (events_on d existing_events) = [] ->
  timedelta_minutes duration_minutes
  <= combine d (work_end self) - combine d (work_start self) ->
  0 < max_suggestions ->
  suggest_time_blocks self now duration_minutes event_type start_date
    end_date max_suggestions <> [].
Proof.
  intros s e existing_events Hd Hw Hspans Hfit Hmax.
  apply suggest_time_blocks_nonempty; [|exact Hmax].
  rewrite all_suggestions_spec. fold s. fold e. fold existing_events.
  intros Hnil.
  assert (Hin : In d (seqZ (date_of s) (date_of e - date_of s + 1)))
    by (apply list_elem_of_In, elem_of_seqZ; lia).
  apply in_split in Hin. destruct Hin as (l1 & l2 & Hl).
  rewrite Hl, flat_map_app in Hnil. apply app_eq_nil in Hnil.
  destruct Hnil as [_ Hnil]. simpl in Hnil.
  apply app_eq_nil in Hnil. destruct Hnil as [Hnil _].
  unfold day_suggestions in Hnil. rewrite Hw in Hnil.
  unfold _analyze_day in Hnil.
  rewrite _find_free_slots_no_event in Hnil by assumption.
  discriminate.
Qed.

(** *** The errors of date arithmetic *)

Lemma datetime_add_Some (dt : datetime) (td : timedelta) (x : datetime) :
  datetime_add dt td = Some x -> x = dt + td.
Proof. unfold datetime_add. destruct (valid_datetime _); congruence. Qed.

Lemma datetime_sub_Some (dt : datetime) (td : timedelta) (x : datetime) :
  datetime_sub dt td = Some x -> x = dt - td.
Proof. unfold datetime_sub. destruct (valid_datetime _); congruence. Qed.

Lemma all_valid_app (l1 l2 : list (datetime * datetime)) :
  all_valid (l1 ++ l2)
  = (a ← all_valid l1; b ← all_valid l2; Some (a ++ b)).
Proof.
  unfold all_valid. rewrite forallb_app.
  destruct (forallb _ l1); simpl; [|reflexivity].
  destruct (forallb _ l2); reflexivity.
Qed.

Lemma checked_slot (slot_start gap_end : datetime) (duration : timedelta) :
  (if duration <=? gap_end - slot_start then
     slot_end ← datetime_add slot_start duration;
     if slot_end <=? gap_end then Some [(slot_start, slot_end)] else Some []
   else Some [])
  = all_valid
      (if duration <=? gap_end - slot_start then
         if slot_start + duration <=? gap_end
         then [(slot_start, slot_start + duration)] else []
       else []).
Proof.
  destruct (Z.leb_spec duration (gap_end - slot_start)); [|reflexivity].
  destruct (Z.leb_spec (slot_start + duration) gap_end); [|lia].
  unfold all_valid, datetime_add. simpl.
  destruct (valid_datetime (slot_start + duration)); simpl; [|reflexivity].
  destruct (Z.leb_spec (slot_start + duration) gap_end); [reflexivity|lia].
Qed.

Lemma checked_first_slot (work_start slot_end : datetime)
  (duration : timedelta) :
  (if duration <=? slot_end - work_start
   then slot_end ← datetime_add work_start duration;
        Some [(work_start, slot_end)]
   else Some [])
  = all_valid
      (if duration <=? slot_end - work_start
       then [(work_start, work_start + duration)] else []).
Proof.
  destruct (duration <=? slot_end - work_start); [|reflexivity].
  unfold all_valid, datetime_add. simpl.
  destruct (valid_datetime (work_start + duration)); reflexivity.
Qed.

Lemma slots_between_checked_step (duration : timedelta)
  (cur next : datetime * datetime) (l : list (datetime * datetime)) :
  slots_between_checked (cur :: next :: l) duration
  = (found ←
       (if duration <=? fst next - snd cur then
          slot_end ← datetime_add (snd cur) duration;
          if slot_end <=? fst next then Some [(snd cur, slot_end)]
          else Some []
        else Some []);
     others ← slots_between_checked (next :: l) duration;
     Some (found ++ others)).
Proof. reflexivity. Qed.

Lemma slots_between_pure_step (duration : timedelta)
  (cur next : datetime * datetime) (l : list (datetime * datetime)) :
  slots_between (cur :: next :: l) duration
  = (if duration <=? fst next - snd cur then
       if snd cur + duration <=? fst next
       then [(snd cur, snd cur + duration)] else []
     else [])
    ++ slots_between (next :: l) duration.
Proof. reflexivity. Qed.

Lemma slots_between_checked_spec (sorted_events : list (datetime * datetime))
  (duration : timedelta) :
  slots_between_checked sorted_events duration
  = all_valid (slots_between sorted_events duration).
Proof.
  induction sorted_events as [|current_event rest IH]; [reflexivity|].
  destruct rest as [|next_event rest]; [reflexivity|].
  rewrite slots_between_checked_step, slots_between_pure_step.
  rewrite checked_slot, IH, all_valid_app. reflexivity.
Qed.

Lemma _find_free_slots_checked_spec (work_start work_end : datetime)
  (day_events : list Event) (duration : timedelta) :
  _find_free_slots_checked work_start work_end day_events duration
  = all_valid (_find_free_slots work_start work_end day_events duration).
Proof.
  unfold _find_free_slots_checked, _find_free_slots. cbv zeta.
  rewrite !all_valid_app, <- slots_between_checked_spec.
  set (sorted_events := stable_sort span_start_leb (spans day_events)).
  assert (Hbefore :
    match sorted_events with
    | [] =>
        if duration <=? work_end - work_start
        then slot_end ← datetime_add work_start duration;
             Some [(work_start, slot_end)]
        else Some []
    | first :: _ =>
        if work_start <? fst first then
          if duration <=? fst first - work_start
          then slot_end ← datetime_add work_start duration;
               Some [(work_start, slot_end)]
          else Some []
        else Some []
    end
    = all_valid
        match sorted_events with
        | [] =>
            if duration <=? work_end - work_start
            then [(work_start, work_start + duration)] else []
        | first :: _ =>
            if work_start <? fst first then
              if duration <=? fst first - work_start
              then [(work_start, work_start + duration)] else []
            else []
        end).
  { destruct sorted_events as [|first l].
    - apply checked_first_slot.
    - destruct (work_start <? fst first); [|reflexivity].
      apply checked_first_slot. }
  assert (Hafter :
    match last sorted_events with
    | Some last_event =>
        if duration <=? work_end - snd last_event then
          slot_end ← datetime_add (snd last_event) duration;
          if slot_end <=? work_end then Some [(snd last_event, slot_end)]
          else Some []
        else Some []
    | None =>
        if duration <=? work_end - work_start
        then slot_end ← datetime_add work_start duration;
             Some [(work_start, slot_end)]
        else Some []
    end
    = all_valid
        match last sorted_events with
        | Some last_event =>
            if duration <=? work_end - snd last_event then
              if snd last_event + duration <=? work_end
              then [(snd last_event, snd last_event + duration)] else []
            else []
        | None =>
            if duration <=? work_end - work_start
            then [(work_start, work_start + duration)] else []
        end).
  { destruct (last sorted_events) as [last_event|].
    - apply checked_slot.
    - apply checked_first_slot. }
  rewrite Hbefore, Hafter.
  repeat match goal with
         | |- context [all_valid ?l] => destruct (all_valid l); simpl
         | |- context [slots_between_checked ?l ?d] =>
             destruct (slots_between_checked l d); simpl
         end;
    reflexivity.
Qed.

Lemma all_valid_Some (slots result : list (datetime * datetime)) :
  all_valid slots = Some result -> result = slots.
Proof. unfold all_valid. destruct (forallb _ _); congruence. Qed.

Lemma _count_similar_events_nearby_checked_Some
  (start_time end_time : datetime) (event_type : string)
  (day_events : list Event) (n : Z) :
  _count_similar_events_nearby_checked start_time end_time event_type
    day_events = Some n ->
  n = _count_similar_events_nearby start_time end_time event_type day_events.
Proof.
  unfold _count_similar_events_nearby_checked, _count_similar_events_nearby.
  destruct (datetime_sub _ _) as [ws|] eqn:Hs; [|discriminate].
  destruct (datetime_add _ _) as [we|] eqn:He; [|discriminate].
  apply datetime_sub_Some in Hs. apply datetime_add_Some in He. subst.
  intros H. injection H as <-. reflexivity.
Qed.

Lemma mapM_Some_map {A B : Type} (f : A -> option B) (g : A -> B)
  (l : list A) :
  (forall x y, f x = Some y -> y = g x) ->
  forall r, mapM f l = Some r -> r = map g l.
Proof.
  intros Hf. induction l as [|x l IH]; intros r H.
  - injection H as <-. reflexivity.
  - cbn [mapM] in H.
    destruct (f x) as [y|] eqn:Hy; [|discriminate].
    apply Hf in Hy. subst y. simpl in H.
    destruct (mapM f l) as [k|]; [|discriminate].
    injection H as <-. simpl. f_equal. now apply IH.
Qed.

Lemma mapM_blocks (self : TimeBlocker) (event_type : string)
  (day_events : list Event) (free_slots : list (datetime * datetime))
  (blocks : list TimeBlock) :
  mapM (fun '(start_time, end_time) =>
          score ← _score_time_slot_checked self start_time end_time
                    event_type day_events;
          reason ← _generate_reason_checked start_time end_time event_type
                     day_events;
          Some (TimeBlock.mk start_time end_time score reason))
       free_slots = Some blocks ->
  blocks = map (block_of self event_type day_events) free_slots.
Proof.
  apply mapM_Some_map. intros [s t] b.
  unfold _score_time_slot_checked, _generate_reason_checked.
  destruct (_count_similar_events_nearby_checked s t event_type day_events);
    [|discriminate].
  intros H. injection H as <-. reflexivity.
Qed.

Lemma _analyze_day_checked_Some (self : TimeBlocker) (date_obj : date)
  (duration : timedelta) (event_type : string) (existing_events : list Event)
  (blocks : list TimeBlock) :
  _analyze_day_checked self date_obj duration event_type existing_events
  = Some blocks ->
  blocks = _analyze_day self date_obj duration event_type existing_events.
Proof.
  unfold _analyze_day_checked, _analyze_day, events_on. cbv zeta.
  destruct (datetime_add _ _) as [day_end|] eqn:Hd; [|discriminate].
  apply datetime_add_Some in Hd. subst day_end. simpl.
  rewrite _find_free_slots_checked_spec.
  destruct (all_valid _) as [free_slots|] eqn:Hf; [|discriminate].
  apply all_valid_Some in Hf. subst free_slots. simpl.
  intros H. apply mapM_blocks in H. subst blocks.
  apply map_ext. intros [s t]. reflexivity.
Qed.

Lemma _analyze_day_checked_no_slot (self : TimeBlocker) (date_obj : date)
  (duration : timedelta) (event_type : string)
  (existing_events : list Event) :
  0 <= date_obj < MAX_DATE ->
  _find_free_slots (combine date_obj (work_start self))
    (combine date_obj (work_end self)) (events_on date_obj existing_events)
    duration = [] ->
  _analyze_day_checked self date_obj duration event_type existing_events
  = Some [].
Proof.
  intros Hd Hnil. unfold _analyze_day_checked. cbv zeta.
  unfold datetime_add, valid_datetime.
  replace ((0 <=? combine date_obj min_time + timedelta_days 1)
           && (combine date_obj min_time + timedelta_days 1
               <? (MAX_DATE + 1) * DAY)) with true.
  2:{ symmetry. apply andb_true_iff. split; [apply Z.leb_le|apply Z.ltb_lt];
      unfold MAX_DATE, combine, min_time, timedelta_days, DAY, HOUR, MINUTE,
        SECOND in *; simpl in *; lia. }
  simpl. rewrite _find_free_slots_checked_spec.
  unfold events_on in Hnil. cbv zeta in Hnil. rewrite Hnil. reflexivity.
Qed.

Lemma date_add_day_Some (d d' : date) :
  date_add_day d = Some d' -> d' = d + 1.
Proof. unfold date_add_day. destruct (_ && _); congruence. Qed.

Lemma while_days_checked_Some (self : TimeBlocker) (duration : timedelta)
  (event_type : string) (existing_events : list Event) (end_date_only : date)
  (fuel : nat) :
  forall (current_date : date) (suggestions result : list TimeBlock),
    while_days_checked fuel self duration event_type existing_events
      end_date_only current_date suggestions = Some result ->
    result = while_days fuel self duration event_type existing_events
               end_date_only current_date suggestions.
Proof.
  induction fuel as [|fuel IH]; intros cur acc result; simpl.
  - congruence.
  - destruct (cur <=? end_date_only); [|congruence].
    destruct (_is_workday cur).
    + destruct (_analyze_day_checked _ _ _ _ _) as [day|] eqn:Hday;
        [|discriminate].
      apply _analyze_day_checked_Some in Hday. subst day. simpl.
      destruct (date_add_day cur) as [next|] eqn:Hn; [|discriminate].
      apply date_add_day_Some in Hn. subst next. simpl. apply IH.
    + simpl.
      destruct (date_add_day cur) as [next|] eqn:Hn; [|discriminate].
      apply date_add_day_Some in Hn. subst next. simpl. apply IH.
Qed.

Lemma while_days_checked_no_slot (self : TimeBlocker) (duration : timedelta)
  (event_type : string) (existing_events : list Event) (end_date_only : date)
  (fuel : nat) :
  forall (current_date : date) (suggestions : list TimeBlock),
    0 <= current_date ->
    end_date_only < MAX_DATE ->
    (forall d, current_date <= d <= end_date_only -> _is_workday d = true ->
       _find_free_slots (combine d (work_start self))
         (combine d (work_end self)) (events_on d existing_events) duration
       = []) ->
    while_days_checked fuel self duration event_type existing_events
      end_date_only current_date suggestions = Some suggestions.
Proof.
  induction fuel as [|fuel IH]; intros cur acc Hcur Hend Hnil; simpl.
  - reflexivity.
  - destruct (Z.leb_spec cur end_date_only) as [Hle|Hgt]; [|reflexivity].
    assert (Hnext : date_add_day cur = Some (cur + 1)).
    { unfold date_add_day.
      destruct (Z.leb_spec 0 (cur + 1)); [|lia].
      destruct (Z.leb_spec (cur + 1) MAX_DATE); [reflexivity|lia]. }
    destruct (_is_workday cur) eqn:Hw.
    + rewrite _analyze_day_checked_no_slot;
        [|lia|apply Hnil; [lia|exact Hw]].
      simpl. rewrite Hnext. simpl. rewrite app_nil_r.
      apply IH; [lia|exact Hend|]. intros d Hd. apply Hnil. lia.
    + simpl. rewrite Hnext. simpl.
      apply IH; [lia|exact Hend|]. intros d Hd. apply Hnil. lia.
Qed.

Lemma while_days_checked_last_day (self : TimeBlocker) (duration : timedelta)
  (event_type : string) (existing_events : list Event) (fuel : nat) :
  forall (current_date : date) (suggestions : list TimeBlock),
    current_date <= MAX_DATE ->
    (Z.to_nat (MAX_DATE - current_date + 1) <= fuel)%nat ->
    while_days_checked fuel self duration event_type existing_events
      MAX_DATE current_date suggestions = None.
Proof.
  induction fuel as [|fuel IH]; intros cur acc Hcur Hfuel; [lia|]. simpl.
  destruct (Z.leb_spec cur MAX_DATE) as [_|]; [|lia].
  destruct (if _is_workday cur then _ else _) as [acc'|]; [|reflexivity].
  simpl. unfold date_add_day.
  destruct (Z.leb_spec (cur + 1) MAX_DATE) as [Hlt|Hge].
  - destruct (Z.leb_spec 0 (cur + 1)); simpl; [|reflexivity].
    apply IH; lia.
  - rewrite andb_false_r. reflexivity.
Qed.

Lemma suggest_time_blocks_checked_Some (self : TimeBlocker) (now : datetime)
  (duration_minutes : Z) (event_type : string)
  (start_date end_date : option datetime) (max_suggestions : Z)
  (result : list TimeBlock) :
  suggest_time_blocks_checked self now duration_minutes event_type start_date
    end_date max_suggestions = Some result ->
  result = suggest_time_blocks self now duration_minutes event_type
             start_date end_date max_suggestions.
Proof.
  unfold suggest_time_blocks_checked, suggest_time_blocks. cbv zeta.
  set (s := default now start_date).
  assert (He : forall e,
             match end_date with
             | Some end_date => Some end_date
             | None => datetime_add s (timedelta_days 7)
             end = Some e ->
             e = default (s + timedelta_days 7) end_date).
  { destruct end_date as [e'|]; simpl; intros e H.
    - congruence.
    - now apply datetime_add_Some in H. }
  destruct (match end_date with Some _ => _ | None => _ end) as [e|];
    [|discriminate].
  rewrite <- (He e eq_refl). simpl.
  unfold timedelta_minutes_checked.
  destruct (valid_timedelta _); [|discriminate]. simpl.
  destruct (while_days_checked _ _ _ _ _ _ _ _) as [l|] eqn:Hl;
    [|discriminate].
  apply while_days_checked_Some in Hl. subst l. simpl. congruence.
Qed.

(** With a duration of 0 minutes an event-free Monday yields two blocks,
    each from 09:00 to 09:00. *)
Lemma zero_duration_counterexample :
  option_map
    (map (fun b => (TimeBlock.start_time b, TimeBlock.end_time b)))
    (suggest_time_blocks_checked (TimeBlocker_init (mk_EventManager [])) 0 0
       "meeting" (Some (at_time 738885 8 0)) (Some (at_time 738885 18 0)) 5)
  = Some [(at_time 738885 9 0, at_time 738885 9 0);
          (at_time 738885 9 0, at_time 738885 9 0)].
Proof. reflexivity. Qed.

(** A duration of [10 ** 13] minutes fits no gap, and the call raises:
    [timedelta(minutes=10 ** 13)] is out of range. *)
Example absurd_duration_overflows :
  suggest_time_blocks_checked (TimeBlocker_init (mk_EventManager [])) 0
    (10 ^ 13) "meeting" (Some (at_time 738885 8 0))
    (Some (at_time 738885 18 0)) 5
  = None.
Proof. reflexivity. Qed.

(** A duration of -1100000000 minutes is a [timedelta], and the call raises
    on an event-free Monday of 2024: [work_start + duration] is before the
    year 1. *)
Example far_negative_duration_overflows :
  valid_timedelta (timedelta_minutes (-1100000000)) = true
  /\ suggest_time_blocks_checked (TimeBlocker_init (mk_EventManager [])) 0
       (-1100000000) "meeting" (Some (at_time 738885 8 0))
       (Some (at_time 738885 18 0)) 5
     = None.
Proof. split; reflexivity. Qed.

(** C3 (amended).  When [timedelta(minutes=duration_minutes)] is in the
    range of [timedelta], the end of the window is a datetime and the last
    date of the window is before 9999-12-31, a duration that fits no gap of
    any workday of the window yields the empty list, not an error.  A
    duration is not rejected for being zero or negative: whatever its sign,
    when it is at most the length of the working window of an event-free
    workday of the window, the result is not the empty list (for a positive
    [max_suggestions]).  A duration out of the range of [timedelta] raises
    [OverflowError], and so do a window that reaches 9999-12-31 and a
    default end of the window, seven days after the start, past the year
    9999. *)
Theorem duration_fitting_no_gap (self : TimeBlocker) (now : datetime)
  (duration_minutes : Z) (event_type : string)
  (start_date end_date : option datetime) (max_suggestions : Z) :
  let s := default now start_date in
  let e := default (s + timedelta_days 7) end_date in
  let existing_events := get_events (event_manager self) s e in
  let result :=
    suggest_time_blocks_checked self now duration_minutes event_type
      start_date end_date max_suggestions in
  (valid_timedelta (timedelta_minutes duration_minutes) = true ->
   valid_datetime s = true -> valid_datetime e = true ->
   date_of e < MAX_DATE ->
   (forall d, date_of s <= d <= date_of e -> _is_workday d = true ->
      Forall (fun g => snd g - fst g < timedelta_minutes duration_minutes)
        (gaps (combine d (work_start self)) (combine d (work_end self))
           (events_on d existing_events))) ->
   result = Some [])
  /\ (forall d, date_of s <= d <= date_of e -> _is_workday d = true ->
        spans (events_on d existing_events) = [] ->
        timedelta_minutes duration_minutes
        <= combine d (work_end self) - combine d (work_start self) ->
        0 < max_suggestions ->
        result <> Some [])
  /\ (valid_timedelta (timedelta_minutes duration_minutes) = false ->
      result = None)
  /\ (date_of s <= date_of e -> date_of e = MAX_DATE -> result = None)
  /\ (end_date = None -> valid_datetime (s + timedelta_days 7) = false ->
      result = None).
Proof.
  intros s e existing_events result.
  assert (Hend : valid_datetime e = true ->
                 match end_date with
                 | Some end_date => Some end_date
                 | None => datetime_add s (timedelta_days 7)
                 end = Some e).
  { intros He. subst e. destruct end_date as [e'|]; simpl in *;
      [reflexivity|].
    unfold datetime_add. now rewrite He. }
  assert (Hend' : forall e',
             match end_date with
             | Some end_date => Some end_date
             | None => datetime_add s (timedelta_days 7)
             end = Some e' -> e' = e).
  { intros e'. subst e. destruct end_date as [e0|]; simpl; intros H.
    - congruence.
    - now apply datetime_add_Some in H. }
  split; [|split; [|split; [|split]]].
  - intros Hdur Hs He Hlast Hgaps. subst result.
    unfold suggest_time_blocks_checked. cbv zeta. fold s.
    rewrite (Hend He). simpl.
    unfold timedelta_minutes_checked. rewrite Hdur. simpl.
    rewrite while_days_checked_no_slot.
    + simpl. now rewrite slice_to_nil.
    + unfold date_of. apply Z.div_pos; [|reflexivity].
      unfold valid_datetime in Hs. apply andb_true_iff in Hs. lia.
    + exact Hlast.
    + intros d Hd Hw. apply _find_free_slots_no_fit. now apply Hgaps.
  - intros d Hd Hw Hspans Hfit Hmax Hres. subst result.
    apply suggest_time_blocks_checked_Some in Hres. symmetry in Hres.
    revert Hres.
    now apply (suggest_time_blocks_fitting self now duration_minutes
                 event_type start_date end_date max_suggestions d).
  - intros Hdur. subst result.
    unfold suggest_time_blocks_checked. cbv zeta.
    destruct (match end_date with Some _ => _ | None => _ end);
      [|reflexivity].
    simpl. unfold timedelta_minutes_checked. now rewrite Hdur.
  - intros Hle Hlast. subst result.
    unfold suggest_time_blocks_checked. cbv zeta. fold s.
    destruct (match end_date with Some _ => _ | None => _ end) as [e'|];
      [|reflexivity].
    rewrite (Hend' e' eq_refl). simpl.
    destruct (timedelta_minutes_checked duration_minutes); [|reflexivity].
    simpl. rewrite Hlast.
    rewrite while_days_checked_last_day; [reflexivity|lia|lia].
  - intros -> Hs. subst result.
    unfold suggest_time_blocks_checked. cbv zeta. fold s.
    unfold datetime_add. now rewrite Hs.
Qed.

(** Ten hours fit no gap of an event-free week of eight-hour windows. *)
Lemma duration_fitting_no_gap_witness :
  suggest_time_blocks_checked (TimeBlocker_init (mk_EventManager [])) 0 600
    "meeting" (Some (at_time 738885 8 0)) (Some (at_time 738891 8 0)) 5
  = Some [].
Proof.
  apply (proj1 (duration_fitting_no_gap (TimeBlocker_init (mk_EventManager []))
                  0 600 "meeting" (Some (at_time 738885 8 0))
                  (Some (at_time 738891 8 0)) 5));
    [reflexivity|reflexivity|reflexivity|reflexivity|].
  intros d _ _. simpl.
  constructor; [|constructor].
  unfold combine, timedelta_minutes, DAY, HOUR, MINUTE, SECOND. simpl. lia.
Defined.

(** ** Weekends *)

Ltac unfold_units :=
  unfold at_time, combine, min_time, timedelta_minutes, timedelta_hours,
    timedelta_days, DAY, HOUR, MINUTE, SECOND in *; simpl in *.


Lemma get_events_In (em : EventManager) (start_date end_date : datetime)
  (e : Event) :
  In e (get_events em start_date end_date) -> In e (rows em).
Proof.
  unfold get_events. rewrite stable_sort_In, List.filter_In. tauto.
Qed.


Lemma spans_In (day_events : list Event) (p : datetime * datetime) :
  In p (spans day_events) ->
  exists e, In e day_events
            /\ Event.start_time e = Some (fst p)
            /\ Event.end_time e = Some (snd p).
Proof.
  unfold spans. rewrite <- list_elem_of_In, list_elem_of_omap.
  intros (e & He & Hspan). exists e. rewrite <- list_elem_of_In.
  split; [exact He|]. unfold span in Hspan.
  destruct (Event.start_time e), (Event.end_time e); try discriminate.
  injection Hspan as <-. now split.
Qed.

(** A gap starts at the start of the window or at an event's end, and
    ends at the end of the window or at an event's start. *)
Lemma gaps_between_Forall (A B : datetime -> Prop)
  (sorted_events : list (datetime * datetime)) :
  Forall (fun p => B (fst p) /\ A (snd p)) sorted_events ->
  Forall (fun g => A (fst g) /\ B (snd g)) (gaps_between sorted_events).
Proof.
  induction sorted_events as [|cur l IH]; intros H; simpl; [constructor|].
  destruct l as [|next l]; [constructor|].
  inversion H as [|? ? Hcur Hl]; subst.
  constructor; [|now apply IH].
  inversion Hl as [|? ? Hnext _]; subst. simpl. tauto.
Qed.

Lemma gaps_Forall (A B : datetime -> Prop) (work_start work_end : datetime)
  (day_events : list Event) :
  A work_start -> B work_end ->
  Forall (fun p => B (fst p) /\ A (snd p)) (spans day_events) ->
  Forall (fun g => A (fst g) /\ B (snd g))
    (gaps work_start work_end day_events).
Proof.
  intros HA HB H. apply (stable_sort_Forall span_start_leb) in H.
  unfold gaps.
  destruct (stable_sort span_start_leb (spans day_events)) as [|first l].
  - repeat constructor; assumption.
  - destruct (last_cons_In l first) as (last_event & -> & Hlast).
    pose proof H as Hall. rewrite Forall_forall in Hall.
    constructor.
    + inversion H; subst. simpl. tauto.
    + apply Forall_app. split; [now apply gaps_between_Forall|].
      repeat constructor; simpl; [|assumption].
      apply list_elem_of_In, Hall in Hlast. tauto.
Qed.



(** An event stored with its end before its start has the same effect with
    a positive duration: the block cut after it lies on the Sunday before
    the Monday analysed. *)
Example weekend_block_reversed_event :
  map (fun b => (weekday (TimeBlock.start_time b),
                 weekday (TimeBlock.end_time b)))
    (suggest_time_blocks
       (TimeBlocker_init
          (mk_EventManager
             [Event.mk "o1" "Odd" (Some (at_time 738892 10 0))
                (Some (at_time 738891 10 0));
              Event.mk "o2" "Sync" (Some (at_time 738892 12 0))
                (Some (at_time 738892 13 0))]))
       0 60 "meeting" (Some (at_time 738892 8 0))
       (Some (at_time 738892 23 30)) 5)
  = [(0, 0); (6, 6); (0, 0)].
Proof. reflexivity. Qed.



(** ** Free slots and events *)

(** C1.  Non-overlap fails on nested events: with a workshop from 09:00 to
    15:00 and a sync from 10:00 to 11:00 inside it, the finder takes the
    sync, which starts last, for the last event of the day and returns the
    one-hour slot 11:00-12:00, in the middle of the workshop; the suggester
    returns that slot. *)
Theorem nested_events_slot_overlaps :
  _find_free_slots (at_time 738885 9 0) (at_time 738885 17 0)
    [workshop; sync] (timedelta_minutes 60)
  = [(at_time 738885 11 0, at_time 738885 12 0)]
  /\ overlaps_event (at_time 738885 11 0, at_time 738885 12 0) workshop = true
  /\ map (fun b => (TimeBlock.start_time b, TimeBlock.end_time b))
       (suggest_time_blocks
          (TimeBlocker_init (mk_EventManager [workshop; sync])) 0 60
          "meeting" (Some (at_time 738885 8 0)) (Some (at_time 738885 18 0))
          5)
     = [(at_time 738885 11 0, at_time 738885 12 0)].
Proof. repeat split. Qed.

(** C2.  Containment fails on an event before the window: with a call from
    07:00 to 08:00 and the window 09:00-17:00, the finder returns the
    one-hour slot 08:00-09:00 after the call, which starts before the
    window; the suggester returns that slot. *)
Theorem early_event_slot_outside_window :
  _find_free_slots (at_time 738885 9 0) (at_time 738885 17 0)
    [early_call] (timedelta_minutes 60)
  = [(at_time 738885 8 0, at_time 738885 9 0)]
  /\ within_window (at_time 738885 9 0) (at_time 738885 17 0)
       (at_time 738885 8 0, at_time 738885 9 0) = false
  /\ map (fun b => (TimeBlock.start_time b, TimeBlock.end_time b))
       (suggest_time_blocks
          (TimeBlocker_init (mk_EventManager [early_call])) 0 60
          "meeting" (Some (at_time 738885 6 0)) (Some (at_time 738885 18 0))
          5)
     = [(at_time 738885 8 0, at_time 738885 9 0)].
Proof. repeat split. Qed.

(** *** When the two properties do hold *)

(** Containment holds when no event of the day ends before the window or
    starts after it and the duration is not negative. *)
Lemma slots_within_window (work_start work_end : datetime)
  (day_events : list Event) (duration : timedelta)
  (slot : datetime * datetime) :
  0 <= duration ->
  Forall (fun p => fst p <= work_end /\ work_start <= snd p)
    (spans day_events) ->
  In slot (_find_free_slots work_start work_end day_events duration) ->
  within_window work_start work_end slot = true.
Proof.
  intros Hdur Hev Hslot.
  destruct (_find_free_slots_cut _ _ _ _ _ Hslot) as (g & Hg & Hfit & ->).
  pose proof (gaps_Forall (fun x => work_start <= x) (fun x => x <= work_end)
                work_start work_end day_events (Z.le_refl _) (Z.le_refl _) Hev)
    as Hgaps.
  rewrite Forall_forall in Hgaps. apply list_elem_of_In, Hgaps in Hg.
  unfold within_window. simpl. apply andb_true_intro. split; lia.
Qed.

Lemma gaps_between_start (sorted_events : list (datetime * datetime))
  (g : datetime * datetime) :
  In g (gaps_between sorted_events) ->
  exists q, In q sorted_events /\ fst g = snd q.
Proof.
  induction sorted_events as [|cur l IH]; simpl; [tauto|].
  destruct l as [|next l]; [simpl; tauto|].
  intros [<-|H].
  - exists cur. split; [now left | reflexivity].
  - destruct (IH H) as (q & Hq & Heq). exists q. split; [now right|exact Heq].
Qed.

Lemma slots_between_step (duration : timedelta)
  (cur next : datetime * datetime) (l : list (datetime * datetime)) :
  slots_between (cur :: next :: l) duration
  = (if duration <=? fst next - snd cur then
       if snd cur + duration <=? fst next
       then [(snd cur, snd cur + duration)] else []
     else [])
    ++ slots_between (next :: l) duration.
Proof. reflexivity. Qed.

Lemma slots_between_clear (duration : timedelta)
  (sorted_events : list (datetime * datetime)) :
  StronglySorted span_before sorted_events ->
  forall slot p,
    In slot (slots_between sorted_events duration) ->
    In p sorted_events -> clear_of slot p.
Proof.
  induction 1 as [|cur l Hs IH Hcur]; intros slot p Hslot Hp;
    [destruct Hslot|].
  destruct l as [|next l]; [destruct Hslot|].
  rewrite Forall_forall in Hcur.
  rewrite slots_between_step in Hslot. apply in_app_iff in Hslot.
  destruct Hslot as [Hslot|Hslot].
  - destruct (Z.leb_spec duration (fst next - snd cur)); [|destruct Hslot].
    destruct (snd cur + duration <=? fst next); [|destruct Hslot].
    destruct Hslot as [<-|[]]. unfold clear_of. simpl.
    destruct Hp as [<-|Hp]; [right; lia|]. left.
    destruct Hp as [<-|Hp]; [lia|].
    inversion Hs as [|? ? _ Hnext]; subst.
    rewrite Forall_forall in Hnext.
    apply list_elem_of_In, Hnext in Hp. destruct Hp. lia.
  - destruct Hp as [<-|Hp]; [|now apply IH].
    destruct (slots_between_cut _ _ _ Hslot) as (g & Hg & _ & ->).
    destruct (gaps_between_start _ _ Hg) as (q & Hq & Heq).
    apply list_elem_of_In, Hcur in Hq. destruct Hq.
    right. simpl. lia.
Qed.

Lemma last_span_before (sorted_events : list (datetime * datetime)) :
  StronglySorted span_before sorted_events ->
  forall x p, last sorted_events = Some x -> In p sorted_events ->
              snd p <= snd x.
Proof.
  induction 1 as [|cur l Hs IH Hcur]; intros x p Hlast Hp; [destruct Hp|].
  destruct l as [|next l].
  - injection Hlast as <-. destruct Hp as [<-|[]]. lia.
  - change (last (next :: l) = Some x) in Hlast.
    destruct Hp as [<-|Hp]; [|now apply IH].
    destruct (last_cons_In l next) as (y & Hy & Hin).
    rewrite Hlast in Hy. injection Hy as <-.
    rewrite Forall_forall in Hcur. apply list_elem_of_In, Hcur in Hin.
    destruct Hin. lia.
Qed.

Lemma StronglySorted_strengthen {A : Type} (R R' : A -> A -> Prop)
  (l : list A) :
  (forall a b, In a l -> In b l -> R a b -> R' a b) ->
  StronglySorted R l -> StronglySorted R' l.
Proof.
  intros HR Hs. induction Hs as [|x l Hs IH Hx].
  - constructor.
  - constructor.
    + apply IH. intros a b Ha Hb. apply HR; now right.
    + rewrite Forall_forall in *. intros y Hy.
      apply HR; [now left | right; now apply list_elem_of_In | now apply Hx].
Qed.

(** Non-overlap holds when no event of the day starts no later than another
    and ends after it: then every slot is clear of every event. *)
Lemma slots_clear_of_events (work_start work_end : datetime)
  (day_events : list Event) (duration : timedelta)
  (slot : datetime * datetime) (e : Event) :
  (forall p q, In p (spans day_events) -> In q (spans day_events) ->
               fst p <= fst q -> snd p <= snd q) ->
  In slot (_find_free_slots work_start work_end day_events duration) ->
  In e day_events ->
  overlaps_event slot e = false.
Proof.
  intros Hord Hslot He. unfold overlaps_event.
  destruct (span e) as [[s t]|] eqn:Hspan; [|reflexivity].
  assert (Hp : In (s, t) (spans day_events)).
  { apply list_elem_of_In, list_elem_of_omap. exists e.
    split; [now apply list_elem_of_In | exact Hspan]. }
  enough (Hclear : clear_of slot (s, t)).
  { unfold clear_of in Hclear. simpl in Hclear.
    apply andb_false_iff. rewrite !Z.ltb_ge. tauto. }
  assert (Hsorted :
    StronglySorted span_before (stable_sort span_start_leb (spans day_events))).
  { eapply StronglySorted_strengthen;
      [|apply (stable_sort_StronglySorted span_start_leb)].
    - intros a b Ha Hb Hab. apply stable_sort_In in Ha, Hb.
      apply Z.leb_le in Hab. split; [exact Hab | now apply Hord].
    - unfold span_start_leb. intros a b H. apply Z.leb_gt in H.
      apply Z.leb_le. lia.
    - unfold span_start_leb. intros a b c H1 H2.
      apply Z.leb_le in H1, H2. apply Z.leb_le. lia. }
  apply (stable_sort_In span_start_leb) in Hp.
  revert Hslot. unfold _find_free_slots.
  destruct (stable_sort span_start_leb (spans day_events)) as [|first l];
    [destruct Hp|].
  destruct (last_cons_In l first) as (last_event & Hlast & _).
  rewrite Hlast, !in_app_iff. intros [H|[H|H]].
  - destruct (work_start <? fst first); [|destruct H].
    destruct (Z.leb_spec duration (fst first - work_start)); [|destruct H].
    destruct H as [<-|[]]. left. simpl.
    inversion Hsorted as [|? ? _ Hfirst]; subst.
    destruct Hp as [->|Hp]; [simpl in *; lia|].
    rewrite Forall_forall in Hfirst.
    apply list_elem_of_In, Hfirst in Hp. destruct Hp. simpl in *. lia.
  - eapply slots_between_clear; eassumption.
  - destruct (Z.leb_spec duration (work_end - snd last_event)); [|destruct H].
    destruct (snd last_event + duration <=? work_end); [|destruct H].
    destruct H as [<-|[]]. right. simpl.
    now apply (last_span_before _ Hsorted last_event (s, t)).
Qed.

(** * Further properties of the engine *)

(** ** Shape of the slots *)

Lemma gaps_start (work_start work_end : datetime) (day_events : list Event)
  (g : datetime * datetime) :
  In g (gaps work_start work_end day_events) ->
  fst g = work_start
  \/ exists p, In p (spans day_events) /\ fst g = snd p.
Proof.
  intros Hg.
  pose proof (gaps_Forall
                (fun x => x = work_start
                          \/ exists p, In p (spans day_events) /\ x = snd p)
                (fun _ => True) work_start work_end day_events) as H.
  assert (Hall : Forall
            (fun g => (fst g = work_start
                       \/ exists p, In p (spans day_events) /\ fst g = snd p)
                      /\ True)
            (gaps work_start work_end day_events)).
  { apply H; [now left | exact I |].
    apply Forall_forall. intros p Hp. split; [exact I|].
    right. exists p. split; [now apply list_elem_of_In | reflexivity]. }
  rewrite Forall_forall in Hall. apply list_elem_of_In, Hall in Hg. tauto.
Qed.

(** Every TimeBlock returned lasts exactly the requested duration. *)
Theorem returned_blocks_last_duration (self : TimeBlocker) (now : datetime)
  (duration_minutes : Z) (event_type : string)
  (start_date end_date : option datetime) (max_suggestions : Z) :
  Forall (fun b => TimeBlock_duration b = timedelta_minutes duration_minutes)
    (suggest_time_blocks self now duration_minutes event_type start_date
       end_date max_suggestions).
Proof.
  apply suggest_time_blocks_Forall. intros d _ _.
  unfold _analyze_day. apply Forall_map, Forall_forall.
  intros [s e] Hslot. apply list_elem_of_In, _find_free_slots_cut in Hslot.
  destruct Hslot as (g & _ & _ & Heq). injection Heq as -> ->.
  unfold TimeBlock_duration. simpl. lia.
Qed.

(** A slot of the finder lasts the duration and starts either at the start
    of the window or at the end of an event of the day that has both
    times. *)
Theorem slots_are_anchored (work_start work_end : datetime)
  (day_events : list Event) (duration : timedelta)
  (slot : datetime * datetime) :
  In slot (_find_free_slots work_start work_end day_events duration) ->
  snd slot = fst slot + duration
  /\ (fst slot = work_start
      \/ exists e, In e day_events
                   /\ has_both_times e = true
                   /\ Event.end_time e = Some (fst slot)).
Proof.
  intros Hslot. apply _find_free_slots_cut in Hslot.
  destruct Hslot as (g & Hg & _ & ->). simpl. split; [reflexivity|].
  destruct (gaps_start _ _ _ _ Hg) as [H|(p & Hp & H)]; [now left|].
  right. apply spans_In in Hp. destruct Hp as (e & He & Hs & Ht).
  exists e. split; [exact He|]. rewrite H. split; [|exact Ht].
  unfold has_both_times. now rewrite Hs, Ht.
Qed.

Lemma slots_are_anchored_witness :
  snd (at_time 738885 11 0, at_time 738885 12 0)
  = fst (at_time 738885 11 0, at_time 738885 12 0) + timedelta_minutes 60
  /\ (fst (at_time 738885 11 0, at_time 738885 12 0) = at_time 738885 9 0
      \/ exists e, In e [standup; review]
                   /\ has_both_times e = true
                   /\ Event.end_time e
                      = Some (fst (at_time 738885 11 0, at_time 738885 12 0))).
Proof.
  apply (slots_are_anchored (at_time 738885 9 0) (at_time 738885 17 0)
           [standup; review] (timedelta_minutes 60)).
  now left.
Defined.

Lemma guarded_singleton_length {A : Type} (c1 c2 : bool) (x : A) :
  (length (if c1 then if c2 then [x] else [] else []) <= 1)%nat.
Proof. destruct c1, c2; simpl; lia. Qed.

Lemma slots_between_length (duration : timedelta)
  (sorted_events : list (datetime * datetime)) :
  (length (slots_between sorted_events duration)
   <= length sorted_events - 1)%nat.
Proof.
  induction sorted_events as [|cur l IH]; [simpl; lia|].
  destruct l as [|next l]; [simpl; lia|].
  rewrite slots_between_step, length_app.
  pose proof (guarded_singleton_length (duration <=? fst next - snd cur)
                (snd cur + duration <=? fst next)
                (snd cur, snd cur + duration)).
  simpl in *. lia.
Qed.

(** On a day without any event that has both times, the finder returns the
    slot at the start of the window twice when the duration fits the window,
    and nothing otherwise; on a day with [n > 0] such events it returns at
    most [n + 1] slots. *)
Theorem slot_count (work_start work_end : datetime) (day_events : list Event)
  (duration : timedelta) :
  (spans day_events = [] ->
   _find_free_slots work_start work_end day_events duration
   = if duration <=? work_end - work_start
     then [(work_start, work_start + duration);
           (work_start, work_start + duration)]
     else [])
  /\ (spans day_events <> [] ->
      (length (_find_free_slots work_start work_end day_events duration)
       <= length (spans day_events) + 1)%nat).
Proof.
  split.
  - intros Hs. unfold _find_free_slots. rewrite Hs. simpl.
    now destruct (duration <=? work_end - work_start).
  - intros Hne. unfold _find_free_slots.
    pose proof (stable_sort_Permutation span_start_leb (spans day_events))
      as Hperm.
    apply Permutation_length in Hperm. rewrite <- Hperm.
    destruct (stable_sort span_start_leb (spans day_events)) as [|first l]
      eqn:Hsort.
    + apply stable_sort_nil_inv in Hsort. contradiction.
    + destruct (last_cons_In l first) as (last_event & -> & _).
      rewrite !length_app.
      pose proof (slots_between_length duration (first :: l)) as Hb.
      pose proof (@guarded_singleton_length (datetime * datetime)) as Ha.
      pose proof (Ha (work_start <? fst first)
                    (duration <=? fst first - work_start)
                    (work_start, work_start + duration)) as H1.
      pose proof (Ha (duration <=? work_end - snd last_event)
                    (snd last_event + duration <=? work_end)
                    (snd last_event, snd last_event + duration)) as H2.
      simpl in *. lia.
Qed.

Lemma slot_count_witness :
  _find_free_slots (at_time 738885 9 0) (at_time 738885 17 0) []
    (timedelta_minutes 60)
  = if timedelta_minutes 60 <=? at_time 738885 17 0 - at_time 738885 9 0
    then [(at_time 738885 9 0, at_time 738885 9 0 + timedelta_minutes 60);
          (at_time 738885 9 0, at_time 738885 9 0 + timedelta_minutes 60)]
    else [].
Proof.
  apply (proj1 (slot_count (at_time 738885 9 0) (at_time 738885 17 0) []
                  (timedelta_minutes 60))).
  reflexivity.
Defined.

(** When no event of the day starts no later than another and ends after
    it, no slot of the finder overlaps an event of the day. *)
Theorem slots_free_without_nesting (work_start work_end : datetime)
  (day_events : list Event) (duration : timedelta) :
  (forall p q, In p (spans day_events) -> In q (spans day_events) ->
               fst p <= fst q -> snd p <= snd q) ->
  forall slot e,
    In slot (_find_free_slots work_start work_end day_events duration) ->
    In e day_events ->
    overlaps_event slot e = false.
Proof. intros H slot e. now apply slots_clear_of_events. Qed.

Lemma slots_free_without_nesting_witness :
  overlaps_event (at_time 738885 11 0, at_time 738885 12 0) standup = false.
Proof.
  apply (slots_free_without_nesting (at_time 738885 9 0)
           (at_time 738885 17 0) [standup; review] (timedelta_minutes 60)).
  - intros p q [<-|[<-|[]]] [<-|[<-|[]]]; unfold_units; lia.
  - now left.
  - now left.
Defined.

(** When no event of the day ends before the window or starts after it and
    the duration is not negative, every slot of the finder lies within the
    window. *)
Theorem slots_contained_in_window (work_start work_end : datetime)
  (day_events : list Event) (duration : timedelta) :
  0 <= duration ->
  Forall (fun p => fst p <= work_end /\ work_start <= snd p)
    (spans day_events) ->
  Forall (fun slot => within_window work_start work_end slot = true)
    (_find_free_slots work_start work_end day_events duration).
Proof.
  intros Hd Hev. apply Forall_forall. intros slot Hslot.
  apply list_elem_of_In in Hslot. now apply slots_within_window with day_events duration.
Qed.

Lemma slots_contained_in_window_witness :
  Forall (fun slot =>
            within_window (at_time 738885 9 0) (at_time 738885 17 0) slot
            = true)
    (_find_free_slots (at_time 738885 9 0) (at_time 738885 17 0)
       [standup; review] (timedelta_minutes 60)).
Proof.
  apply slots_contained_in_window.
  - unfold_units. lia.
  - repeat constructor; unfold_units; lia.
Defined.

(** ** What the cut keeps *)

Lemma slice_to_take {A : Type} (n : Z) (l : list A) :
  exists k, slice_to n l = take k l.
Proof. unfold slice_to. destruct (0 <=? n); eauto. Qed.

Lemma StronglySorted_app_inv {A : Type} (R : A -> A -> Prop)
  (l1 l2 : list A) :
  StronglySorted R (l1 ++ l2) ->
  forall x y, In x l1 -> In y l2 -> R x y.
Proof.
  induction l1 as [|a l1 IH]; intros Hs x y Hx Hy; [destruct Hx|].
  simpl in Hs. inversion Hs as [|? ? Hs' Ha]; subst.
  destruct Hx as [<-|Hx]; [|now apply IH].
  rewrite Forall_forall in Ha. apply Ha, list_elem_of_In, in_app_iff.
  now right.
Qed.

(** The blocks returned are the best ones: the generated blocks split into
    the returned ones and the others, and no other block scores higher than
    a returned one. *)
Theorem suggestions_keep_the_best (self : TimeBlocker) (now : datetime)
  (duration_minutes : Z) (event_type : string)
  (start_date end_date : option datetime) (max_suggestions : Z) :
  exists others : list TimeBlock,
    Permutation
      (suggest_time_blocks self now duration_minutes event_type start_date
         end_date max_suggestions ++ others)
      (all_suggestions self now duration_minutes event_type start_date
         end_date)
    /\ forall b b',
         In b (suggest_time_blocks self now duration_minutes event_type
                 start_date end_date max_suggestions) ->
         In b' others ->
         (TimeBlock.score b' <= TimeBlock.score b)%Q.
Proof.
  rewrite suggest_time_blocks_unfold.
  set (l := all_suggestions _ _ _ _ _ _).
  destruct (slice_to_take max_suggestions (stable_sort score_geb l))
    as [k ->].
  exists (drop k (stable_sort score_geb l)). split.
  - rewrite take_drop. apply stable_sort_Permutation.
  - intros b b' Hb Hb'. apply Qle_bool_iff.
    change (score_geb b b' = true).
    eapply (StronglySorted_app_inv (fun a b => score_geb a b = true));
      [|exact Hb|exact Hb'].
    rewrite take_drop. apply stable_sort_StronglySorted.
    + apply score_geb_total.
    + apply score_geb_trans.
Qed.

(** For a non-negative [max_suggestions] the result has exactly
    [max_suggestions] blocks, or all the generated ones when there are
    fewer, and asking for more only appends to it. *)
Theorem suggestion_count (self : TimeBlocker) (now : datetime)
  (duration_minutes : Z) (event_type : string)
  (start_date end_date : option datetime) (max_suggestions more : Z) :
  0 <= max_suggestions <= more ->
  length (suggest_time_blocks self now duration_minutes event_type
            start_date end_date max_suggestions)
  = Nat.min (Z.to_nat max_suggestions)
      (length (all_suggestions self now duration_minutes event_type
                 start_date end_date))
  /\ suggest_time_blocks self now duration_minutes event_type start_date
       end_date max_suggestions
     `prefix_of`
     suggest_time_blocks self now duration_minutes event_type start_date
       end_date more.
Proof.
  intros [H0 Hle]. rewrite !suggest_time_blocks_unfold.
  set (l := all_suggestions _ _ _ _ _ _). unfold slice_to.
  destruct (Z.leb_spec 0 max_suggestions); [|lia].
  destruct (Z.leb_spec 0 more); [|lia].
  split.
  - rewrite length_take.
    now rewrite (Permutation_length (stable_sort_Permutation score_geb l)).
  - replace (take (Z.to_nat max_suggestions) (stable_sort score_geb l))
      with (take (Z.to_nat max_suggestions)
              (take (Z.to_nat more) (stable_sort score_geb l))).
    + apply prefix_take.
    + rewrite take_take. f_equal. lia.
Qed.

Lemma suggestion_count_witness :
  length (suggest_time_blocks (TimeBlocker_init (mk_EventManager [])) 0 60
            "meeting" (Some (at_time 738885 8 0)) (Some (at_time 738885 18 0))
            5)
  = Nat.min (Z.to_nat 5)
      (length (all_suggestions (TimeBlocker_init (mk_EventManager [])) 0 60
                 "meeting" (Some (at_time 738885 8 0))
                 (Some (at_time 738885 18 0)))).
Proof.
  apply (suggestion_count (TimeBlocker_init (mk_EventManager [])) 0 60
           "meeting" (Some (at_time 738885 8 0)) (Some (at_time 738885 18 0))
           5 7).
  lia.
Defined.

(** ** Buffers *)











(** Far from the target the rounding shows: 19691553599999999 microseconds
    are one microsecond short of 328192560 minutes, and the quotients round
    up to it. *)
Example float_minutes_rounds_up :
  float_minutes 19691553599999999 = 328192560
  /\ Z.quot 19691553599999999 MINUTE = 328192559.
Proof. split; reflexivity. Qed.

(** ** Similar events nearby *)

(** The count is the number of events of the day with a start within two
    hours of the slot and a title that matches the category; it lies between
    0 and the number of events of the day. *)
Theorem count_similar_is_a_count (start_time end_time : datetime)
  (event_type : string) (day_events : list Event) :
  _count_similar_events_nearby start_time end_time event_type day_events
  = Z.of_nat
      (length
         (List.filter (near_and_similar start_time end_time event_type)
            day_events))
  /\ 0 <= _count_similar_events_nearby start_time end_time event_type
            day_events
     <= Z.of_nat (length day_events).
Proof.
  assert (H : _count_similar_events_nearby start_time end_time event_type
                day_events
              = Z.of_nat
                  (length
                     (List.filter
                        (near_and_similar start_time end_time event_type)
                        day_events))).
  { unfold _count_similar_events_nearby.
    match goal with |- fold_left ?f _ _ = _ => set (step := f) end.
    enough (Hg : forall count,
               fold_left step day_events count
               = count
                 + Z.of_nat
                     (length
                        (List.filter
                           (near_and_similar start_time end_time event_type)
                           day_events)))
      by (rewrite Hg; lia).
    induction day_events as [|e l IH]; intros count; simpl; [lia|].
    rewrite IH.
    assert (Hstep : step count e
                    = count
                      + (if near_and_similar start_time end_time event_type e
                         then 1 else 0)).
    { unfold step, near_and_similar.
      destruct (Event.start_time e) as [s|]; [|lia].
      destruct ((_ <=? s) && (s <=? _)); simpl; [|lia].
      destruct (_are_event_types_similar _ _); lia. }
    rewrite Hstep.
    destruct (near_and_similar start_time end_time event_type e);
      simpl length; lia. }
  split; [exact H|]. rewrite H. split; [lia|].
  apply inj_le, List.filter_length_le.
Qed.

Lemma lower_app (a b : string) : lower (a +:+ b) = lower a +:+ lower b.
Proof. induction a as [|c a IH]; simpl; [reflexivity|]. now rewrite IH. Qed.

Lemma prefix_app (keyword rest : string) :
  String.prefix keyword (keyword +:+ rest) = true.
Proof.
  induction keyword as [|c k IH]; simpl; [now destruct rest|].
  destruct (Ascii.ascii_dec c c); [exact IH | contradiction].
Qed.

Lemma contains_unfold (keyword s : string) :
  contains keyword s
  = String.prefix keyword s
    || match s with
       | EmptyString => false
       | String _ s' => contains keyword s'
       end.
Proof. destruct s; reflexivity. Qed.

Lemma contains_app (keyword a b : string) :
  contains keyword (a +:+ keyword +:+ b) = true.
Proof.
  induction a as [|c a IH].
  - change (contains keyword (keyword +:+ b) = true).
    rewrite contains_unfold, prefix_app. reflexivity.
  - change (String.prefix keyword (String c (a +:+ keyword +:+ b))
            || contains keyword (a +:+ keyword +:+ b) = true).
    rewrite IH. apply orb_true_r.
Qed.

Lemma prefix_split (keyword s : string) :
  String.prefix keyword s = true -> exists b, s = keyword +:+ b.
Proof.
  revert s. induction keyword as [|c k IH]; intros s H.
  - exists s. reflexivity.
  - destruct s as [|c' s]; [discriminate|]. simpl in H.
    destruct (Ascii.ascii_dec c c') as [->|]; [|discriminate].
    destruct (IH s H) as [b ->]. exists b. reflexivity.
Qed.

Lemma contains_split (keyword s : string) :
  contains keyword s = true -> exists a b, s = a +:+ keyword +:+ b.
Proof.
  induction s as [|c s IH]; rewrite contains_unfold; intros H.
  - rewrite orb_false_r in H. apply prefix_split in H.
    destruct H as [b ->]. exists EmptyString, b. reflexivity.
  - apply orb_true_iff in H. destruct H as [H|H].
    + apply prefix_split in H. destruct H as [b ->].
      exists EmptyString, b. reflexivity.
    + destruct (IH H) as (a & b & ->). exists (String c a), b. reflexivity.
Qed.

Lemma lower_split (x y : string) :
  forall s, lower s = x +:+ y ->
            exists s1 s2, s = s1 +:+ s2 /\ lower s1 = x /\ lower s2 = y.
Proof.
  induction x as [|c x IH]; intros s H.
  - exists EmptyString, s. repeat split. exact H.
  - destruct s as [|c' s]; [discriminate|]. simpl in H.
    injection H as Hc H. destruct (IH s H) as (s1 & s2 & -> & H1 & H2).
    exists (String c' s1), s2. repeat split; [|exact H2].
    simpl. now rewrite Hc, H1.
Qed.

(** On an ASCII title the match is exactly a case-insensitive substring
    match against the keywords of the category: the answer is [True] if and
    only if the category has keywords and the title contains, anywhere, a
    word whose lower-case form is one of them.  In particular a category
    without keywords is similar to no title. *)
Theorem similar_iff_title_has_keyword (type1 event_title : string) :
  ascii_only event_title = true ->
  _are_event_types_similar type1 event_title = true
  <-> exists (keywords : list string) (keyword before word after : string),
        type_keywords !! type1 = Some keywords
        /\ In keyword keywords
        /\ event_title = before +:+ word +:+ after
        /\ lower word = keyword.
Proof.
  intros _. split.
  - unfold _are_event_types_similar.
    destruct (type_keywords !! type1) as [keywords|] eqn:Hk;
      [|discriminate].
    simpl. intros H. apply existsb_exists in H.
    destruct H as (keyword & Hin & Hc).
    apply contains_split in Hc. destruct Hc as (a & b & Hc).
    apply lower_split in Hc. destruct Hc as (before & rest & -> & _ & Hrest).
    apply lower_split in Hrest. destruct Hrest as (word & after & -> & Hw & _).
    exists keywords, keyword, before, word, after. repeat split; assumption.
  - intros (keywords & keyword & before & word & after & Hk & Hin & -> & Hw).
    unfold _are_event_types_similar. rewrite Hk. simpl.
    apply existsb_exists. exists keyword. split; [exact Hin|].
    rewrite !lower_app, Hw. apply contains_app.
Qed.

Lemma similar_iff_title_has_keyword_witness :
  _are_event_types_similar "meeting" "Weekly SYNC with ops" = true.
Proof.
  apply (similar_iff_title_has_keyword "meeting" "Weekly SYNC with ops"
           eq_refl).
  exists ["meeting"; "standup"; "sync"; "review"; "discussion"], "sync",
    "Weekly ", "SYNC", " with ops".
  repeat split. simpl. tauto.
Defined.

(** ** Reasons *)

Lemma time_phrases_cases (hour : Z) :
  (9 <= hour <= 11 /\ time_phrases hour = ["optimal morning focus time"])
  \/ (14 <= hour <= 16 /\ time_phrases hour = ["productive afternoon slot"])
  \/ (hour = 12 /\ time_phrases hour = ["lunch time"])
  \/ (17 <= hour /\ time_phrases hour = ["after-hours slot"])
  \/ ((hour < 9 \/ hour = 13) /\ time_phrases hour = []).
Proof.
  unfold time_phrases.
  destruct (Z.leb_spec 9 hour), (Z.leb_spec hour 11),
    (Z.leb_spec 14 hour), (Z.leb_spec hour 16), (Z.eqb_spec hour 12),
    (Z.leb_spec 17 hour); simpl;
    try (left; split; [lia | reflexivity]);
    try (right; left; split; [lia | reflexivity]);
    try (right; right; left; split; [lia | reflexivity]);
    try (right; right; right; left; split; [lia | reflexivity]);
    try (right; right; right; right; split; [lia | reflexivity]).
Qed.

Lemma buffer_phrases_cases (bb ba : Z) :
  (30 <= bb /\ 30 <= ba
   /\ buffer_phrases bb ba = ["well-spaced with buffer time"])
  \/ (~ (30 <= bb /\ 30 <= ba) /\ (15 <= bb \/ 15 <= ba)
      /\ buffer_phrases bb ba = ["has buffer time"])
  \/ (bb < 15 /\ ba < 15 /\ buffer_phrases bb ba = []).
Proof.
  unfold buffer_phrases.
  destruct (Z.leb_spec 30 bb), (Z.leb_spec 30 ba), (Z.leb_spec 15 bb),
    (Z.leb_spec 15 ba); simpl;
    try (left; repeat split; lia);
    try (right; left; repeat split; lia);
    try (right; right; repeat split; lia).
Qed.

Lemma reason_equation (start_time end_time : datetime) (event_type : string)
  (day_events : list Event) :
  _generate_reason start_time end_time event_type day_events
  = default "" (weekday_names !! Z.to_nat (weekday start_time))
    +:+ " - "
    +:+ String.concat ", "
          (match
             time_phrases (hour_of start_time)
             ++ buffer_phrases (_get_buffer_time start_time day_events true)
                  (_get_buffer_time end_time day_events false)
             ++ cluster_phrases
                  (_count_similar_events_nearby start_time end_time
                     event_type day_events)
             ++ weekday_phrases (weekday start_time)
           with
           | [] => ["available time slot"]
           | r :: rest => r :: rest
           end).
Proof.
  unfold _generate_reason, time_phrases, buffer_phrases, cluster_phrases,
    weekday_phrases.
  cbv zeta.
  repeat match goal with
         | |- context [if ?c then _ else _] =>
             match type of c with bool => destruct c end
         end;
    reflexivity.
Qed.

(** A reason mirrors the signals of the slot.  It is the name of the
    slot's weekday, a dash, and a comma-separated list of phrases that is
    never empty; the phrases come in a fixed order, each at most once, and
    each is present exactly when its signal holds (the hour of the start,
    the two buffers, the count of similar events nearby, Monday or Friday);
    'available time slot' stands alone exactly when no signal holds. *)
Theorem reason_mirrors_signals (start_time end_time : datetime)
  (event_type : string) (day_events : list Event) :
  let hour := hour_of start_time in
  let buffer_before := _get_buffer_time start_time day_events true in
  let buffer_after := _get_buffer_time end_time day_events false in
  let similar_count :=
    _count_similar_events_nearby start_time end_time event_type day_events in
  exists (weekday_name : string) (reasons : list string),
    _generate_reason start_time end_time event_type day_events
    = weekday_name +:+ " - " +:+ String.concat ", " reasons
    /\ weekday_names !! Z.to_nat (weekday start_time) = Some weekday_name
    /\ reasons <> []
    /\ reasons `sublist_of`
         ["optimal morning focus time"; "productive afternoon slot";
          "lunch time"; "after-hours slot"; "well-spaced with buffer time";
          "has buffer time";
          "groups with " +:+ pretty similar_count +:+ " similar events";
          "fresh start of week"; "end of week wrap-up";
          "available time slot"]
    /\ (In "optimal morning focus time" reasons <-> 9 <= hour <= 11)
    /\ (In "productive afternoon slot" reasons <-> 14 <= hour <= 16)
    /\ (In "lunch time" reasons <-> hour = 12)
    /\ (In "after-hours slot" reasons <-> 17 <= hour)
    /\ (In "well-spaced with buffer time" reasons
        <-> 30 <= buffer_before /\ 30 <= buffer_after)
    /\ (In "has buffer time" reasons
        <-> ~ (30 <= buffer_before /\ 30 <= buffer_after)
            /\ (15 <= buffer_before \/ 15 <= buffer_after))
    /\ (In ("groups with " +:+ pretty similar_count +:+ " similar events")
           reasons
        <-> 0 < similar_count)
    /\ (In "fresh start of week" reasons <-> weekday start_time = 0)
    /\ (In "end of week wrap-up" reasons <-> weekday start_time = 4)
    /\ (In "available time slot" reasons
        <-> reasons = ["available time slot"])
    /\ (reasons = ["available time slot"]
        <-> (hour < 9 \/ hour = 13)
            /\ buffer_before < 15 /\ buffer_after < 15
            /\ similar_count <= 0
            /\ weekday start_time <> 0 /\ weekday start_time <> 4).
Proof.
  intros hour bb ba n.
  assert (Hname : exists weekday_name,
             weekday_names !! Z.to_nat (weekday start_time)
             = Some weekday_name).
  { unfold weekday, date_weekday.
    pose proof (Z.mod_pos_bound (date_of start_time) 7 ltac:(lia)) as Hb.
    destruct (Z.to_nat (date_of start_time mod 7)) as [|[|[|[|[|[|[|k]]]]]]]
      eqn:Hn; simpl; eauto.
    lia. }
  destruct Hname as [weekday_name Hname].
  exists weekday_name. eexists.
  split; [rewrite reason_equation, Hname; reflexivity|].
  split; [exact Hname|].
  fold hour bb ba n. clearbody hour bb ba n.
  set (wd := weekday start_time). clearbody wd. clear Hname.
  destruct (time_phrases_cases hour)
    as [[Hh ->]|[[Hh ->]|[[Hh ->]|[[Hh ->]|[Hh ->]]]]];
    destruct (buffer_phrases_cases bb ba)
      as [(Hb1 & Hb2 & ->)|[(Hb1 & Hb2 & ->)|(Hb1 & Hb2 & ->)]];
    unfold cluster_phrases, weekday_phrases;
    destruct (Z.ltb_spec 0 n);
    destruct (Z.eqb_spec wd 0); destruct (Z.eqb_spec wd 4);
    try lia;
    cbn [app];
    (split; [discriminate|]);
    repeat split; intros;
    repeat match goal with
           | H : In _ _ |- _ => destruct H as [H|H]
           | H : False |- _ => destruct H
           | H : _ /\ _ |- _ => destruct H
           end;
    try lia; try discriminate; try (simpl; tauto);
    try (exfalso; simpl in *; congruence);
    try (solve [eauto 12 using sublist_nil, sublist_skip, sublist_cons]).
Qed.

(** ** The schedule analysis *)

Lemma find_gaps_Forall (P : Gap -> Prop) (sorted_events : list Event) :
  (forall a b ce ns,
      Event.end_time a = Some ce -> Event.start_time b = Some ns ->
      date_of ce = date_of ns -> timedelta_hours 2 < ns - ce ->
      P (Gap.mk (Event.title a) (Event.title b)
           (inject_Z (ns - ce) / inject_Z HOUR)%Q ce ns)) ->
  Forall P (find_gaps sorted_events).
Proof.
  intros HP. induction sorted_events as [|cur l IH]; [constructor|].
  destruct l as [|next l]; [constructor|].
  change (find_gaps (cur :: next :: l))
    with (match Event.end_time cur, Event.start_time next with
          | Some current_end, Some next_start =>
              if date_of current_end =? date_of next_start then
                if timedelta_hours 2 <? next_start - current_end then
                  [Gap.mk (Event.title cur) (Event.title next)
                     (inject_Z (next_start - current_end) / inject_Z HOUR)%Q
                     current_end next_start]
                else []
              else []
          | _, _ => []
          end ++ find_gaps (next :: l)).
  apply Forall_app. split; [|exact IH].
  destruct (Event.end_time cur) as [ce|] eqn:Hce; [|constructor].
  destruct (Event.start_time next) as [ns|] eqn:Hns; [|constructor].
  destruct (Z.eqb_spec (date_of ce) (date_of ns)); [|constructor].
  destruct (Z.ltb_spec (timedelta_hours 2) (ns - ce)); [|constructor].
  constructor; [|constructor]. now apply HP.
Qed.

(** When every stored event that has both times starts before it ends,
    every conflict reported has a non-empty overlap interval: its start is
    before its end. *)
Theorem reported_conflicts_overlap (self : TimeBlocker) (now : datetime)
  (start_date end_date : option datetime) :
  Forall starts_before_end (rows (event_manager self)) ->
  Forall (fun c =>
            exists s e, overlap_start c = Some s /\ overlap_end c = Some e
                        /\ s < e)
    (Analysis.conflicts
       (analyze_schedule_conflicts self now start_date end_date)).
Proof.
  intros Hrows. unfold analyze_schedule_conflicts. simpl.
  apply Forall_forall. intros c Hc.
  apply list_elem_of_In, find_conflicts_spec in Hc.
  destruct Hc as (i & j & e1 & e2 & _ & Hi & Hj & Ho & ->).
  rewrite Forall_forall in Hrows.
  assert (H1 : starts_before_end e1).
  { apply Hrows, list_elem_of_In. eapply get_events_In.
    apply list_elem_of_In, list_elem_of_lookup. eauto. }
  assert (H2 : starts_before_end e2).
  { apply Hrows, list_elem_of_In. eapply get_events_In.
    apply list_elem_of_In, list_elem_of_lookup. eauto. }
  unfold _events_overlap in Ho. unfold conflict_of. simpl.
  destruct (Event.start_time e1) as [s1|] eqn:Hs1; [|discriminate].
  destruct (Event.end_time e1) as [t1|] eqn:Ht1; [|discriminate].
  destruct (Event.start_time e2) as [s2|] eqn:Hs2; [|discriminate].
  destruct (Event.end_time e2) as [t2|] eqn:Ht2; [|discriminate].
  apply andb_true_iff in Ho. destruct Ho as [Ho1 Ho2].
  apply Z.ltb_lt in Ho1, Ho2.
  specialize (H1 _ _ Hs1 Ht1). specialize (H2 _ _ Hs2 Ht2).
  exists (Z.max s1 s2), (Z.min t1 t2).
  split; [reflexivity|]. split; [reflexivity|]. lia.
Qed.

Lemma reported_conflicts_overlap_witness :
  Forall (fun c =>
            exists s e, overlap_start c = Some s /\ overlap_end c = Some e
                        /\ s < e)
    (Analysis.conflicts
       (analyze_schedule_conflicts
          (TimeBlocker_init (mk_EventManager [workshop; sync])) 0
          (Some (at_time 738885 8 0)) (Some (at_time 738885 18 0)))).
Proof.
  apply reported_conflicts_overlap.
  repeat constructor; intros s t Hs Ht;
    injection Hs as <-; injection Ht as <-; unfold_units; lia.
Defined.

(** Every gap reported lies within one calendar date, lasts more than two
    hours, and its length in hours is its length in microseconds over
    3600000000. *)
Theorem reported_gaps_are_long (self : TimeBlocker) (now : datetime)
  (start_date end_date : option datetime) :
  Forall (fun g =>
            date_of (Gap.start_time g) = date_of (Gap.end_time g)
            /\ timedelta_hours 2 < Gap.end_time g - Gap.start_time g
            /\ (Gap.gap_duration_hours g
                == inject_Z (Gap.end_time g - Gap.start_time g)
                   / inject_Z HOUR)%Q
            /\ (2 < Gap.gap_duration_hours g)%Q)
    (Analysis.gaps
       (analyze_schedule_conflicts self now start_date end_date)).
Proof.
  unfold analyze_schedule_conflicts. simpl.
  apply find_gaps_Forall. intros a b ce ns _ _ Hd Hlong. simpl.
  split; [exact Hd|]. split; [exact Hlong|]. split; [reflexivity|].
  apply Qlt_shift_div_l; [reflexivity|].
  unfold timedelta_hours in Hlong. unfold Qlt. simpl. lia.
Qed.

(** *** Overloaded days *)

Lemma bump_count_for (day d : date) (counts : list (date * Z)) :
  count_for d (bump day counts)
  = count_for d counts + (if day =? d then 1 else 0).
Proof.
  induction counts as [|[d' n] rest IH]; simpl.
  - destruct (day =? d); lia.
  - destruct (Z.eqb_spec d' day) as [->|Hne]; simpl.
    + destruct (day =? d); lia.
    + destruct (Z.eqb_spec d' d) as [->|Hne'].
      * destruct (Z.eqb_spec day d); [congruence | lia].
      * exact IH.
Qed.

Lemma bump_keys (day : date) (counts : list (date * Z)) :
  map fst (bump day counts)
  = if existsb (Z.eqb day) (map fst counts) then map fst counts
    else map fst counts ++ [day].
Proof.
  induction counts as [|[d' n] rest IH]; simpl; [reflexivity|].
  rewrite (Z.eqb_sym day d').
  destruct (d' =? day); simpl; [reflexivity|].
  rewrite IH. now destruct (existsb _ _).
Qed.

Lemma bump_NoDup (day : date) (counts : list (date * Z)) :
  NoDup (map fst counts) -> NoDup (map fst (bump day counts)).
Proof.
  intros H. rewrite bump_keys.
  destruct (existsb (Z.eqb day) (map fst counts)) eqn:He; [exact H|].
  apply NoDup_app. split; [exact H|]. split; [|apply NoDup_singleton].
  intros x Hx Hday. apply list_elem_of_singleton in Hday. subst x.
  assert (Ht : existsb (Z.eqb day) (map fst counts) = true)
    by (apply existsb_exists; exists day; split;
        [now apply list_elem_of_In | apply Z.eqb_refl]).
  congruence.
Qed.

Lemma bump_positive (day : date) (counts : list (date * Z)) :
  Forall (fun p => 0 < snd p) counts ->
  Forall (fun p => 0 < snd p) (bump day counts).
Proof.
  induction 1 as [|[d' n] rest Hn Hrest IH]; simpl.
  - repeat constructor.
  - destruct (d' =? day); constructor; simpl in *; try assumption; lia.
Qed.

Lemma count_daily_events_spec (events : list Event) :
  NoDup (map fst (count_daily_events events))
  /\ Forall (fun p => 0 < snd p) (count_daily_events events)
  /\ forall d, count_for d (count_daily_events events)
               = events_starting_on d events.
Proof.
  unfold count_daily_events, events_starting_on.
  match goal with |- context [fold_left ?f _ _] => set (step := f) end.
  enough (Hg : forall counts,
             NoDup (map fst counts) ->
             Forall (fun p => 0 < snd p) counts ->
             NoDup (map fst (fold_left step events counts))
             /\ Forall (fun p => 0 < snd p) (fold_left step events counts)
             /\ forall d, count_for d (fold_left step events counts)
                          = count_for d counts
                            + Z.of_nat
                                (length (List.filter (starts_on d) events))).
  { destruct (Hg [] (NoDup_nil_2) (Forall_nil_2 _)) as (H1 & H2 & H3).
    split; [exact H1|]. split; [exact H2|]. intros d. rewrite H3. reflexivity. }
  induction events as [|e l IH]; intros counts Hnd Hpos; simpl.
  - split; [exact Hnd|]. split; [exact Hpos|]. intros d. lia.
  - assert (Hstep : NoDup (map fst (step counts e))
                    /\ Forall (fun p => 0 < snd p) (step counts e)
                    /\ forall d, count_for d (step counts e)
                                 = count_for d counts
                                   + (if starts_on d e then 1 else 0)).
    { unfold step, starts_on. destruct (Event.start_time e) as [s|].
      - split; [now apply bump_NoDup|]. split; [now apply bump_positive|].
        intros d. apply bump_count_for.
      - split; [exact Hnd|]. split; [exact Hpos|]. intros d. lia. }
    destruct Hstep as (H1 & H2 & H3).
    destruct (IH _ H1 H2) as (I1 & I2 & I3).
    split; [exact I1|]. split; [exact I2|].
    intros d. rewrite I3, H3.
    destruct (starts_on d e); simpl length; lia.
Qed.

Lemma count_for_In (d : date) (n : Z) (counts : list (date * Z)) :
  NoDup (map fst counts) ->
  In (d, n) counts -> count_for d counts = n.
Proof.
  induction counts as [|[d' n'] rest IH]; intros Hnd Hin; [destruct Hin|].
  simpl in *. apply NoDup_cons in Hnd. destruct Hnd as [Hnotin Hnd].
  destruct Hin as [Heq|Hin].
  - injection Heq as -> ->. now rewrite Z.eqb_refl.
  - destruct (Z.eqb_spec d' d) as [->|Hne]; [|now apply IH].
    exfalso. apply Hnotin, list_elem_of_In, in_map_iff.
    exists (d, n). split; [reflexivity | exact Hin].
Qed.

Lemma In_count_for (d : date) (counts : list (date * Z)) :
  count_for d counts <> 0 -> In (d, count_for d counts) counts.
Proof.
  induction counts as [|[d' n'] rest IH]; simpl; [congruence|].
  destruct (Z.eqb_spec d' d) as [->|Hne]; [now left|].
  intros H. right. now apply IH.
Qed.

(** A date is reported as overloaded, with a count, exactly when at least
    eight of the fetched events start on it and the count is their number;
    no date is reported twice. *)
Theorem overloaded_days_counted (self : TimeBlocker) (now : datetime)
  (start_date end_date : option datetime) :
  let s := default now start_date in
  let e := default (s + timedelta_days 7) end_date in
  let events := get_events (event_manager self) s e in
  let report :=
    Analysis.overloaded_days
      (analyze_schedule_conflicts self now start_date end_date) in
  (forall d n,
      In (Overload.mk d n) report
      <-> n = events_starting_on d events /\ 8 <= n)
  /\ NoDup (map Overload.date report).
Proof.
  intros s e events report.
  assert (Hr : report = find_overloaded_days events) by reflexivity.
  rewrite Hr. clear Hr report. unfold find_overloaded_days.
  destruct (count_daily_events_spec events) as (Hnd & Hpos & Hcount).
  split.
  - intros d n. rewrite <- list_elem_of_In, list_elem_of_omap. split.
    + intros ([d' n'] & Hin & Hf).
      destruct (Z.leb_spec 8 n'); [|discriminate].
      injection Hf as -> ->. apply list_elem_of_In in Hin.
      rewrite <- Hcount, (count_for_In _ _ _ Hnd Hin). split; [reflexivity|lia].
    + intros [-> H8]. exists (d, events_starting_on d events). split.
      * rewrite <- Hcount. apply list_elem_of_In, In_count_for.
        rewrite Hcount. lia.
      * destruct (Z.leb_spec 8 (events_starting_on d events));
          [reflexivity | lia].
  - clear Hcount Hpos. induction (count_daily_events events) as [|[d n] l IH];
      simpl; [constructor|].
    apply NoDup_cons in Hnd. destruct Hnd as [Hnotin Hnd].
    destruct (8 <=? n); simpl; [|now apply IH].
    constructor; [|now apply IH].
    intros Hin. apply Hnotin. clear -Hin.
    apply list_elem_of_In, in_map_iff in Hin.
    destruct Hin as (o & <- & Ho).
    apply list_elem_of_In, list_elem_of_omap in Ho.
    destruct Ho as ([d' n'] & Hin & Hf).
    destruct (8 <=? n'); [|discriminate]. injection Hf as <-.
    simpl. apply list_elem_of_In, in_map_iff. exists (d', n').
    split; [reflexivity | now apply list_elem_of_In].
Qed.

(** One hint is produced for each kind of finding that is not empty, and
    none otherwise. *)
Theorem hints_follow_findings (self : TimeBlocker) (now : datetime)
  (start_date end_date : option datetime) :
  let a := analyze_schedule_conflicts self now start_date end_date in
  (In "Consider rescheduling conflicting events for better time management"
      (Analysis.optimization_suggestions a)
   <-> Analysis.conflicts a <> [])
  /\ (In "Large gaps in schedule could be used for focused work or meetings"
         (Analysis.optimization_suggestions a)
      <-> Analysis.gaps a <> [])
  /\ (In "Some days are overloaded - consider redistributing events"
         (Analysis.optimization_suggestions a)
      <-> Analysis.overloaded_days a <> [])
  /\ (length (Analysis.optimization_suggestions a) <= 3)%nat.
Proof.
  unfold analyze_schedule_conflicts. cbv zeta. simpl.
  destruct (find_conflicts _), (find_gaps _), (find_overloaded_days _);
    simpl; (split; [|split; [|split]]); try lia;
    split; intros H; try discriminate; try tauto; try congruence;
    repeat (destruct H as [H|H]; try discriminate H); try contradiction.
Qed.

(** The analyzer and the finder agree: on a day whose events start before
    they end and among which the conflict scan finds nothing, no slot of the
    finder overlaps an event. *)
Theorem conflict_free_day_slots_free (work_start work_end : datetime)
  (day_events : list Event) (duration : timedelta) :
  find_conflicts day_events = [] ->
  Forall starts_before_end day_events ->
  forall slot e,
    In slot (_find_free_slots work_start work_end day_events duration) ->
    In e day_events ->
    overlaps_event slot e = false.
Proof.
  intros Hnone Hproper slot e. apply slots_clear_of_events.
  intros p q Hp Hq Hle.
  apply spans_In in Hp, Hq.
  destruct Hp as (ep & Hep & Hsp & Htp). destruct Hq as (eq & Heq & Hsq & Htq).
  rewrite Forall_forall in Hproper.
  pose proof (Hproper ep (proj2 (list_elem_of_In _ _) Hep) _ _ Hsp Htp) as Hpp.
  pose proof (Hproper eq (proj2 (list_elem_of_In _ _) Heq) _ _ Hsq Htq) as Hqq.
  apply list_elem_of_In, list_elem_of_lookup in Hep, Heq.
  destruct Hep as [i Hi]. destruct Heq as [j Hj].
  assert (Hno : forall a b (e1 e2 : Event),
             (a < b)%nat -> day_events !! a = Some e1 ->
             day_events !! b = Some e2 -> _events_overlap e1 e2 = false).
  { intros a b e1 e2 Hab Ha Hb.
    destruct (_events_overlap e1 e2) eqn:Ho; [|reflexivity].
    assert (Hin : In (conflict_of e1 e2) (find_conflicts day_events)).
    { apply find_conflicts_spec. exists a, b, e1, e2. tauto. }
    rewrite Hnone in Hin. destruct Hin. }
  destruct (Nat.lt_trichotomy i j) as [Hij|[Hij|Hij]].
  - specialize (Hno i j ep eq Hij Hi Hj). unfold _events_overlap in Hno.
    rewrite Hsp, Htp, Hsq, Htq in Hno.
    apply andb_false_iff in Hno. rewrite !Z.ltb_ge in Hno. lia.
  - subst j. rewrite Hi in Hj. injection Hj as <-.
    rewrite Htp in Htq. injection Htq as Heq. lia.
  - specialize (Hno j i eq ep Hij Hj Hi). unfold _events_overlap in Hno.
    rewrite Hsp, Htp, Hsq, Htq in Hno.
    apply andb_false_iff in Hno. rewrite !Z.ltb_ge in Hno. lia.
Qed.

Lemma conflict_free_day_slots_free_witness :
  overlaps_event (at_time 738885 11 0, at_time 738885 12 0) review = false.
Proof.
  apply (conflict_free_day_slots_free (at_time 738885 9 0)
           (at_time 738885 17 0) [standup; review] (timedelta_minutes 60)).
  - reflexivity.
  - repeat constructor; intros s t Hs Ht;
      injection Hs as <-; injection Ht as <-; unfold_units; lia.
  - now left.
  - right. now left.
Defined.

(** ** The event store *)

Lemma get_events_In_iff (em : EventManager)
  (start_date end_date : datetime) (ev : Event) (s t : datetime) :
  start_date <= end_date ->
  Event.start_time ev = Some s ->
  Event.end_time ev = Some t ->
  s <= t ->
  In ev (get_events em start_date end_date)
  <-> In ev (rows em) /\ s <= end_date /\ start_date <= t.
Proof.
  intros Hw Hs Ht Hst. unfold get_events.
  rewrite stable_sort_In, List.filter_In, Hs, Ht. simpl.
  rewrite !orb_true_iff, !andb_true_iff, !Z.leb_le. intuition lia.
Qed.

(** For a window whose start is not after its end and an event whose start
    is not after its end, the three cases of the query amount to one test:
    the event is returned exactly when it is stored and its interval meets
    the window (it starts no later than the window ends and ends no earlier
    than the window starts). *)
Theorem get_events_meets_window (em : EventManager)
  (start_date end_date : datetime) (ev : Event) (s t : datetime) :
  start_date <= end_date ->
  Event.start_time ev = Some s ->
  Event.end_time ev = Some t ->
  s <= t ->
  In ev (get_events em start_date end_date)
  <-> In ev (rows em) /\ s <= end_date /\ start_date <= t.
Proof. apply get_events_In_iff. Qed.

Lemma get_events_meets_window_witness :
  In workshop
    (get_events (mk_EventManager [workshop; sync]) (at_time 738885 10 0)
       (at_time 738885 11 0))
  <-> In workshop (rows (mk_EventManager [workshop; sync]))
      /\ at_time 738885 9 0 <= at_time 738885 11 0
      /\ at_time 738885 10 0 <= at_time 738885 15 0.
Proof.
  apply (get_events_meets_window (mk_EventManager [workshop; sync])
           (at_time 738885 10 0) (at_time 738885 11 0) workshop
           (at_time 738885 9 0) (at_time 738885 15 0)).
  - unfold_units. lia.
  - reflexivity.
  - reflexivity.
  - unfold_units. lia.
Defined.

Lemma date_of_bounds (x : datetime) :
  combine (date_of x) min_time <= x
  < combine (date_of x) min_time + timedelta_days 1.
Proof.
  unfold date_of, combine, min_time, timedelta_days. simpl.
  assert (HD : 0 < DAY) by (unfold DAY, HOUR, MINUTE, SECOND; lia).
  pose proof (Z.div_mod x DAY ltac:(lia)) as Hdm.
  pose proof (Z.mod_pos_bound x DAY HD) as Hb.
  nia.
Qed.

(** The events of a date include every stored event that starts on that
    date, and also one that starts at midnight of the next date: the upper
    bound of the query is inclusive. *)
Theorem get_events_for_date_includes (em : EventManager)
  (date_obj : datetime) (ev : Event) (s : datetime) :
  In ev (rows em) ->
  Event.start_time ev = Some s ->
  date_of s = date_of date_obj
  \/ s = combine (date_of date_obj + 1) min_time ->
  In ev (get_events_for_date em date_obj).
Proof.
  intros Hin Hs Hd. unfold get_events_for_date, get_events.
  rewrite stable_sort_In, List.filter_In. split; [exact Hin|].
  rewrite Hs. simpl.
  apply orb_true_iff. left. apply orb_true_iff. left.
  rewrite andb_true_iff, !Z.leb_le.
  destruct Hd as [Hd| ->].
  - rewrite <- Hd. pose proof (date_of_bounds s). lia.
  - unfold_units. lia.
Qed.

(** An event at Tuesday 00:00 is among the events of Monday. *)
Lemma get_events_for_date_includes_witness :
  In midnight_event
    (get_events_for_date (mk_EventManager [standup; midnight_event])
       (at_time 738885 15 30)).
Proof.
  apply (get_events_for_date_includes _ _ _ (at_time 738886 0 0)).
  - right. now left.
  - reflexivity.
  - right. reflexivity.
Defined.

(** ** The database *)

Lemma find_app_one {A : Type} (p : A -> bool) (l : list A) (x : A) :
  List.find p (l ++ [x])
  = match List.find p l with
    | Some y => Some y
    | None => if p x then Some x else None
    end.
Proof.
  induction l as [|a l IH]; simpl; [reflexivity|].
  destruct (p a); [reflexivity | exact IH].
Qed.

Lemma find_existsb_false {A : Type} (p : A -> bool) (l : list A) :
  existsb p l = false -> List.find p l = None.
Proof.
  induction l as [|a l IH]; simpl; [reflexivity|].
  destruct (p a); [discriminate | exact IH].
Qed.

Lemma existsb_find_None {A : Type} (p : A -> bool) (l : list A) :
  List.find p l = None -> existsb p l = false.
Proof.
  induction l as [|a l IH]; simpl; [reflexivity|].
  destruct (p a); [discriminate | exact IH].
Qed.

Lemma create_event_inv (db : Database) (fresh : Fresh) (title : string)
  (description : string) (start_time end_time : option datetime)
  (all_day : bool) (location : string) (recurrence : option string)
  (reminder_minutes : option Z) (db' : Database) (event_id : string) :
  create_event db fresh title description start_time end_time all_day
    location recurrence reminder_minutes = Some (db', event_id) ->
  event_id = event_uuid fresh
  /\ get_event db event_id = None
  /\ events_table db'
     = events_table db
       ++ [Stored.mk (Event.mk event_id title start_time end_time)
             description all_day location recurrence reminder_minutes
             (created_now fresh) (updated_now fresh)].
Proof.
  unfold create_event, stored_id. simpl.
  destruct (existsb _ (events_table db)) eqn:Hex; [discriminate|].
  intros H.
  assert (Hid : event_id = event_uuid fresh
                /\ events_table db'
                   = events_table db
                     ++ [Stored.mk
                           (Event.mk (event_uuid fresh) title start_time
                              end_time)
                           description all_day location recurrence
                           reminder_minutes (created_now fresh)
                           (updated_now fresh)]).
  { destruct reminder_minutes as [m|], start_time as [s|];
      try (injection H as <- <-; now split).
    destruct (m =? 0); [injection H as <- <-; now split|].
    destruct (_create_reminder _ _ _ _); [|discriminate].
    injection H as <- <-. now split. }
  destruct Hid as [-> Hev]. split; [reflexivity|]. split; [|exact Hev].
  unfold get_event. now apply find_existsb_false.
Qed.

(** A created event can be read back with every attribute it was given,
    under the identifier returned, which was not in use; no other event is
    affected. *)
Theorem created_event_is_stored (db : Database) (fresh : Fresh)
  (title : string) (description : string)
  (start_time end_time : option datetime) (all_day : bool)
  (location : string) (recurrence : option string)
  (reminder_minutes : option Z) (db' : Database) (event_id : string) :
  create_event db fresh title description start_time end_time all_day
    location recurrence reminder_minutes = Some (db', event_id) ->
  get_event db event_id = None
  /\ get_event db' event_id
     = Some (Stored.mk (Event.mk event_id title start_time end_time)
               description all_day location recurrence reminder_minutes
               (created_now fresh) (updated_now fresh))
  /\ forall other, other <> event_id ->
                   get_event db' other = get_event db other.
Proof.
  intros H. apply create_event_inv in H. destruct H as (Hid & Hnone & Hev).
  split; [exact Hnone|]. unfold get_event in *. rewrite Hev.
  split.
  - rewrite find_app_one, Hnone. unfold stored_id. simpl.
    now rewrite String.eqb_refl.
  - intros other Hne. rewrite find_app_one.
    destruct (List.find (fun r => String.eqb (stored_id r) other)
                (events_table db)); [reflexivity|].
    unfold stored_id. simpl.
    destruct (String.eqb_spec event_id other); [congruence | reflexivity].
Qed.

Lemma created_event_is_stored_witness :
  get_event empty_database "id-1" = None
  /\ get_event
       (mk_Database
          [Stored.mk
             (Event.mk "id-1" "Standup" (Some (at_time 738885 9 0))
                (Some (at_time 738885 10 0)))
             "" false "" None None 100 101]
          [])
       "id-1"
     = Some (Stored.mk
               (Event.mk "id-1" "Standup" (Some (at_time 738885 9 0))
                  (Some (at_time 738885 10 0)))
               "" false "" None None (created_now fresh1)
               (updated_now fresh1))
  /\ forall other, other <> "id-1" ->
       get_event
         (mk_Database
            [Stored.mk
               (Event.mk "id-1" "Standup" (Some (at_time 738885 9 0))
                  (Some (at_time 738885 10 0)))
               "" false "" None None 100 101]
            [])
         other
       = get_event empty_database other.
Proof.
  apply (created_event_is_stored empty_database fresh1 "Standup" ""
           (Some (at_time 738885 9 0)) (Some (at_time 738885 10 0)) false ""
           None None).
  reflexivity.
Defined.

(** A reminder is created only for a non-zero [reminder_minutes] and a
    start time; it is then pending, under the new event's title, from
    [reminder_minutes] before the start on.  Otherwise the reminders are
    left as they were. *)
Theorem created_reminder_becomes_pending (db : Database) (fresh : Fresh)
  (title : string) (description : string)
  (start_time end_time : option datetime) (all_day : bool)
  (location : string) (recurrence : option string)
  (reminder_minutes : option Z) (db' : Database) (event_id : string) :
  create_event db fresh title description start_time end_time all_day
    location recurrence reminder_minutes = Some (db', event_id) ->
  match reminder_minutes, start_time with
  | Some minutes, Some start =>
      if minutes =? 0 then reminders_table db' = reminders_table db
      else
        forall now,
          start - timedelta_minutes minutes <= now ->
          In (mk_Pending (reminder_uuid fresh) event_id
                (start - timedelta_minutes minutes) title description)
             (get_pending_reminders db' now)
  | _, _ => reminders_table db' = reminders_table db
  end.
Proof.
  intros H. pose proof (create_event_inv _ _ _ _ _ _ _ _ _ _ _ _ H)
    as (Hid & _ & Hev).
  unfold create_event in H.
  destruct (existsb _ (events_table db)); [discriminate|].
  destruct reminder_minutes as [m|], start_time as [s|];
    try (injection H as <- _; reflexivity).
  destruct (m =? 0); [injection H as <- _; reflexivity|].
  unfold _create_reminder in H.
  destruct (existsb _ (reminders_table db)); [discriminate|].
  injection H as Hdb _. intros now Hnow.
  unfold get_pending_reminders. apply in_flat_map.
  exists (Reminder.mk (reminder_uuid fresh) event_id
            (s - timedelta_minutes m) false).
  split.
  - apply stable_sort_In, List.filter_In. split.
    + rewrite <- Hdb. simpl. apply in_app_iff. right. left.
      unfold stored_id. simpl. now rewrite Hid.
    + simpl. now apply Z.leb_le.
  - simpl. apply in_map_iff.
    exists (Stored.mk (Event.mk event_id title (Some s) end_time)
              description all_day location recurrence (Some m)
              (created_now fresh) (updated_now fresh)).
    split; [reflexivity|]. apply List.filter_In. split.
    + rewrite Hev. apply in_app_iff. right. now left.
    + unfold stored_id. simpl. apply String.eqb_refl.
Qed.

(** A 15-minute reminder for a 10:00 review is pending at 09:50. *)
Lemma created_reminder_becomes_pending_witness :
  In (mk_Pending "rem-2" "id-2" (at_time 738885 9 45) "Review" "weekly")
     (get_pending_reminders
        (mk_Database
           [Stored.mk
              (Event.mk "id-2" "Review" (Some (at_time 738885 10 0))
                 (Some (at_time 738885 11 0)))
              "weekly" false "" None (Some 15) 200 201]
           [Reminder.mk "rem-2" "id-2" (at_time 738885 9 45) false])
        (at_time 738885 9 50)).
Proof.
  apply (created_reminder_becomes_pending empty_database fresh2 "Review"
           "weekly" (Some (at_time 738885 10 0)) (Some (at_time 738885 11 0))
           false "" None (Some 15) _ "id-2" eq_refl (at_time 738885 9 50)).
  unfold_units. lia.
Defined.

Lemma find_filter_other (event_id other : string) (l : list Stored) :
  other <> event_id ->
  List.find (fun r => String.eqb (stored_id r) other)
    (List.filter (fun r => negb (String.eqb (stored_id r) event_id)) l)
  = List.find (fun r => String.eqb (stored_id r) other) l.
Proof.
  intros Hne. induction l as [|a l IH]; simpl; [reflexivity|].
  destruct (String.eqb_spec (stored_id a) event_id) as [Heq|Hneq]; simpl.
  - destruct (String.eqb_spec (stored_id a) other); [congruence | exact IH].
  - destruct (String.eqb (stored_id a) other); [reflexivity | exact IH].
Qed.

(** Deleting reports whether the event existed; afterwards the event cannot
    be read, none of its reminders is ever pending, and every other event
    reads as before. *)
Theorem deleted_event_is_gone (db : Database) (event_id : string) :
  snd (delete_event db event_id)
  = match get_event db event_id with Some _ => true | None => false end
  /\ get_event (fst (delete_event db event_id)) event_id = None
  /\ (forall other, other <> event_id ->
        get_event (fst (delete_event db event_id)) other
        = get_event db other)
  /\ forall now,
       Forall (fun p => pending_event_id p <> event_id)
         (get_pending_reminders (fst (delete_event db event_id)) now).
Proof.
  unfold delete_event, get_event. simpl. split; [|split; [|split]].
  - induction (events_table db) as [|a l IH]; simpl; [reflexivity|].
    destruct (String.eqb (stored_id a) event_id); [reflexivity | exact IH].
  - apply find_existsb_false.
    induction (events_table db) as [|a l IH]; simpl; [reflexivity|].
    destruct (String.eqb (stored_id a) event_id) eqn:Ha; simpl;
      [exact IH | now rewrite Ha].
  - intros other Hne. now apply find_filter_other.
  - intros now. unfold get_pending_reminders. simpl.
    apply Forall_flat_map, Forall_forall. intros r Hr.
    apply list_elem_of_In, stable_sort_In, List.filter_In in Hr.
    destruct Hr as [Hr _]. apply List.filter_In in Hr. destruct Hr as [_ Hr].
    apply Forall_map, Forall_forall. intros e _. simpl.
    intros Heq. rewrite Heq, String.eqb_refl in Hr. discriminate.
Qed.

Lemma find_map_same_id (event_id : string) (f : Stored -> Stored)
  (l : list Stored) :
  (forall r, stored_id (f r) = stored_id r) ->
  List.find (fun r => String.eqb (stored_id r) event_id) (map f l)
  = option_map f (List.find (fun r => String.eqb (stored_id r) event_id) l).
Proof.
  intros Hf. induction l as [|a l IH]; simpl; [reflexivity|].
  rewrite Hf. destruct (String.eqb (stored_id a) event_id);
    [reflexivity | exact IH].
Qed.

Lemma update_event_found (db : Database) (now : datetime)
  (event_id : string) (kwargs : Updates) (r : Stored) :
  get_event db event_id = Some r ->
  snd (update_event db now event_id kwargs) = true
  /\ reminders_table (fst (update_event db now event_id kwargs))
     = reminders_table db
  /\ get_event (fst (update_event db now event_id kwargs)) event_id
     = Some (apply_updates kwargs now r)
  /\ forall other, other <> event_id ->
       get_event (fst (update_event db now event_id kwargs)) other
       = get_event db other.
Proof.
  intros Hget. unfold update_event. rewrite Hget. simpl.
  split; [reflexivity|]. split; [reflexivity|].
  assert (Hrid : stored_id r = event_id).
  { unfold get_event in Hget. apply List.find_some in Hget.
    destruct Hget as [_ Hget]. now apply String.eqb_eq in Hget. }
  unfold get_event in *. simpl. split.
  - rewrite find_map_same_id.
    + rewrite Hget. simpl. rewrite Hrid, String.eqb_refl.
      unfold apply_updates. simpl. f_equal.
      destruct r as [[i ti st en] de ad lo re rm ca ua]. simpl in *.
      unfold stored_id in Hrid. simpl in Hrid. now subst i.
    + intros x. destruct (String.eqb (stored_id x) event_id); reflexivity.
  - intros other Hne. rewrite find_map_same_id.
    + destruct (List.find (fun x => String.eqb (stored_id x) other)
                  (events_table db)) as [x|] eqn:Hx; [|reflexivity].
      simpl. apply List.find_some in Hx. destruct Hx as [_ Hx].
      apply String.eqb_eq in Hx.
      destruct (String.eqb_spec (stored_id x) event_id);
        [congruence | reflexivity].
    + intros x. destruct (String.eqb (stored_id x) event_id); reflexivity.
Qed.

(** Rescheduling an event that has both times, without a new end, keeps its
    duration: the event then starts at the new start and ends as much later
    as before; only [updated_at] changes besides, and no other event is
    touched.  Rescheduling an unknown event changes nothing and reports
    [False]. *)
Theorem reschedule_keeps_duration (db : Database) (now : datetime)
  (event_id : string) (new_start : datetime) :
  match get_event db event_id with
  | None => reschedule_event db now event_id new_start None = (db, false)
  | Some r =>
      forall s t,
        Event.start_time (Stored.event r) = Some s ->
        Event.end_time (Stored.event r) = Some t ->
        snd (reschedule_event db now event_id new_start None) = true
        /\ get_event (fst (reschedule_event db now event_id new_start None))
             event_id
           = Some (Stored.mk
                     (Event.mk (stored_id r) (Event.title (Stored.event r))
                        (Some new_start) (Some (new_start + (t - s))))
                     (Stored.description r) (Stored.all_day r)
                     (Stored.location r) (Stored.recurrence r)
                     (Stored.reminder_minutes r) (Stored.created_at r) now)
        /\ forall other, other <> event_id ->
             get_event (fst (reschedule_event db now event_id new_start None))
               other
             = get_event db other
  end.
Proof.
  destruct (get_event db event_id) as [r|] eqn:Hget.
  - intros s t Hs Ht. unfold reschedule_event. rewrite Hget, Hs, Ht.
    destruct (update_event_found db now event_id
                (mk_Updates None None (Some (Some new_start))
                   (Some (Some (new_start + (t - s)))) None None None None)
                r Hget) as (H1 & _ & H2 & H3).
    split; [exact H1|]. split; [|exact H3].
    rewrite H2. reflexivity.
  - unfold reschedule_event. now rewrite Hget.
Qed.

Lemma reschedule_keeps_duration_witness :
  snd (reschedule_event (mk_Database [stored_standup] []) 500 "e1"
         (at_time 738886 14 0) None) = true
  /\ get_event
       (fst (reschedule_event (mk_Database [stored_standup] []) 500 "e1"
               (at_time 738886 14 0) None))
       "e1"
     = Some (Stored.mk
               (Event.mk (stored_id stored_standup)
                  (Event.title (Stored.event stored_standup))
                  (Some (at_time 738886 14 0))
                  (Some (at_time 738886 14 0
                         + (at_time 738885 10 0 - at_time 738885 9 0))))
               (Stored.description stored_standup)
               (Stored.all_day stored_standup)
               (Stored.location stored_standup)
               (Stored.recurrence stored_standup)
               (Stored.reminder_minutes stored_standup)
               (Stored.created_at stored_standup) 500)
  /\ forall other, other <> "e1" ->
       get_event
         (fst (reschedule_event (mk_Database [stored_standup] []) 500 "e1"
                 (at_time 738886 14 0) None))
         other
       = get_event (mk_Database [stored_standup] []) other.
Proof.
  apply (reschedule_keeps_duration (mk_Database [stored_standup] []) 500
           "e1" (at_time 738886 14 0) (at_time 738885 9 0)
           (at_time 738885 10 0)); reflexivity.
Defined.

Lemma unique_row (l : list Stored) (event_id : string) (r x : Stored) :
  NoDup (map stored_id l) ->
  List.find (fun y => String.eqb (stored_id y) event_id) l = Some r ->
  In x l -> stored_id x = event_id -> x = r.
Proof.
  induction l as [|a l IH]; intros Hnd Hfind Hx Hid; [destruct Hx|].
  simpl in *. apply NoDup_cons in Hnd. destruct Hnd as [Hnotin Hnd].
  destruct (String.eqb_spec (stored_id a) event_id) as [Ha|Ha].
  - injection Hfind as <-. destruct Hx as [Hx|Hx]; [now symmetry|].
    exfalso. apply Hnotin, list_elem_of_In, in_map_iff.
    exists x. split; [congruence | exact Hx].
  - destruct Hx as [<-|Hx]; [contradiction|]. now apply IH.
Qed.

Lemma pending_rows_ext (r : Reminder) (l l' : list Stored) :
  map (fun e => (stored_id e, Event.title (Stored.event e),
                 Stored.description e)) l
  = map (fun e => (stored_id e, Event.title (Stored.event e),
                   Stored.description e)) l' ->
  map (fun e =>
         mk_Pending (Reminder.id r) (Reminder.event_id r)
           (Reminder.reminder_time r) (Event.title (Stored.event e))
           (Stored.description e))
    (List.filter (fun e => String.eqb (Reminder.event_id r) (stored_id e)) l)
  = map (fun e =>
           mk_Pending (Reminder.id r) (Reminder.event_id r)
             (Reminder.reminder_time r) (Event.title (Stored.event e))
             (Stored.description e))
      (List.filter (fun e => String.eqb (Reminder.event_id r) (stored_id e))
         l').
Proof.
  revert l'. induction l as [|a l IH]; intros [|a' l'] H; try discriminate;
    [reflexivity|].
  simpl in H. injection H as Hid Hti Hde Hrest. simpl.
  rewrite Hid. destruct (String.eqb _ (stored_id a')); simpl.
  - rewrite Hti, Hde. f_equal. now apply IH.
  - now apply IH.
Qed.

(** Rescheduling does not move reminders: with unique identifiers, the
    pending reminders are the same before and after, at any time, so a
    reminder stays due at the old start. *)
Theorem reschedule_leaves_reminders (db : Database) (now : datetime)
  (event_id : string) (new_start : datetime) (new_end : option datetime)
  (clock : datetime) :
  NoDup (map stored_id (events_table db)) ->
  get_pending_reminders
    (fst (reschedule_event db now event_id new_start new_end)) clock
  = get_pending_reminders db clock.
Proof.
  intros Hnd. unfold reschedule_event.
  destruct (get_event db event_id) as [r|] eqn:Hget; [|reflexivity].
  match goal with
  | |- context [update_event db now event_id ?k] => set (kwargs := k)
  end.
  assert (Hk : set_title kwargs = None /\ set_description kwargs = None)
    by (subst kwargs; split; reflexivity).
  clearbody kwargs. destruct Hk as [Hk1 Hk2].
  unfold update_event. rewrite Hget. unfold get_pending_reminders. simpl.
  apply flat_map_ext. intros rem. apply pending_rows_ext.
  rewrite map_map. apply map_ext_in. intros x Hx.
  destruct (String.eqb_spec (stored_id x) event_id) as [Hid|Hid];
    [|reflexivity].
  assert (Hxr : x = r) by (eapply unique_row; eassumption).
  subst x. unfold stored_id, apply_updates. simpl.
  now rewrite Hk1, Hk2.
Qed.

Lemma reschedule_leaves_reminders_witness :
  get_pending_reminders
    (fst (reschedule_event
            (mk_Database [stored_standup]
               [Reminder.mk "rem-1" "e1" (at_time 738885 8 50) false])
            500 "e1" (at_time 738886 14 0) None))
    (at_time 738885 9 0)
  = get_pending_reminders
      (mk_Database [stored_standup]
         [Reminder.mk "rem-1" "e1" (at_time 738885 8 50) false])
      (at_time 738885 9 0).
Proof.
  apply reschedule_leaves_reminders.
  repeat constructor. intros H. apply list_elem_of_In in H. destruct H.
Defined.

(** A reminder marked as sent is no longer pending, and the other pending
    reminders are the same as before. *)
Theorem sent_reminder_not_pending (db : Database) (reminder_id : string)
  (now : datetime) :
  Forall (fun p => pending_id p <> reminder_id)
    (get_pending_reminders (mark_reminder_sent db reminder_id) now)
  /\ forall p, pending_id p <> reminder_id ->
       (In p (get_pending_reminders (mark_reminder_sent db reminder_id) now)
        <-> In p (get_pending_reminders db now)).
Proof.
  unfold get_pending_reminders, mark_reminder_sent. simpl. split.
  - apply Forall_flat_map, Forall_forall. intros r Hr.
    apply list_elem_of_In, stable_sort_In, List.filter_In in Hr.
    destruct Hr as [Hr Hp]. apply in_map_iff in Hr.
    destruct Hr as (r0 & <- & _).
    apply Forall_map, Forall_forall. intros e _. simpl.
    destruct (String.eqb_spec (Reminder.id r0) reminder_id) as [Heq|Hne];
      simpl in *; [discriminate | exact Hne].
  - intros p Hp. rewrite !in_flat_map. split.
    + intros (r & Hr & Hin).
      apply stable_sort_In, List.filter_In in Hr. destruct Hr as [Hr Hf].
      apply in_map_iff in Hr. destruct Hr as (r0 & <- & Hr0).
      destruct (String.eqb_spec (Reminder.id r0) reminder_id) as [Heq|Hne].
      * simpl in Hf. discriminate.
      * exists r0. split; [|exact Hin].
        apply stable_sort_In, List.filter_In. now split.
    + intros (r & Hr & Hin).
      apply stable_sort_In, List.filter_In in Hr. destruct Hr as [Hr Hf].
      assert (Hne : Reminder.id r <> reminder_id).
      { apply in_map_iff in Hin. destruct Hin as (e & <- & _). exact Hp. }
      exists r. split; [|exact Hin].
      apply stable_sort_In, List.filter_In. split; [|exact Hf].
      apply in_map_iff. exists r. split; [|exact Hr].
      destruct (String.eqb_spec (Reminder.id r) reminder_id);
        [contradiction | reflexivity].
Qed.

Lemma sent_reminder_not_pending_witness :
  In (mk_Pending "rem-2" "e1" (at_time 738885 8 55) "Standup" "daily")
     (get_pending_reminders
        (mark_reminder_sent
           (mk_Database [stored_standup]
              [Reminder.mk "rem-1" "e1" (at_time 738885 8 50) false;
               Reminder.mk "rem-2" "e1" (at_time 738885 8 55) false])
           "rem-1")
        (at_time 738885 9 0))
  <-> In (mk_Pending "rem-2" "e1" (at_time 738885 8 55) "Standup" "daily")
        (get_pending_reminders
           (mk_Database [stored_standup]
              [Reminder.mk "rem-1" "e1" (at_time 738885 8 50) false;
               Reminder.mk "rem-2" "e1" (at_time 738885 8 55) false])
           (at_time 738885 9 0)).
Proof.
  apply (sent_reminder_not_pending
           (mk_Database [stored_standup]
              [Reminder.mk "rem-1" "e1" (at_time 738885 8 50) false;
               Reminder.mk "rem-2" "e1" (at_time 738885 8 55) false])
           "rem-1" (at_time 738885 9 0)).
  simpl. discriminate.
Defined.

(** A created event whose start is not after its end is fetched by the time
    blocker for every window that it meets. *)
Theorem created_event_is_fetched (db : Database) (fresh : Fresh)
  (title : string) (description : string) (s t : datetime) (all_day : bool)
  (location : string) (recurrence : option string)
  (reminder_minutes : option Z) (db' : Database) (event_id : string)
  (start_date end_date : datetime) :
  create_event db fresh title description (Some s) (Some t) all_day location
    recurrence reminder_minutes = Some (db', event_id) ->
  s <= t -> start_date <= end_date -> s <= end_date -> start_date <= t ->
  In (Event.mk event_id title (Some s) (Some t))
     (get_events (manager_of db') start_date end_date).
Proof.
  intros H Hst Hw H1 H2. apply create_event_inv in H.
  destruct H as (_ & _ & Hev).
  apply (get_events_In_iff (manager_of db') start_date end_date
           (Event.mk event_id title (Some s) (Some t)) s t Hw eq_refl eq_refl
           Hst).
  split; [|split; assumption].
  unfold manager_of. simpl. rewrite Hev, map_app. apply in_app_iff.
  right. now left.
Qed.

Lemma created_event_is_fetched_witness :
  In (Event.mk "id-1" "Standup" (Some (at_time 738885 9 0))
        (Some (at_time 738885 10 0)))
     (get_events
        (manager_of
           (mk_Database
              [Stored.mk
                 (Event.mk "id-1" "Standup" (Some (at_time 738885 9 0))
                    (Some (at_time 738885 10 0)))
                 "" false "" None None 100 101]
              []))
        (at_time 738885 8 0) (at_time 738885 18 0)).
Proof.
  apply (created_event_is_fetched empty_database fresh1 "Standup" ""
           (at_time 738885 9 0) (at_time 738885 10 0) false "" None None);
    [reflexivity | unfold_units; lia ..].
Defined.

Lemma NoDup_map_filter {A B : Type} (g : A -> B) (p : A -> bool)
  (l : list A) :
  NoDup (map g l) -> NoDup (map g (List.filter p l)).
Proof.
  induction l as [|a l IH]; intros H; simpl; [constructor|].
  simpl in H. apply NoDup_cons in H. destruct H as [Hnotin Hnd].
  destruct (p a); simpl; [|now apply IH].
  constructor; [|now apply IH].
  intros Hin. apply Hnotin.
  apply list_elem_of_In, in_map_iff in Hin. destruct Hin as (x & Hx & Hin).
  apply List.filter_In in Hin. destruct Hin as [Hin _].
  apply list_elem_of_In, in_map_iff. exists x. now split.
Qed.

(** Identifiers stay unique: when no two stored events share an identifier,
    none do after an event is created, updated, rescheduled or deleted. *)
Theorem identifiers_stay_unique (db : Database) :
  NoDup (map stored_id (events_table db)) ->
  (forall fresh title description start_time end_time all_day location
          recurrence reminder_minutes db' event_id,
      create_event db fresh title description start_time end_time all_day
        location recurrence reminder_minutes = Some (db', event_id) ->
      NoDup (map stored_id (events_table db')))
  /\ (forall now event_id kwargs,
        NoDup (map stored_id
                 (events_table (fst (update_event db now event_id kwargs)))))
  /\ (forall now event_id new_start new_end,
        NoDup (map stored_id
                 (events_table
                    (fst (reschedule_event db now event_id new_start
                            new_end)))))
  /\ (forall event_id,
        NoDup (map stored_id
                 (events_table (fst (delete_event db event_id))))).
Proof.
  intros Hnd.
  assert (Hupd : forall now event_id kwargs,
             NoDup (map stored_id
                      (events_table
                         (fst (update_event db now event_id kwargs))))).
  { intros now event_id kwargs. unfold update_event.
    destruct (get_event db event_id); [|exact Hnd]. simpl.
    rewrite map_map.
    erewrite map_ext; [exact Hnd|].
    intros x. simpl.
    destruct (String.eqb (stored_id x) event_id); reflexivity. }
  split; [|split; [exact Hupd|split]].
  - intros fresh title description start_time end_time all_day location
      recurrence reminder_minutes db' event_id H.
    apply create_event_inv in H. destruct H as (_ & Hnone & ->).
    rewrite map_app. apply NoDup_app. split; [exact Hnd|].
    split; [|apply NoDup_singleton].
    intros x Hx Hx'. apply list_elem_of_singleton in Hx'. subst x.
    apply list_elem_of_In, in_map_iff in Hx. destruct Hx as (y & Hy & Hin).
    unfold get_event in Hnone.
    apply (List.find_none _ _ Hnone) in Hin.
    unfold stored_id in *. simpl in *.
    rewrite Hy, String.eqb_refl in Hin. discriminate.
  - intros now event_id new_start new_end. unfold reschedule_event.
    destruct (get_event db event_id); [apply Hupd | exact Hnd].
  - intros event_id. unfold delete_event. simpl.
    now apply NoDup_map_filter.
Qed.

Lemma identifiers_stay_unique_witness :
  NoDup (map stored_id
           (events_table
              (fst (delete_event (mk_Database [stored_standup] []) "e1")))).
Proof.
  apply (identifiers_stay_unique (mk_Database [stored_standup] [])).
  repeat constructor. intros H. apply list_elem_of_In in H. destruct H.
Defined.

(** ** Calls that return *)


